(** * MISMO XSD to RDF/OWL transformer: classifier, emitters, resolver

    A shallow embedding of [src/ontology/transform_mismo_xsd.py]
    (class [MISMOXSDTransformer]) and the properties of its pattern
    classifier, pattern emitters, inheritance resolver, consistency pass
    and main loop.

    Conventions of the embedding.
    - A Python [str] is a [string]; each [ascii] stands for one code point
      below 256.  [None] is the [None] of [option].
    - An [xml.etree.ElementTree.Element] is an [Element]: tag in Clark
      notation, attributes, text and children.
    - A Python [dict] is an association list in insertion order
      ([dict_set] keeps the position of a key that is already present).
    - A Turtle statement, an f-string of the source, is a [Stmt]; [render]
      gives its text.  The holes of each f-string are the fields.
    - The instance fields of the transformer form the record [Transformer];
      methods that assign to them are written in the state monad [M]. *)

From Stdlib Require Import List String Ascii Bool Arith Lia.
Import ListNotations.
Open Scope string_scope.
Open Scope list_scope.

Set Implicit Arguments.

(* ================================================================== *)
(** ** Python strings *)

Module PyStr.

Definition dquote : ascii := "034"%char.
Definition backslash : ascii := "092"%char.
Definition newline : ascii := "010"%char.

Definition chr (c : ascii) : string := String c EmptyString.

Definition DQ : string := chr dquote.
Definition NL : string := chr newline.

(** [bool(s)] for a string that may be [None]. *)
Definition truthy (o : option string) : bool :=
  match o with
  | Some s => negb (s =? "")%string
  | None => false
  end.

(** [str(x)] inside an f-string, for a value that may be [None]. *)
Definition str_of (o : option string) : string :=
  match o with
  | Some s => s
  | None => "None"
  end.

(** [s.startswith(p)] *)
Definition startswith (s p : string) : bool := String.prefix p s.

(** [s.endswith(suf)]: some suffix of [s] is [suf]. *)
Fixpoint endswith (s suf : string) : bool :=
  (s =? suf)%string ||
  match s with
  | EmptyString => false
  | String _ r => endswith r suf
  end.

(** [sub in s] *)
Fixpoint contains (sub s : string) : bool :=
  String.prefix sub s ||
  match s with
  | EmptyString => false
  | String _ r => contains sub r
  end.

(** [c.isspace()] on the code points below 256. *)
Definition isspace (c : ascii) : bool :=
  let n := nat_of_ascii c in
  (((9 <=? n) && (n <=? 13)) || ((28 <=? n) && (n <=? 32))
   || (n =? 133) || (n =? 160))%nat.

Fixpoint lstrip (s : string) : string :=
  match s with
  | EmptyString => EmptyString
  | String c r => if isspace c then lstrip r else s
  end.

Fixpoint rstrip (s : string) : string :=
  match s with
  | EmptyString => EmptyString
  | String c r =>
      let r' := rstrip r in
      if isspace c && (r' =? "")%string then EmptyString else String c r'
  end.

(** [s.strip()] *)
Definition strip (s : string) : string := rstrip (lstrip s).

(** [s.replace(c, by)] for a one-character pattern [c]. *)
Fixpoint replace_char (c : ascii) (by_ : string) (s : string) : string :=
  match s with
  | EmptyString => EmptyString
  | String a r =>
      ((if Ascii.eqb a c then by_ else chr a) ++ replace_char c by_ r)%string
  end.

(** [sep.join(l)] *)
Fixpoint join (sep : string) (l : list string) : string :=
  match l with
  | [] => EmptyString
  | [x] => x
  | x :: r => (x ++ sep ++ join sep r)%string
  end.

(** [s.split(c)] for a one-character separator: the fields between
    the separators, empty fields included. *)
Fixpoint split_char (c : ascii) (s : string) : list string :=
  match s with
  | EmptyString => [EmptyString]
  | String a r =>
      if Ascii.eqb a c then EmptyString :: split_char c r
      else match split_char c r with
           | [] => [chr a]
           | w :: ws => String a w :: ws
           end
  end.

(** [s.split()]: the maximal runs of characters that are not
    whitespace. *)
Fixpoint split_ws_aux (cur : string) (s : string) : list string :=
  match s with
  | EmptyString => if (cur =? "")%string then [] else [cur]
  | String a r =>
      if isspace a
      then (if (cur =? "")%string then split_ws_aux "" r
            else cur :: split_ws_aux "" r)
      else split_ws_aux (cur ++ chr a) r
  end.

Definition split_ws (s : string) : list string := split_ws_aux "" s.

(** [s[:-1]] *)
Fixpoint drop_last (s : string) : string :=
  match s with
  | EmptyString => EmptyString
  | String _ EmptyString => EmptyString
  | String c r => String c (drop_last r)
  end.

(** [x in l] for a list (or set) of strings. *)
Definition mem (x : string) (l : list string) : bool :=
  existsb (String.eqb x) l.

End PyStr.
Import PyStr.

(** The methods of [str] that map case depend on the Unicode tables and
    the iteration order of a [set] depends on the hash seed of the run:
    the transformer is read relative to them. *)
Record PyRuntime : Type := {
  py_lower : string -> string;        (* [s.lower()] *)
  py_title : string -> string;        (* [s.title()] *)
  py_capitalize : string -> string;   (* [s.capitalize()] *)
  py_isupper : string -> bool;        (* [s.isupper()] *)
  py_set_iter : list string -> list string  (* order of [for x in a_set] *)
}.

(* ================================================================== *)
(** ** Python dictionaries (insertion ordered) *)

Section Dict.
Variable V : Type.

Definition dict : Type := list (string * V).

Fixpoint dict_get (d : dict) (k : string) : option V :=
  match d with
  | [] => None
  | (k', v) :: r => if (k' =? k)%string then Some v else dict_get r k
  end.

Definition dict_mem (d : dict) (k : string) : bool :=
  match dict_get d k with Some _ => true | None => false end.

(** [d[k] = v] *)
Fixpoint dict_set (d : dict) (k : string) (v : V) : dict :=
  match d with
  | [] => [(k, v)]
  | (k', v') :: r =>
      if (k' =? k)%string then (k', v) :: r else (k', v') :: dict_set r k v
  end.
End Dict.

(* ================================================================== *)
(** ** ElementTree elements *)

#[warnings="-register-all"]
Inductive Element : Type :=
| Elem (tag : string) (attrib : list (string * string))
       (text : option string) (children : list Element).

Definition tag (e : Element) : string :=
  match e with Elem t _ _ _ => t end.
Definition attrib (e : Element) : list (string * string) :=
  match e with Elem _ a _ _ => a end.
Definition text (e : Element) : option string :=
  match e with Elem _ _ x _ => x end.
Definition children (e : Element) : list Element :=
  match e with Elem _ _ _ c => c end.

(** [e.get(k)] *)
Definition get (e : Element) (k : string) : option string :=
  dict_get (attrib e) k.

(** [e.get(k, default)] *)
Definition get_or (e : Element) (k default : string) : string :=
  match get e k with Some v => v | None => default end.

(** [bool(e)]: an element is true when it has children. *)
Definition elem_truthy (e : Element) : bool :=
  match children e with [] => false | _ :: _ => true end.

(** [e.iter()]: the element and its descendants in document order. *)
Fixpoint iter (e : Element) : list Element :=
  match e with
  | Elem _ _ _ cs => e :: flat_map iter cs
  end.

Definition descendants (e : Element) : list Element :=
  flat_map iter (children e).

(** The [xsd] entry of [self.namespaces] applied to a local name. *)
Definition xsd (local : string) : string :=
  ("{http://www.w3.org/2001/XMLSchema}" ++ local)%string.

(** [e.findall('.//xsd:local', self.namespaces)] *)
Definition findall (e : Element) (local : string) : list Element :=
  filter (fun d => (tag d =? xsd local)%string) (descendants e).

(** [e.find('.//xsd:local', self.namespaces)] *)
Definition find (e : Element) (local : string) : option Element :=
  match findall e local with
  | [] => None
  | d :: _ => Some d
  end.

(** [doc.text if doc is not None else default], with [doc] the first
    [xsd:documentation] below [e]. *)
Definition doc_text_or (e : Element) (default : string) : option string :=
  match find e "documentation" with
  | Some doc => text doc
  | None => Some default
  end.

(* ================================================================== *)
(** ** Type registry and containment graph *)

(** An entry of [self.complex_type_info]. *)
Record TypeInfo : Type := {
  is_owl_class : bool;
  comment : option string;
  element : Element
}.

(** An entry of a list of [self.hierarchy_data]: the dict with the keys
    [name], [type] and [max_occurs]. *)
Record Contained : Type := {
  c_name : string;
  c_type : string;
  c_max_occurs : string
}.

Definition Registry : Type := dict TypeInfo.
Definition Hierarchy : Type := dict (list Contained).

(** A statement of the output.  [SDecl] is the f-string
    [subject a rdf_type ; p1 o1 ; ... ; pn on .] with the continuation
    lines indented by [indent]; [STriple] is [subject predicate object .];
    [SNoted] is a triple under a [# note] line; [SRestriction] is the
    cardinality restriction of [establish_class_hierarchies]; [SLine] is
    a line of text (prefix, heading or blank line). *)
Inductive Stmt : Type :=
| SLine (line : string)
| SDecl (indent : nat) (subject rdf_type : string)
        (props : list (string * string))
| STriple (subject predicate object : string)
| SNoted (note : string) (subject predicate object : string)
| SRestriction (subject on_property : string).

(** The instance fields set by [__init__] and [transform_xsd]. *)
Record Transformer : Type := {
  transformed_types : list string;
  ttl_statements : list Stmt;
  collection_element_pairs : dict (list string);
  pending_hierarchies : list (string * string);
  complex_type_info : Registry;
  hierarchy_data : Hierarchy;
  disable_pattern_007 : bool;
  xsd_root : option Element
}.

(** [MISMOXSDTransformer(disable_pattern_007)] *)
Definition init (disable : bool) : Transformer :=
  {| transformed_types := [];
     ttl_statements := [];
     collection_element_pairs := [];
     pending_hierarchies := [];
     complex_type_info := [];
     hierarchy_data := [];
     disable_pattern_007 := disable;
     xsd_root := None |}.

(** The loop body of [analyze_xsd_structure] for one kind of type. *)
Definition analyze_one (owl : bool) (kind : string)
    (info : Registry) (ty : Element) : Registry :=
  match get ty "name" with
  | Some type_name =>
      if truthy (Some type_name) then
        dict_set info type_name
          {| is_owl_class := owl;
             comment := doc_text_or ty (kind ++ type_name)%string;
             element := ty |}
      else info
  | None => info
  end.

(** [analyze_xsd_structure]: the registry after the call, from the one
    before it. *)
Definition analyze_xsd_structure (root : Element) (info : Registry)
  : Registry :=
  if negb (elem_truthy root) then info
  else
    let info1 :=
      fold_left (analyze_one true "Complex type: ") (findall root "complexType") info in
    fold_left (analyze_one false "Simple type: ") (findall root "simpleType") info1.

(** The inner loop of [build_hierarchy_data] over the elements of the
    first sequence. *)
Definition contained_of (info : Registry) (complex_type : Element)
  : list Contained :=
  match find complex_type "sequence" with
  | None => []
  | Some sequence =>
      flat_map
        (fun elem =>
           match get elem "name", get elem "type" with
           | Some elem_name, Some elem_type =>
               if truthy (Some elem_name) && truthy (Some elem_type) then
                 match dict_get info elem_type with
                 | Some ti =>
                     if is_owl_class ti then
                       [ {| c_name := elem_name;
                            c_type := elem_type;
                            c_max_occurs := get_or elem "maxOccurs" "1" |} ]
                     else []
                 | None => []
                 end
               else []
           | _, _ => []
           end)
        (findall sequence "element")
  end.

(** [build_hierarchy_data] *)
Definition build_hierarchy_data (info : Registry) (hd : Hierarchy)
  : Hierarchy :=
  fold_left
    (fun hd (kv : string * TypeInfo) =>
       let (type_name, type_info) := kv in
       if negb (is_owl_class type_info) then hd
       else
         match contained_of info (element type_info) with
         | [] => hd
         | contained_types => dict_set hd type_name contained_types
         end)
    info hd.

(* ================================================================== *)
(** ** Inheritance resolver *)

(** [if p not in parents: parents.append(p)] *)
Definition append_new (parents : list string) (p : string) : list string :=
  if mem p parents then parents else parents ++ [p].

(** [get_parent_types] *)
Definition get_parent_types (self : Transformer) (element_name : string)
  : list string :=
  fold_left
    (fun parents (kv : string * list Contained) =>
       let (parent_type, contained_types) := kv in
       fold_left
         (fun parents contained =>
            if (c_name contained =? element_name)%string
               || (c_type contained =? element_name)%string
            then append_new parents parent_type
            else parents)
         contained_types parents)
    (hierarchy_data self) [].

(** [_determine_collection_parents]; the block that would consult
    [_is_top_level_collection] and [_find_root_container] is commented
    out in the source and has no counterpart here. *)
Definition _determine_collection_parents (self : Transformer)
    (collection_name : string) : list string :=
  fold_left
    (fun parents (kv : string * list Contained) =>
       let (parent_type, contained_types) := kv in
       fold_left
         (fun parents contained =>
            if (c_name contained =? collection_name)%string
            then append_new parents parent_type
            else if truthy (Some (c_type contained))
                    && (c_type contained =? collection_name)%string
            then append_new parents parent_type
            else parents)
         contained_types parents)
    (hierarchy_data self) [].

(** [_is_top_level_collection] *)
Definition _is_top_level_collection (self : Transformer)
    (collection_name : string) : bool :=
  negb (existsb
          (fun kv : string * list Contained =>
             existsb (fun contained => (c_name contained =? collection_name)%string)
                     (snd kv))
          (hierarchy_data self)).

(** [l.sort(key=lambda x: x[1], reverse=True)]: a stable sort by
    decreasing key. *)
Fixpoint insert_desc (x : string * nat) (l : list (string * nat))
  : list (string * nat) :=
  match l with
  | [] => [x]
  | y :: r => if (snd y <=? snd x)%nat then x :: l else y :: insert_desc x r
  end.

Definition sort_desc (l : list (string * nat)) : list (string * nat) :=
  fold_right insert_desc [] l.

(** [_find_root_container] *)
Definition _find_root_container (self : Transformer) : option string :=
  let potential_roots :=
    flat_map
      (fun kv : string * list Contained =>
         if (5 <? List.length (snd kv))%nat
         then [(fst kv, List.length (snd kv))] else [])
      (hierarchy_data self) in
  match sort_desc potential_roots with
  | [] => None
  | r :: _ => Some (fst r)
  end.

(* ================================================================== *)
(** ** Turtle text *)

Definition quoted (s : string) : string := (DQ ++ s ++ DQ)%string.
Definition mismo (s : string) : string := ("mismo:" ++ s)%string.

Fixpoint spaces (n : nat) : string :=
  match n with
  | O => EmptyString
  | S k => String " " (spaces k)
  end.

Definition render (st : Stmt) : string :=
  (match st with
   | SLine l => l
   | SDecl ind subj ty props =>
       subj ++ " a " ++ ty
       ++ String.concat ""
            (map (fun po : string * string =>
                    " ;" ++ NL ++ spaces ind ++ fst po ++ " " ++ snd po) props)
       ++ " ."
   | STriple subj p o => subj ++ " " ++ p ++ " " ++ o ++ " ."
   | SNoted note subj p o =>
       "# " ++ note ++ NL ++ subj ++ " " ++ p ++ " " ++ o ++ " ."
   | SRestriction subj onp =>
       subj ++ " rdfs:subClassOf [" ++ NL
       ++ "    a owl:Restriction ;" ++ NL
       ++ "    owl:onProperty " ++ onp ++ " ;" ++ NL
       ++ "    owl:minCardinality " ++ quoted "0" ++ "^^xsd:nonNegativeInteger" ++ NL
       ++ "] ."
   end)%string.

(** [x = e.get(k)] followed by [if x:] *)
Definition get_truthy (e : Element) (k : string) : option string :=
  match get e k with
  | Some v => if truthy (Some v) then Some v else None
  | None => None
  end.

(** [_format_type_reference] *)
Definition _format_type_reference (type_name : string) : string :=
  if negb (truthy (Some type_name)) then type_name
  else if contains ":" type_name then type_name
  else mismo type_name.

(** [_format_comment_for_ttl] *)
Definition _format_comment_for_ttl (comment : option string) : string :=
  match comment with
  | None => ""
  | Some c =>
      if negb (truthy (Some c)) then ""
      else
        let comment := strip c in
        let escaped_comment :=
          replace_char dquote (String backslash DQ) comment in
        if contains NL comment
        then (DQ ++ DQ ++ DQ ++ NL ++ escaped_comment ++ NL ++ DQ ++ DQ ++ DQ)%string
        else (DQ ++ escaped_comment ++ DQ)%string
  end.

(** The comment of a literal f-string. *)
Definition fmt (s : string) : string := _format_comment_for_ttl (Some s).

(* ================================================================== *)
(** ** Pattern classifier *)

Inductive Pattern : Type :=
| Pattern_001 | Pattern_001_1 | Pattern_002 | Pattern_003 | Pattern_004
| Pattern_005 | Pattern_006 | Pattern_007 | Pattern_008 | Pattern_009
| UNKNOWN_PATTERN.

(** The string [find_pattern_type] returns. *)
Definition pattern_str (p : Pattern) : string :=
  match p with
  | Pattern_001 => "Pattern 001"
  | Pattern_001_1 => "Pattern 001.1"
  | Pattern_002 => "Pattern 002"
  | Pattern_003 => "Pattern 003"
  | Pattern_004 => "Pattern 004"
  | Pattern_005 => "Pattern 005"
  | Pattern_006 => "Pattern 006"
  | Pattern_007 => "Pattern 007"
  | Pattern_008 => "Pattern 008"
  | Pattern_009 => "Pattern 009"
  | UNKNOWN_PATTERN => "UNKNOWN PATTERN"
  end.

Definition is_some {A : Type} (o : option A) : bool :=
  match o with Some _ => true | None => false end.

(** [_is_extension_type] *)
Definition _is_extension_type (type_name : string) : bool :=
  existsb (fun indicator => contains indicator type_name)
          ["EXTENSION"; "MISMO_BASE"; "OTHER_BASE"].

(** [_is_extension_pattern] *)
Definition _is_extension_pattern (e : Element) : bool :=
  let name := get_or e "name" "" in
  if endswith name "EXTENSION" then true
  else if endswith (tag e) "complexType" then
    match find e "sequence" with
    | Some sequence =>
        let elements := findall sequence "element" in
        if (List.length elements =? 2)%nat then
          let element_names := map (fun elem => get_or elem "name" "") elements in
          forallb (fun n => mem n ["MISMO"; "OTHER"]) element_names
          && mem "MISMO" element_names && mem "OTHER" element_names
        else false
    | None => false
    end
  else false.

(** [isPattern003] *)
Definition isPattern003 (e : Element) : bool := is_some (find e "any").

(** [isPattern005] *)
Definition isPattern005 (e : Element) : bool :=
  endswith (tag e) "EXTENSION" || _is_extension_pattern e.

(** [isPattern004] *)
Definition isPattern004 (e : Element) : bool :=
  is_some (find e "simpleContent").

Definition collection_name_indicators : list string :=
  ["MESSAGE"; "MESSAGES"; "VERSIONS"; "SETS"; "RELATIONSHIPS"; "SIGNATURES";
   "COLLECTIONS"; "ABOUT_VERSIONS"; "DEAL_SETS"; "DOCUMENT_SETS";
   "SYSTEM_SIGNATURES"; "ACCESS_STREETS"; "ACCESSIBILITY_FEATURES";
   "LOAN_PRODUCTS"; "BORROWERS"; "PROPERTIES"; "ADDRESSES"; "PHONES";
   "EMAILS"; "IDENTIFIERS"; "DOCUMENTS"; "LOANS"; "TRANSACTIONS";
   "PAYMENTS"; "ACCOUNTS"].

(** The test of Method 1 of [is_collection_type] on one element of the
    sequence: true when the loop returns [True] at this element. *)
Definition collection_member (self : Transformer) (elem : Element) : bool :=
  match get_truthy elem "type" with
  | Some elem_type =>
      match dict_get (complex_type_info self) elem_type with
      | Some ti =>
          let elem_type_element := element ti in
          if elem_truthy elem_type_element && isPattern004 elem_type_element
          then false
          else if elem_truthy elem_type_element && isPattern005 elem_type_element
          then false
          else is_owl_class ti
      | None => false
      end
  | None => false
  end.

(** [is_collection_type] *)
Definition is_collection_type (self : Transformer) (e : Element) : bool :=
  let name := get_or e "name" "UNNAMED" in
  (match find e "sequence" with
   | Some sequence => existsb (collection_member self) (findall sequence "element")
   | None => false
   end)
  || mem name collection_name_indicators.

(** [has_only_attributes] *)
Definition has_only_attributes (e : Element) : bool :=
  let has_elements :=
    match find e "sequence" with
    | Some sequence =>
        match findall sequence "element" with [] => false | _ :: _ => true end
    | None => false
    end in
  if has_elements then false
  else match findall e "attribute" with [] => false | _ :: _ => true end.

(** [should_ignore_element] *)
Definition should_ignore_element (e : Element) : bool :=
  if is_some (find e "union") then false
  else if endswith (tag e) "EXTENSION" then true
  else if is_some (find e "any") then true
  else
    let all_extension :=
      endswith (tag e) "complexType" &&
      match find e "sequence" with
      | Some sequence =>
          forallb
            (fun elem =>
               let elem_type := get_or elem "type" "" in
               negb (truthy (Some elem_type) && negb (_is_extension_type elem_type)))
            (findall sequence "element")
      | None => false
      end in
    if all_extension then true
    else
      let has_non_ignorable_attrs :=
        endswith (tag e) "complexType" &&
        match find e "simpleContent" with
        | Some simple_content =>
            match find simple_content "extension" with
            | Some extension =>
                existsb (fun attr => truthy (get attr "name"))
                        (findall extension "attribute")
            | None => false
            end
        | None => false
        end in
      if has_non_ignorable_attrs then false
      else
        let has_ignorable_groups :=
          existsb
            (fun attr_group =>
               match get_truthy attr_group "ref" with
               | Some ref => contains "xlink:" ref || contains "AttributeExtension" ref
               | None => false
               end)
            (findall e "attributeGroup") in
        if has_ignorable_groups then
          negb (is_some (find e "element"))
          && negb (is_some (find e "attribute"))
          && negb (is_some (find e "simpleContent"))
        else false.

(** The decision of [find_pattern_type], as a function of the
    transformer it reads. *)
Definition classify (self : Transformer) (e : Element) : Pattern :=
  if endswith (tag e) "simpleType" then
    if is_some (find e "union") then Pattern_001_1
    else if is_some (find e "enumeration") then Pattern_002
    else Pattern_001
  else if endswith (tag e) "complexType" then
    if isPattern003 e then Pattern_003
    else if isPattern005 e then Pattern_005
    else if isPattern004 e then Pattern_004
    else if is_collection_type self e then Pattern_007
    else if has_only_attributes e then Pattern_009
    else Pattern_006
  else if should_ignore_element e then Pattern_008
  else UNKNOWN_PATTERN.

(* ================================================================== *)
(** ** The state monad of the transformer *)

Definition M (A : Type) : Type := Transformer -> A * Transformer.

Definition ret {A : Type} (a : A) : M A := fun self => (a, self).

Definition bind {A B : Type} (m : M A) (k : A -> M B) : M B :=
  fun self => let (a, self') := m self in k a self'.

Definition get_self : M Transformer := fun self => (self, self).

Definition modify (f : Transformer -> Transformer) : M unit :=
  fun self => (tt, f self).

Notation "x <- m ;; k" := (bind m (fun x => k))
  (at level 61, m at next level, right associativity).
Notation "m ;;; k" := (bind m (fun _ => k))
  (at level 61, right associativity).

Definition set_transformed_types (v : list string) (t : Transformer) :=
  {| transformed_types := v;
     ttl_statements := ttl_statements t;
     collection_element_pairs := collection_element_pairs t;
     pending_hierarchies := pending_hierarchies t;
     complex_type_info := complex_type_info t;
     hierarchy_data := hierarchy_data t;
     disable_pattern_007 := disable_pattern_007 t;
     xsd_root := xsd_root t |}.

Definition set_ttl_statements (v : list Stmt) (t : Transformer) :=
  {| transformed_types := transformed_types t;
     ttl_statements := v;
     collection_element_pairs := collection_element_pairs t;
     pending_hierarchies := pending_hierarchies t;
     complex_type_info := complex_type_info t;
     hierarchy_data := hierarchy_data t;
     disable_pattern_007 := disable_pattern_007 t;
     xsd_root := xsd_root t |}.

Definition set_tracking (pairs : dict (list string))
    (pending : list (string * string)) (t : Transformer) :=
  {| transformed_types := transformed_types t;
     ttl_statements := ttl_statements t;
     collection_element_pairs := pairs;
     pending_hierarchies := pending;
     complex_type_info := complex_type_info t;
     hierarchy_data := hierarchy_data t;
     disable_pattern_007 := disable_pattern_007 t;
     xsd_root := xsd_root t |}.

Definition set_complex_type_info (v : Registry) (t : Transformer) :=
  {| transformed_types := transformed_types t;
     ttl_statements := ttl_statements t;
     collection_element_pairs := collection_element_pairs t;
     pending_hierarchies := pending_hierarchies t;
     complex_type_info := v;
     hierarchy_data := hierarchy_data t;
     disable_pattern_007 := disable_pattern_007 t;
     xsd_root := xsd_root t |}.

Definition set_hierarchy_data (v : Hierarchy) (t : Transformer) :=
  {| transformed_types := transformed_types t;
     ttl_statements := ttl_statements t;
     collection_element_pairs := collection_element_pairs t;
     pending_hierarchies := pending_hierarchies t;
     complex_type_info := complex_type_info t;
     hierarchy_data := v;
     disable_pattern_007 := disable_pattern_007 t;
     xsd_root := xsd_root t |}.

Definition set_xsd_root (v : option Element) (t : Transformer) :=
  {| transformed_types := transformed_types t;
     ttl_statements := ttl_statements t;
     collection_element_pairs := collection_element_pairs t;
     pending_hierarchies := pending_hierarchies t;
     complex_type_info := complex_type_info t;
     hierarchy_data := hierarchy_data t;
     disable_pattern_007 := disable_pattern_007 t;
     xsd_root := v |}.

(** [find_pattern_type] *)
Definition find_pattern_type (e : Element) : M Pattern :=
  self <- get_self ;;
  ret (classify self e).

(** [track_collection_element_relationship] *)
Definition track_collection_element_relationship
    (collection_name element_name : string) : M unit :=
  modify (fun self =>
    let pairs := collection_element_pairs self in
    let old := match dict_get pairs collection_name with
               | Some l => l
               | None => []
               end in
    set_tracking (dict_set pairs collection_name (old ++ [element_name]))
                 (pending_hierarchies self ++ [(collection_name, element_name)])
                 self).

(* ================================================================== *)
(** ** Pattern emitters *)

(** The superclass part shared by Patterns 006, 007 and 009: the class
    declaration and one [rdfs:subClassOf] triple per parent, or the class
    declaration under [owl:Thing]. *)
Definition class_with_parents (indent : nat) (name comment_ttl : string)
    (parent_types : list string) : list Stmt :=
  match parent_types with
  | [] =>
      [SDecl indent (mismo name) "owl:Class"
         [("rdfs:label", quoted name);
          ("rdfs:comment", comment_ttl);
          ("rdfs:subClassOf", "owl:Thing")]]
  | _ :: _ =>
      SDecl indent (mismo name) "owl:Class"
        [("rdfs:label", quoted name);
         ("rdfs:comment", comment_ttl)]
      :: map (fun parent_type =>
                STriple (mismo name) "rdfs:subClassOf" (mismo parent_type))
             parent_types
  end.

(** The datatype property emitted for an attribute by Patterns 004, 006
    and 009, with the property name and label of each. *)
Definition attribute_property (name prop_name label_ttl : string)
    (attr : Element) (attr_name attr_type : string) : Stmt :=
  SDecl 4 (mismo prop_name) "owl:DatatypeProperty"
    [("rdfs:label", label_ttl);
     ("rdfs:comment",
      _format_comment_for_ttl (doc_text_or attr ("Attribute: " ++ attr_name)%string));
     ("rdfs:domain", mismo name);
     ("rdfs:range", _format_type_reference attr_type)].

(** [transform_pattern_001] *)
Definition transform_pattern_001 (e : Element) : list Stmt :=
  match get_truthy e "name" with
  | None => []
  | Some name =>
      match find e "restriction" with
      | None => []
      | Some restriction =>
          match get_truthy restriction "base" with
          | None => []
          | Some base =>
              let plain :=
                [SDecl 4 (mismo name) "rdfs:Datatype"
                   [("rdfs:label", quoted name);
                    ("rdfs:subClassOf", _format_type_reference base)]] in
              if (base =? "xsd:string")%string then
                match find restriction "maxLength" with
                | Some max_length =>
                    let max_value := get max_length "value" in
                    [SDecl 4 (mismo name) "rdfs:Datatype"
                       [("rdfs:label", quoted name);
                        ("rdfs:comment",
                         fmt ("String datatype with maximum length of "
                              ++ str_of max_value ++ " characters")%string);
                        ("rdfs:subClassOf", "xsd:string")]]
                | None => plain
                end
              else plain
          end
      end
  end.

(** [transform_pattern_001_1] *)
Definition transform_pattern_001_1 (e : Element) : list Stmt :=
  match get_truthy e "name" with
  | None => []
  | Some name =>
      let comment := doc_text_or e ("Union datatype: " ++ name)%string in
      match find e "union" with
      | None => []
      | Some union =>
          match get_truthy union "memberTypes" with
          | None => []
          | Some member_types =>
              let type_list := map strip (split_ws member_types) in
              let formatted_types :=
                map (fun type_name =>
                       if startswith type_name "xsd:" then type_name
                       else mismo type_name) type_list in
              [SDecl 4 (mismo name) "rdfs:Datatype"
                 [("rdfs:label", quoted name);
                  ("rdfs:comment", _format_comment_for_ttl comment);
                  ("rdfs:subClassOf", join ", " formatted_types)]]
          end
      end
  end.

(** The property emitted by [transform_pattern_002] for one
    [xsd:enumeration] with the value [enum_value]. *)
Definition enum_property (name : string) (enum : Element)
    (enum_value : string) : Stmt :=
  SDecl 4 (mismo enum_value) "rdf:Property"
    [("rdfs:label", quoted enum_value);
     ("rdfs:comment",
      _format_comment_for_ttl
        (doc_text_or enum ("Enumeration value: " ++ enum_value)%string));
     ("rdfs:subPropertyOf", mismo name)].

(** The base datatype emitted by [transform_pattern_002]. *)
Definition enum_base (name base : string) : Stmt :=
  SDecl 4 (mismo name) "rdfs:Datatype"
    [("rdfs:label", quoted name);
     ("rdfs:comment", fmt ("Base datatype for " ++ name ++ " enumerations")%string);
     ("rdfs:subClassOf", _format_type_reference base)].

(** [transform_pattern_002] *)
Definition transform_pattern_002 (e : Element) : list Stmt :=
  match get_truthy e "name" with
  | None => []
  | Some name =>
      match find e "restriction" with
      | None => []
      | Some restriction =>
          match get_truthy restriction "base" with
          | None => []
          | Some base =>
              enum_base name base
              :: flat_map
                   (fun enum =>
                      match get_truthy enum "value" with
                      | Some enum_value => [enum_property name enum enum_value]
                      | None => []
                      end)
                   (findall restriction "enumeration")
          end
      end
  end.

(** The two properties of [transform_pattern_003], from the property
    names, labels and comments chosen by the namespace of the wildcard. *)
Definition wildcard_properties
    (content_name content_label content_comment
     element_name element_label element_comment : string) : list Stmt :=
  [SDecl 4 (mismo content_name) "owl:DatatypeProperty"
     [("rdfs:label", fmt content_label);
      ("rdfs:comment", fmt content_comment);
      ("rdfs:range", "xsd:string")];
   SDecl 4 (mismo element_name) "owl:ObjectProperty"
     [("rdfs:label", fmt element_label);
      ("rdfs:comment", fmt element_comment);
      ("rdfs:range", "owl:Thing")]].

(** The properties of [transform_pattern_003] for a wildcard from other
    namespaces. *)
Definition wildcard_other_namespace : list Stmt :=
  wildcard_properties
    "hasOtherNamespaceElementContent"
    "has other namespace element content"
    "Property that holds the string content of any element from other namespaces"
    "hasOtherNamespaceElement"
    "has other namespace element"
    "Property representing complex elements that allows any elements from other namespaces (namespace='##other')".

(** The properties of [transform_pattern_003] for a wildcard from the
    target namespace. *)
Definition wildcard_target_namespace : list Stmt :=
  wildcard_properties
    "hasAnyElementContent"
    "has any element content"
    "Property that holds the string content of any element from the target namespace"
    "hasAnyElement"
    "has any element"
    "Property representing complex elements that allows any elements from the target namespace".

(** [transform_pattern_003] *)
Definition transform_pattern_003 (e : Element) : list Stmt :=
  match find e "any" with
  | None => []
  | Some any_element =>
      let namespace_attr := get_or any_element "namespace" "##targetNamespace" in
      if (namespace_attr =? "##other")%string then wildcard_other_namespace
      else wildcard_target_namespace
  end.

Section Emitters.

Variable rt : PyRuntime.

(** [to_camel_case] *)
Definition to_camel_case (name : string) : string :=
  if negb (truthy (Some name)) then name
  else
    match split_char "_" name with
    | [] => EmptyString
    | w :: ws =>
        (py_lower rt w ++ String.concat "" (map (py_capitalize rt) ws))%string
    end.

(** [s[0].lower() + s[1:] if s else s] *)
Definition lower_first (s : string) : string :=
  match s with
  | EmptyString => s
  | String c r => (py_lower rt (chr c) ++ r)%string
  end.

(** [s.lower().replace('_', ' ')] *)
Definition spaced_lower (s : string) : string :=
  replace_char "_" " " (py_lower rt s).

(** [transform_pattern_004] *)
Definition transform_pattern_004 (e : Element) : list Stmt :=
  match get_truthy e "name" with
  | None => []
  | Some name =>
      let comment := doc_text_or e ("Complex type: " ++ name)%string in
      match find e "simpleContent" with
      | None => []
      | Some simple_content =>
          match find simple_content "extension" with
          | None => []
          | Some extension =>
              match get_truthy extension "base" with
              | None => []
              | Some base =>
                  SDecl 4 (mismo name) "rdfs:Datatype"
                    [("rdfs:label", quoted name);
                     ("rdfs:comment", _format_comment_for_ttl comment);
                     ("rdfs:subClassOf", _format_type_reference base)]
                  :: flat_map
                       (fun attr =>
                          match get_truthy attr "name", get_truthy attr "type" with
                          | Some attr_name, Some attr_type =>
                              let prop_name := to_camel_case attr_name in
                              [attribute_property name prop_name (quoted prop_name)
                                 attr attr_name attr_type]
                          | _, _ => []
                          end)
                       (findall extension "attribute")
              end
          end
      end
  end.

(** [transform_pattern_005] *)
Definition transform_pattern_005 (e : Element) : list Stmt :=
  match find e "sequence" with
  | None => []
  | Some sequence =>
      flat_map
        (fun elem =>
           match get_truthy elem "name", get_truthy elem "type" with
           | Some elem_name, Some elem_type =>
               let elem_comment :=
                 doc_text_or elem
                   ("Property representing the " ++ elem_name
                    ++ " element of type " ++ elem_type)%string in
               let property_name :=
                 (if py_isupper rt elem_name
                  then "has" ++ py_title rt elem_name
                  else "has" ++ elem_name)%string in
               let range_type :=
                 if endswith elem_type "_BASE" then "owl:Thing"
                 else mismo elem_type in
               [SDecl 4 (mismo property_name) "owl:ObjectProperty"
                  [("rdfs:label", fmt ("has " ++ py_lower rt elem_name)%string);
                   ("rdfs:comment", _format_comment_for_ttl elem_comment);
                   ("rdfs:range", range_type)]]
           | _, _ => []
           end)
        (findall sequence "element")
  end.

(** The [hasExtension] property of Patterns 006 and 007. *)
Definition extension_property (indent : nat) (name elem_name elem_type : string)
  : Stmt :=
  SDecl indent (mismo "hasExtension") "owl:ObjectProperty"
    [("rdfs:label", fmt "has extension");
     ("rdfs:comment",
      fmt ("Property representing the " ++ elem_name
           ++ " element of type " ++ elem_type)%string);
     ("rdfs:domain", mismo name);
     ("rdfs:range", "owl:Thing")].

(** The test [elem_name == EXTENSION and elem_type.endswith(_EXTENSION)]
    of Patterns 006 and 007. *)
Definition is_extension_marker (elem_name elem_type : string) : bool :=
  (elem_name =? "EXTENSION")%string && endswith elem_type "_EXTENSION".

(** [transform_pattern_006] *)
Definition transform_pattern_006 (self : Transformer) (e : Element)
  : list Stmt :=
  match get_truthy e "name" with
  | None => []
  | Some name =>
      let comment := doc_text_or e ("Complex type: " ++ name)%string in
      let parent_types := get_parent_types self name in
      class_with_parents 12 name (_format_comment_for_ttl comment) parent_types
      ++ (match find e "sequence" with
          | None => []
          | Some sequence =>
              flat_map
                (fun elem =>
                   match get_truthy elem "name", get_truthy elem "type" with
                   | Some elem_name, Some elem_type =>
                       if is_extension_marker elem_name elem_type then
                         [extension_property 4 name elem_name elem_type]
                       else
                         [SDecl 4 (mismo (lower_first elem_name)) "owl:DatatypeProperty"
                            [("rdfs:label", fmt (spaced_lower elem_name));
                             ("rdfs:comment",
                              _format_comment_for_ttl
                                (doc_text_or elem ("Element: " ++ elem_name)%string));
                             ("rdfs:domain", mismo name);
                             ("rdfs:range", _format_type_reference elem_type)]]
                   | _, _ => []
                   end)
                (findall sequence "element")
          end)
      ++ flat_map
           (fun attr =>
              match get_truthy attr "name", get_truthy attr "type" with
              | Some attr_name, Some attr_type =>
                  [attribute_property name (lower_first attr_name)
                     (fmt (spaced_lower attr_name)) attr attr_name attr_type]
              | _, _ => []
              end)
           (findall e "attribute")
  end.

(** The contained class of [transform_pattern_007_new]. *)
Definition contained_class (name elem_name : string) : Stmt :=
  SDecl 8 (mismo elem_name) "owl:Class"
    [("rdfs:label", quoted elem_name);
     ("rdfs:comment",
      fmt ("Individual " ++ elem_name ++ " element contained in "
           ++ name ++ " collection")%string);
     ("rdfs:subClassOf", mismo name)].

(** The containment property of [transform_pattern_007_new]. *)
Definition contains_property (name elem_name : string) : Stmt :=
  SDecl 8 (mismo ("contains" ++ elem_name)) "owl:ObjectProperty"
    [("rdfs:label", quoted ("contains " ++ elem_name));
     ("rdfs:comment",
      fmt ("Relates " ++ name ++ " to individual " ++ elem_name
           ++ " instances")%string);
     ("owl:domain", mismo name);
     ("owl:range", mismo elem_name);
     ("rdfs:subPropertyOf", "rdf:member")].

(** The datatype property of the last branch of
    [transform_pattern_007_new]. *)
Definition collection_datatype_property (name elem_name elem_type : string)
  : Stmt :=
  SDecl 8 (mismo elem_name) "owl:DatatypeProperty"
    [("rdfs:label", quoted elem_name);
     ("rdfs:comment",
      fmt ("Property representing the " ++ elem_name ++ " element")%string);
     ("rdfs:domain", mismo name);
     ("rdfs:range",
      if truthy (Some elem_type) then _format_type_reference elem_type
      else "xsd:string")].

(** The test [elem_type in complex_type_info and it is an owl:Class]. *)
Definition is_class_type (info : Registry) (elem_type : string) : bool :=
  truthy (Some elem_type) &&
  match dict_get info elem_type with
  | Some ti => is_owl_class ti
  | None => false
  end.

(** The loop of [transform_pattern_007_new] over the contained types:
    the statements appended, in the state monad for the tracking. *)
Fixpoint pattern_007_loop (name : string) (contained_types : list Contained)
  : M (list Stmt) :=
  match contained_types with
  | [] => ret []
  | contained :: rest =>
      let elem_name := c_name contained in
      let elem_type := c_type contained in
      if is_extension_marker elem_name elem_type then
        more <- pattern_007_loop name rest ;;
        ret (extension_property 8 name elem_name elem_type :: more)
      else
        self <- get_self ;;
        if is_class_type (complex_type_info self) elem_type then
          track_collection_element_relationship name elem_name ;;;
          more <- pattern_007_loop name rest ;;
          ret (contained_class name elem_name
               :: contains_property name elem_name :: more)
        else
          more <- pattern_007_loop name rest ;;
          ret (collection_datatype_property name elem_name elem_type :: more)
  end.

(** [transform_pattern_007_new] *)
Definition transform_pattern_007_new (e : Element) : M (list Stmt) :=
  match get_truthy e "name" with
  | None => ret []
  | Some name =>
      let comment := doc_text_or e ("Collection type: " ++ name)%string in
      self <- get_self ;;
      match dict_get (hierarchy_data self) name with
      | None => ret []
      | Some contained_types =>
          let parent_types := _determine_collection_parents self name in
          more <- pattern_007_loop name contained_types ;;
          ret (class_with_parents 4 name
                 (fmt ("A collection containing multiple instances. "
                       ++ str_of comment)%string)
                 parent_types
               ++ more)
      end
  end.

(** [transform_pattern_008] *)
Definition transform_pattern_008 (e : Element) : list Stmt := [].

(** [transform_pattern_009] *)
Definition transform_pattern_009 (self : Transformer) (e : Element)
  : list Stmt :=
  match get_truthy e "name" with
  | None => []
  | Some name =>
      let comment := doc_text_or e ("Complex type: " ++ name)%string in
      let parent_types := get_parent_types self name in
      class_with_parents 12 name (_format_comment_for_ttl comment) parent_types
      ++ flat_map
           (fun attr =>
              match get_truthy attr "name", get_truthy attr "type" with
              | Some attr_name, Some attr_type =>
                  [attribute_property name attr_name (quoted attr_name)
                     attr attr_name attr_type]
              | _, _ => []
              end)
           (findall e "attribute")
  end.

(** [transform_element_new] *)
Definition transform_element_new (e : Element) : M (list Stmt) :=
  pattern_type <- find_pattern_type e ;;
  self <- get_self ;;
  match pattern_type with
  | Pattern_001 => ret (transform_pattern_001 e)
  | Pattern_001_1 => ret (transform_pattern_001_1 e)
  | Pattern_002 => ret (transform_pattern_002 e)
  | Pattern_003 => ret (transform_pattern_003 e)
  | Pattern_004 => ret (transform_pattern_004 e)
  | Pattern_005 => ret (transform_pattern_005 e)
  | Pattern_006 => ret (transform_pattern_006 self e)
  | Pattern_007 =>
      if disable_pattern_007 self then ret []
      else transform_pattern_007_new e
  | Pattern_008 => ret (transform_pattern_008 e)
  | Pattern_009 => ret (transform_pattern_009 self e)
  | UNKNOWN_PATTERN => ret []
  end.

End Emitters.

(* ================================================================== *)
(** ** Post-processing passes and the main loop *)

(** [add_prefixes] *)
Definition prefixes : list Stmt :=
  map SLine
    ["@prefix mismo: <http://www.mismo.org/residential/2009/schemas#> .";
     "@prefix owl: <http://www.w3.org/2002/07/owl#> .";
     "@prefix rdf: <http://www.w3.org/1999/02/22-rdf-syntax-ns#> .";
     "@prefix rdfs: <http://www.w3.org/2000/01/rdf-schema#> .";
     "@prefix skos: <http://www.w3.org/2004/02/skos/core#> .";
     "@prefix xsd: <http://www.w3.org/2001/XMLSchema#> .";
     "";
     "# MISMO XSD to RDF/RDFS/OWL Transformation";
     "# Generated from MISMO_3.6.0_B367.xsd";
     ""].

Definition extend_statements (l : list Stmt) : M unit :=
  modify (fun self => set_ttl_statements (ttl_statements self ++ l) self).

Definition add_prefixes : M unit := extend_statements prefixes.

(** [ensure_hierarchy_consistency] *)
Definition ensure_hierarchy_consistency (self : Transformer) : list Stmt :=
  flat_map
    (fun pair : string * string =>
       let (collection_name, element_name) := pair in
       SNoted ("Ensure hierarchy consistency: " ++ element_name
               ++ " is subclass of " ++ collection_name)%string
              (mismo element_name) "rdfs:subClassOf" (mismo collection_name)
       :: match _determine_collection_parents self collection_name with
          | [] =>
              [SNoted ("Ensure collection hierarchy: " ++ collection_name
                       ++ " is subclass of owl:Thing")%string
                      (mismo collection_name) "rdfs:subClassOf" "owl:Thing"]
          | parent_types =>
              map (fun parent_type =>
                     SNoted ("Ensure collection hierarchy: " ++ collection_name
                             ++ " is subclass of " ++ parent_type)%string
                            (mismo collection_name) "rdfs:subClassOf"
                            (mismo parent_type))
                  parent_types
          end)
    (pending_hierarchies self).

Definition common_patterns : list (string * string) :=
  [("ABOUT_VERSIONS", "ABOUT_VERSION");
   ("DEAL_SETS", "DEAL_SET");
   ("DOCUMENT_SETS", "DOCUMENT_SET");
   ("SYSTEM_SIGNATURES", "SYSTEM_SIGNATURE");
   ("RELATIONSHIPS", "RELATIONSHIP");
   ("SIGNATURES", "SIGNATURE");
   ("COLLECTIONS", "COLLECTION");
   ("VERSIONS", "VERSION");
   ("SETS", "SET")].

Definition pair_mem (p : string * string) (l : list (string * string)) : bool :=
  existsb (fun q => (fst q =? fst p)%string && (snd q =? snd p)%string) l.

(** [self.transformed_types.add(name)] *)
Definition set_add (x : string) (l : list string) : list string :=
  if mem x l then l else l ++ [x].

Section Passes.

Variable rt : PyRuntime.

(** [establish_class_hierarchies] *)
Definition establish_class_hierarchies (self : Transformer) : list Stmt :=
  let tt := transformed_types self in
  let pairs1 :=
    flat_map
      (fun processed_type =>
         if endswith processed_type "S" then
           let potential_element := drop_last processed_type in
           if mem potential_element tt
           then [(processed_type, potential_element)] else []
         else [])
      (py_set_iter rt tt) in
  let pairs :=
    fold_left
      (fun pairs (p : string * string) =>
         if mem (fst p) tt && mem (snd p) tt then
           if pair_mem p pairs then pairs else pairs ++ [p]
         else pairs)
      common_patterns pairs1 in
  flat_map
    (fun p : string * string =>
       let (collection_name, element_name) := p in
       [SDecl 4 (mismo ("contains" ++ element_name)) "owl:ObjectProperty"
          [("rdfs:label", quoted ("contains " ++ element_name));
           ("rdfs:comment",
            quoted ("Relates " ++ collection_name ++ " to individual "
                    ++ element_name ++ " instances"));
           ("owl:domain", mismo collection_name);
           ("owl:range", mismo element_name);
           ("rdfs:subPropertyOf", "rdf:member")];
        SRestriction (mismo collection_name)
                     (mismo ("contains" ++ element_name))])
    pairs.

(** The body of the two transformation steps of [transform_xsd]:
    transform the element and, when statements come back, append them
    with a blank line and record the name. *)
Definition transform_and_record (name : string) (e : Element) : M unit :=
  statements <- transform_element_new rt e ;;
  match statements with
  | [] => ret tt
  | _ :: _ =>
      extend_statements (statements ++ [SLine ""]) ;;;
      modify (fun self =>
                set_transformed_types (set_add name (transformed_types self)) self)
  end.

(** One iteration of the loop over [transformable_elements]. *)
Definition transform_step (e : Element) : M unit :=
  match get_truthy e "name" with
  | None => ret tt
  | Some name =>
      self <- get_self ;;
      if mem name (transformed_types self) then ret tt
      else transform_and_record name e
  end.

Fixpoint transform_loop (elements : list Element) : M unit :=
  match elements with
  | [] => ret tt
  | e :: rest => transform_step e ;;; transform_loop rest
  end.

(** The simple types of [transformable_elements]. *)
Definition transformable_simple (root : Element) : list Element :=
  filter
    (fun simple_type =>
       match get_truthy simple_type "name" with
       | Some type_name => negb (startswith type_name "xsd:")
       | None => false
       end)
    (findall root "simpleType").

(** The complex types of [transformable_elements]. *)
Definition transformable_complex (root : Element) : list Element :=
  filter
    (fun complex_type =>
       match get complex_type "name" with
       | Some name => negb (name =? "MESSAGE")%string
       | None => true
       end)
    (findall root "complexType").

(** [message_element] after the loop over the complex types: the last
    one named MESSAGE. *)
Definition find_message_element (root : Element) : option Element :=
  fold_left
    (fun message_element complex_type =>
       match get complex_type "name" with
       | Some name =>
           if (name =? "MESSAGE")%string then Some complex_type
           else message_element
       | None => message_element
       end)
    (findall root "complexType") None.

(** A post-processing pass of [transform_xsd]: when its statements are
    not empty they are appended under a heading. *)
Definition append_pass (heading : string) (statements : list Stmt) : M unit :=
  match statements with
  | [] => ret tt
  | _ :: _ =>
      extend_statements
        ([SLine ""; SLine heading; SLine ""] ++ statements ++ [SLine ""])
  end.

(** [transform_xsd], from the parsed root of the document. *)
Definition transform_xsd (root : Element) : M bool :=
  modify (set_xsd_root (Some root)) ;;;
  add_prefixes ;;;
  modify (fun self =>
            set_complex_type_info
              (analyze_xsd_structure root (complex_type_info self)) self) ;;;
  modify (fun self =>
            set_hierarchy_data
              (build_hierarchy_data (complex_type_info self) (hierarchy_data self))
              self) ;;;
  let transformable_elements :=
    transformable_simple root ++ transformable_complex root in
  (match find_message_element root with
   | Some message_element =>
       if elem_truthy message_element
       then transform_and_record "MESSAGE" message_element
       else ret tt
   | None => ret tt
   end) ;;;
  transform_loop transformable_elements ;;;
  self <- get_self ;;
  append_pass "# Class Hierarchies and Containment Relationships"
              (establish_class_hierarchies self) ;;;
  self <- get_self ;;
  append_pass "# Hierarchy Consistency" (ensure_hierarchy_consistency self) ;;;
  ret true.

(** [write_ttl]: the text written, one statement per line. *)
Definition ttl_text (self : Transformer) : string :=
  String.concat "" (map (fun st => (render st ++ NL)%string) (ttl_statements self)).

End Passes.

(* ================================================================== *)
(** ** Notions used by the properties *)

(** The existence of a descendant [xsd:local] below [e]. *)
Definition present (local : string) (e : Element) : Prop :=
  exists d, In d (descendants e) /\ tag d = xsd local.

(** The class-producing patterns. *)
Definition class_producing (p : Pattern) : bool :=
  match p with
  | Pattern_006 | Pattern_007 | Pattern_009 => true
  | _ => false
  end.

(** The [rdfs:subClassOf] assertions of a statement, as pairs of the
    subject and the superclass.  The anonymous restriction of
    [SRestriction] names no class and is left out. *)
Definition subclass_edges (st : Stmt) : list (string * string) :=
  match st with
  | SDecl _ subj _ props =>
      map (fun po : string * string => (subj, snd po))
          (filter (fun po : string * string => (fst po =? "rdfs:subClassOf")%string) props)
  | STriple subj p o =>
      if (p =? "rdfs:subClassOf")%string then [(subj, o)] else []
  | SNoted _ subj p o =>
      if (p =? "rdfs:subClassOf")%string then [(subj, o)] else []
  | SLine _ => []
  | SRestriction _ _ => []
  end.

(** The superclasses a list of statements asserts for the class [name]. *)
Definition superclasses_of (name : string) (stmts : list Stmt) : list string :=
  map snd
      (filter (fun so : string * string => (fst so =? mismo name)%string)
              (flat_map subclass_edges stmts)).

(** The type a statement declares its subject to be, if any. *)
Definition declared_type (st : Stmt) : option string :=
  match st with
  | SDecl _ _ ty _ => Some ty
  | _ => None
  end.

(** The subject of a declaration or triple. *)
Definition subject_of (st : Stmt) : option string :=
  match st with
  | SDecl _ subj _ _ => Some subj
  | STriple subj _ _ => Some subj
  | SNoted _ subj _ _ => Some subj
  | SRestriction subj _ => Some subj
  | SLine _ => None
  end.

(** The object a declaration gives for the predicate [p]. *)
Definition prop_value (p : string) (st : Stmt) : option string :=
  match st with
  | SDecl _ _ _ props => dict_get props p
  | _ => None
  end.

(** The enumeration facets of a restriction that carry a value which is
    not empty, with the value. *)
Definition valued_enumerations (restriction : Element)
  : list (Element * string) :=
  flat_map
    (fun enum =>
       match get_truthy enum "value" with
       | Some enum_value => [(enum, enum_value)]
       | None => []
       end)
    (findall restriction "enumeration").

(** Every class declared in [stmts] has a superclass asserted in
    [stmts]. *)
Definition classes_have_superclass (stmts : list Stmt) : Prop :=
  forall st,
    In st stmts ->
    declared_type st = Some "owl:Class" ->
    exists subj sup,
      subject_of st = Some subj
      /\ In (subj, sup) (flat_map subclass_edges stmts).

(** The superclasses the resolver asks for: the parents, or the
    universal root class when there is none. *)
Definition resolved_superclasses (parent_types : list string) : list string :=
  match parent_types with
  | [] => ["owl:Thing"]
  | _ :: _ => map mismo parent_types
  end.

(** The containment edges of the hierarchy data, parent first. *)
Definition edges (hd : Hierarchy) : list (string * Contained) :=
  flat_map (fun kv : string * list Contained => map (pair (fst kv)) (snd kv)) hd.

(** The parents collected over the containment edges whose contained
    type satisfies [matches], without repetition, in hierarchy order. *)
Definition collect (matches : Contained -> bool)
    (es : list (string * Contained)) (acc : list string) : list string :=
  fold_left
    (fun parents (pc : string * Contained) =>
       if matches (snd pc) then append_new parents (fst pc) else parents)
    es acc.

(** The test of [get_parent_types] on a contained type. *)
Definition names_or_types (name : string) (c : Contained) : bool :=
  (c_name c =? name)%string || (c_type c =? name)%string.

(** The hierarchy data is the one [build_hierarchy_data] derives from
    the registry, as in [transform_xsd]. *)
Definition hierarchy_built (self : Transformer) : Prop :=
  hierarchy_data self = build_hierarchy_data (complex_type_info self) [].

(** The transformer after the analysis steps of [transform_xsd] on a
    fresh instance: registry and hierarchy data filled, nothing
    transformed yet. *)
Definition loaded (disable : bool) (root : Element) : Transformer :=
  let s0 := init disable in
  let s1 := set_complex_type_info
              (analyze_xsd_structure root (complex_type_info s0)) s0 in
  set_hierarchy_data
    (build_hierarchy_data (complex_type_info s1) (hierarchy_data s1)) s1.

(** The body [s] of a Turtle string literal, read from left to right,
    has a double quote that no backslash escapes.  A backslash escapes
    the character after it, another backslash included; [escaped] tells
    whether the first character of [s] is taken by a backslash before
    it. *)
Fixpoint unescaped_quote (escaped : bool) (s : string) : bool :=
  match s with
  | EmptyString => false
  | String c r =>
      if escaped then unescaped_quote false r
      else if Ascii.eqb c backslash then unescaped_quote true r
      else Ascii.eqb c dquote || unescaped_quote false r
  end.

(** [comment.replace(dquote, backslash dquote)] *)
Definition escape_quotes (s : string) : string :=
  replace_char dquote (String backslash DQ) s.

(** The statements [pattern_007_loop] appends for one contained type. *)
Definition entry_statements (info : Registry) (name : string) (c : Contained)
  : list Stmt :=
  if is_extension_marker (c_name c) (c_type c) then
    [extension_property 8 name (c_name c) (c_type c)]
  else if is_class_type info (c_type c) then
    [contained_class name (c_name c); contains_property name (c_name c)]
  else [collection_datatype_property name (c_name c) (c_type c)].

(** The pairs [pattern_007_loop] tracks for one contained type. *)
Definition entry_tracked (info : Registry) (name : string) (c : Contained)
  : list (string * string) :=
  if is_extension_marker (c_name c) (c_type c) then []
  else if is_class_type info (c_type c) then [(name, c_name c)]
  else [].

(** What an emitter may change: the tracking fields only. *)
Definition frame (s s' : Transformer) : Prop :=
  transformed_types s' = transformed_types s
  /\ ttl_statements s' = ttl_statements s
  /\ complex_type_info s' = complex_type_info s
  /\ hierarchy_data s' = hierarchy_data s
  /\ disable_pattern_007 s' = disable_pattern_007 s
  /\ xsd_root s' = xsd_root s.

(** The statements of [transform_pattern_007_new], read off the
    registry and the hierarchy data. *)
Definition pattern_007_statements (self : Transformer) (e : Element)
  : list Stmt :=
  match get_truthy e "name" with
  | None => []
  | Some name =>
      match dict_get (hierarchy_data self) name with
      | None => []
      | Some contained_types =>
          class_with_parents 4 name
            (fmt ("A collection containing multiple instances. "
                  ++ str_of (doc_text_or e ("Collection type: " ++ name)))%string)
            (_determine_collection_parents self name)
          ++ flat_map (entry_statements (complex_type_info self) name)
                      contained_types
      end
  end.

(** The statements of [transform_element_new]. *)
Definition element_statements (rt : PyRuntime) (self : Transformer)
    (e : Element) : list Stmt :=
  match classify self e with
  | Pattern_001 => transform_pattern_001 e
  | Pattern_001_1 => transform_pattern_001_1 e
  | Pattern_002 => transform_pattern_002 e
  | Pattern_003 => transform_pattern_003 e
  | Pattern_004 => transform_pattern_004 rt e
  | Pattern_005 => transform_pattern_005 rt e
  | Pattern_006 => transform_pattern_006 rt self e
  | Pattern_007 =>
      if disable_pattern_007 self then [] else pattern_007_statements self e
  | Pattern_008 => []
  | Pattern_009 => transform_pattern_009 self e
  | UNKNOWN_PATTERN => []
  end.

(** The fields [transform_element_new] reads. *)
Definition same_inputs (s1 s2 : Transformer) : Prop :=
  complex_type_info s1 = complex_type_info s2
  /\ hierarchy_data s1 = hierarchy_data s2
  /\ disable_pattern_007 s1 = disable_pattern_007 s2.

(** The transformer after the first steps of [transform_xsd]: the root
    stored, the prefixes added, the registry and the hierarchy data
    filled. *)
Definition prepared (root : Element) (s : Transformer) : Transformer :=
  let s1 := set_xsd_root (Some root) s in
  let s2 := set_ttl_statements (ttl_statements s1 ++ prefixes) s1 in
  let s3 := set_complex_type_info
              (analyze_xsd_structure root (complex_type_info s2)) s2 in
  set_hierarchy_data
    (build_hierarchy_data (complex_type_info s3) (hierarchy_data s3)) s3.

(** The step of [transform_xsd] for the MESSAGE element. *)
Definition transform_message (rt : PyRuntime) (root : Element) : M unit :=
  match find_message_element root with
  | Some message_element =>
      if elem_truthy message_element
      then transform_and_record rt "MESSAGE" message_element
      else ret tt
  | None => ret tt
  end.

(** The two passes that end [transform_xsd]. *)
Definition final_passes (rt : PyRuntime) : M bool :=
  self <- get_self ;;
  append_pass "# Class Hierarchies and Containment Relationships"
              (establish_class_hierarchies rt self) ;;;
  self <- get_self ;;
  append_pass "# Hierarchy Consistency" (ensure_hierarchy_consistency self) ;;;
  ret true.

(** The test of [_determine_collection_parents] on a contained type. *)
Definition names_or_typed (name : string) (c : Contained) : bool :=
  (c_name c =? name)%string
  || (truthy (Some (c_type c)) && (c_type c =? name)%string).

(** The list [l'] continues the list [l]. *)
Definition extends {A : Type} (l l' : list A) : Prop :=
  exists rest, l' = l ++ rest.

(** The elements tracked for a collection in [pending_hierarchies]. *)
Definition tracked_elements (pending : list (string * string))
    (collection_name : string) : list string :=
  map snd (filter (fun p : string * string => (fst p =? collection_name)%string)
                  pending).

(** [collection_element_pairs.get(collection_name, [])] *)
Definition paired_elements (pairs : dict (list string))
    (collection_name : string) : list string :=
  match dict_get pairs collection_name with
  | Some l => l
  | None => []
  end.

(** The two tracking fields hold the same pairs. *)
Definition tracking_in_sync (s : Transformer) : Prop :=
  forall collection_name,
    paired_elements (collection_element_pairs s) collection_name
    = tracked_elements (pending_hierarchies s) collection_name.

(** The test [name == 'MESSAGE'] of [transform_xsd] on a complex type. *)
Definition named_message (complex_type : Element) : bool :=
  match get complex_type "name" with
  | Some name => (name =? "MESSAGE")%string
  | None => false
  end.

(** *** Properties as the specification states them *)

(** Every class-producing type gets its resolved superclasses asserted
    by the statements emitted for it. *)
Definition superclass_always_asserted (rt : PyRuntime)
    (self : Transformer) (e : Element) : Prop :=
  forall name,
    get_truthy e "name" = Some name ->
    class_producing (classify self e) = true ->
    incl (resolved_superclasses (get_parent_types self name))
         (superclasses_of name (fst (transform_element_new rt e self))).

(** A class-producing type without parents that is never contained
    adopts the elected root container, and falls back to [owl:Thing]
    only when none is elected. *)
Definition root_container_adopted (rt : PyRuntime)
    (self : Transformer) (e : Element) : Prop :=
  forall name,
    get_truthy e "name" = Some name ->
    class_producing (classify self e) = true ->
    get_parent_types self name = [] ->
    _is_top_level_collection self name = true ->
    let supers := superclasses_of name (fst (transform_element_new rt e self)) in
    match _find_root_container self with
    | Some root => In (mismo root) supers
    | None => In "owl:Thing" supers
    end.

(** A contained reference that is not unbounded becomes a datatype
    property of the collection, not a contained class with a
    containment property. *)
Definition bounded_as_datatype_property
    (self : Transformer) (e : Element) : Prop :=
  forall name contained_types c,
    get_truthy e "name" = Some name ->
    classify self e = Pattern_007 ->
    dict_get (hierarchy_data self) name = Some contained_types ->
    In c contained_types ->
    c_max_occurs c <> "unbounded" ->
    let stmts := fst (transform_pattern_007_new e self) in
    In (collection_datatype_property name (c_name c) (c_type c)) stmts
    /\ ~ In (contained_class name (c_name c)) stmts
    /\ ~ In (contains_property name (c_name c)) stmts.

(** An unbounded contained reference to a class-like type becomes a
    contained class, a subclass of the collection, and a containment
    property with the collection as domain and the contained class as
    range, a sub-property of the membership property. *)
Definition unbounded_as_contained_class
    (self : Transformer) (e : Element) : Prop :=
  forall name contained_types c,
    get_truthy e "name" = Some name ->
    classify self e = Pattern_007 ->
    dict_get (hierarchy_data self) name = Some contained_types ->
    In c contained_types ->
    c_max_occurs c = "unbounded" ->
    is_class_type (complex_type_info self) (c_type c) = true ->
    let stmts := fst (transform_pattern_007_new e self) in
    (exists class,
       In class stmts
       /\ subject_of class = Some (mismo (c_name c))
       /\ declared_type class = Some "owl:Class"
       /\ prop_value "rdfs:subClassOf" class = Some (mismo name))
    /\ (exists property,
          In property stmts
          /\ subject_of property = Some (mismo ("contains" ++ c_name c))
          /\ declared_type property = Some "owl:ObjectProperty"
          /\ prop_value "rdfs:domain" property = Some (mismo name)
          /\ prop_value "rdfs:range" property = Some (mismo (c_name c))
          /\ prop_value "rdfs:subPropertyOf" property = Some "rdf:member").

(** An enumeration type with a restriction base emits the base datatype
    and one property per enumeration facet. *)
Definition one_property_per_enumeration (e : Element) : Prop :=
  forall name restriction base,
    get_truthy e "name" = Some name ->
    find e "restriction" = Some restriction ->
    get_truthy restriction "base" = Some base ->
    exists props,
      transform_pattern_002 e = enum_base name base :: props
      /\ List.length props = List.length (findall restriction "enumeration")
      /\ Forall (fun st => declared_type st = Some "rdf:Property") props.

(** A comment is rendered as a block literal when its stripped text has
    a newline and as a one-line literal otherwise, and every double
    quote of the body is escaped. *)
Definition comment_rendered_as_literal (c : string) : Prop :=
  let body := escape_quotes (strip c) in
  unescaped_quote false body = false
  /\ (contains NL (strip c) = true ->
      _format_comment_for_ttl (Some c)
      = (DQ ++ DQ ++ DQ ++ NL ++ body ++ NL ++ DQ ++ DQ ++ DQ)%string)
  /\ (contains NL (strip c) = false ->
      _format_comment_for_ttl (Some c) = (DQ ++ body ++ DQ)%string
      /\ contains NL (_format_comment_for_ttl (Some c)) = false).

(** Of two elements with the same name the later one contributes no
    statements: [e1], then the elements [between], then [e2]. *)
Definition later_duplicate_silent (rt : PyRuntime) (self : Transformer)
    (e1 : Element) (between : list Element) (e2 : Element) : Prop :=
  forall name,
    get_truthy e1 "name" = Some name ->
    get_truthy e2 "name" = Some name ->
    let before := snd (transform_loop rt (e1 :: between) self) in
    ttl_statements (snd (transform_step rt e2 before)) = ttl_statements before.

(* ================================================================== *)
(** ** A runtime on ASCII text and some schemas *)

Module Ascii_text.

Definition is_upper (c : ascii) : bool :=
  let n := nat_of_ascii c in ((65 <=? n) && (n <=? 90))%nat.

Definition is_lower (c : ascii) : bool :=
  let n := nat_of_ascii c in ((97 <=? n) && (n <=? 122))%nat.

Definition lower_char (c : ascii) : ascii :=
  if is_upper c then ascii_of_nat (nat_of_ascii c + 32) else c.

Definition upper_char (c : ascii) : ascii :=
  if is_lower c then ascii_of_nat (nat_of_ascii c - 32) else c.

Fixpoint map_chars (f : ascii -> ascii) (s : string) : string :=
  match s with
  | EmptyString => EmptyString
  | String c r => String (f c) (map_chars f r)
  end.

Definition lower (s : string) : string := map_chars lower_char s.

Definition capitalize (s : string) : string :=
  match s with
  | EmptyString => EmptyString
  | String c r => String (upper_char c) (lower r)
  end.

Fixpoint title_from (after_cased : bool) (s : string) : string :=
  match s with
  | EmptyString => EmptyString
  | String c r =>
      String (if after_cased then lower_char c else upper_char c)
             (title_from (is_upper c || is_lower c) r)
  end.

Definition title (s : string) : string := title_from false s.

Fixpoint any_char (f : ascii -> bool) (s : string) : bool :=
  match s with
  | EmptyString => false
  | String c r => f c || any_char f r
  end.

Definition isupper (s : string) : bool :=
  any_char is_upper s && negb (any_char is_lower s).

End Ascii_text.

(** Case mapping on the ASCII letters; a set iterated in insertion
    order. *)
Definition ascii_runtime : PyRuntime :=
  {| py_lower := Ascii_text.lower;
     py_title := Ascii_text.title;
     py_capitalize := Ascii_text.capitalize;
     py_isupper := Ascii_text.isupper;
     py_set_iter := fun l => l |}.

(** An element of the XSD namespace without text. *)
Definition xs (local : string) (attrs : list (string * string))
    (cs : list Element) : Element :=
  Elem (xsd local) attrs None cs.

Definition xs_element (name type : string) (more : list (string * string))
  : Element :=
  xs "element" ([("name", name); ("type", type)] ++ more) [].

Definition xs_attribute (name type : string) : Element :=
  xs "attribute" [("name", name); ("type", type)] [].

Definition xs_complex (name : string) (cs : list Element) : Element :=
  xs "complexType" [("name", name)] cs.

Definition xs_simple (name : string) (cs : list Element) : Element :=
  xs "simpleType" [("name", name)] cs.

Definition unbounded : list (string * string) := [("maxOccurs", "unbounded")].

(** Scenario A: an enumeration over [xsd:string]. *)
Definition loan_status_type : Element :=
  xs_simple "LOAN_STATUS_TYPE"
    [xs "restriction" [("base", "xsd:string")]
        [xs "enumeration" [("value", "Active")] [];
         xs "enumeration" [("value", "Closed")] []]].

(** An enumeration one of whose values is the empty string. *)
Definition blank_status_type : Element :=
  xs_simple "BLANK_STATUS_TYPE"
    [xs "restriction" [("base", "xsd:string")]
        [xs "enumeration" [("value", "Active")] [];
         xs "enumeration" [("value", "")] []]].

(** Scenario B: BORROWERS holds any number of BORROWER. *)
Definition borrowers_type : Element :=
  xs_complex "BORROWERS"
    [xs "sequence" [] [xs_element "BORROWER" "BORROWER" unbounded]].

Definition borrower_type : Element :=
  xs_complex "BORROWER" [xs_attribute "SequenceNumber" "xsd:int"].

Definition borrowers_schema : Element :=
  xs "schema" [] [borrowers_type; borrower_type].

(** Scenario C: a type with wildcard content. *)
Definition mismo_base_type : Element :=
  xs_complex "MISMO_BASE"
    [xs "sequence" [] [xs "any" [("namespace", "##other")] []]].

(** A type with a collection name whose elements are plain strings. *)
Definition phones_type : Element :=
  xs_complex "PHONES"
    [xs "sequence" [] [xs_element "PHONE" "xsd:string" unbounded]].

Definition phones_schema : Element := xs "schema" [] [phones_type].

(** A container of six parties, and a collection no type contains. *)
Definition deal_type : Element :=
  xs_complex "DEAL"
    [xs "sequence" []
        [xs_element "BUYER" "PARTY" []; xs_element "SELLER" "PARTY" [];
         xs_element "LENDER" "PARTY" []; xs_element "BROKER" "PARTY" [];
         xs_element "AGENT" "PARTY" []; xs_element "NOTARY" "PARTY" []]].

Definition party_type : Element :=
  xs_complex "PARTY" [xs_attribute "PartyID" "xsd:string"].

Definition items_type : Element :=
  xs_complex "ITEMS" [xs "sequence" [] [xs_element "ITEM" "ITEM" unbounded]].

Definition item_type : Element :=
  xs_complex "ITEM" [xs_attribute "ItemID" "xsd:string"].

Definition deal_schema : Element :=
  xs "schema" [] [deal_type; party_type; items_type; item_type].

(** A collection with an unbounded and a bounded reference. *)
Definition deal_sets_type : Element :=
  xs_complex "DEAL_SETS"
    [xs "sequence" []
        [xs_element "DEAL_SET" "DEAL_SET" unbounded;
         xs_element "PARTY" "PARTY" []]].

Definition deal_set_type : Element :=
  xs_complex "DEAL_SET" [xs_attribute "SetID" "xsd:string"].

Definition deal_sets_schema : Element :=
  xs "schema" [] [deal_sets_type; deal_set_type; party_type].

(** A collection whose extension point is unbounded. *)
Definition foos_type : Element :=
  xs_complex "FOOS"
    [xs "sequence" []
        [xs_element "FOO" "FOO" unbounded;
         xs_element "EXTENSION" "FOOS_EXTENSION" unbounded]].

Definition foo_type : Element :=
  xs_complex "FOO" [xs_attribute "FooID" "xsd:string"].

Definition foos_extension_type : Element :=
  xs_complex "FOOS_EXTENSION"
    [xs "sequence" [] [xs_element "OTHER" "xsd:string" []]].

Definition foos_schema : Element :=
  xs "schema" [] [foos_type; foo_type; foos_extension_type].

(** Two simple types of one name: a list type, which Pattern 001 has
    nothing to say about, then a restriction. *)
Definition code_list_type : Element :=
  xs_simple "CODE" [xs "list" [("itemType", "xsd:string")] []].

Definition code_string_type : Element :=
  xs_simple "CODE" [xs "restriction" [("base", "xsd:token")] []].

Definition code_schema : Element :=
  xs "schema" [] [code_list_type; code_string_type].

(** A document whose MESSAGE type comes after the types it contains. *)
Definition message_type : Element :=
  xs_complex "MESSAGE"
    [xs "sequence" [] [xs_element "BORROWERS" "BORROWERS" []]].

Definition message_schema : Element :=
  xs "schema" [] [borrowers_type; borrower_type; message_type].

(** A documentation text of four characters: a, backslash, double
    quote, b. *)
Definition backslash_quote_comment : string :=
  String "a" (String backslash (String dquote "b")).

(* ================================================================== *)
(** * Properties *)

Unset Implicit Arguments.

(** ** Strings, lists and dictionaries *)

Lemma mem_In (x : string) (l : list string) : mem x l = true <-> In x l.
Proof.
  unfold mem. rewrite existsb_exists. split.
  - intros [y [Hy E]]. apply String.eqb_eq in E. now subst.
  - intros H. exists x. split; [assumption | apply String.eqb_refl].
Qed.

Lemma mem_false_In (x : string) (l : list string) :
  mem x l = false <-> ~ In x l.
Proof.
  rewrite <- mem_In. destruct (mem x l); split; intros H; congruence.
Qed.

Lemma truthy_Some (s : string) : truthy (Some s) = true <-> s <> "".
Proof.
  unfold truthy. destruct (String.eqb_spec s ""); simpl; split; congruence.
Qed.

Lemma get_truthy_nonempty (e : Element) (k v : string) :
  get_truthy e k = Some v -> v <> "".
Proof.
  unfold get_truthy. destruct (get e k) as [w|]; [|discriminate].
  destruct (truthy (Some w)) eqn:T; [|discriminate].
  intros H. injection H as <-. now apply truthy_Some.
Qed.

Lemma existsb_pointwise {A : Type} (f g : A -> bool) (l : list A) :
  (forall x, f x = g x) -> existsb f l = existsb g l.
Proof.
  intros H. induction l as [|a l IH]; simpl; [reflexivity|].
  now rewrite H, IH.
Qed.

Lemma filter_nonempty {A : Type} (f : A -> bool) (l : list A) :
  filter f l <> [] <-> exists x, In x l /\ f x = true.
Proof.
  split.
  - destruct (filter f l) as [|x r] eqn:E; [congruence|].
    intros _. exists x. apply filter_In. rewrite E. now left.
  - intros [x Hx] E. apply filter_In in Hx. rewrite E in Hx. contradiction.
Qed.

(** A type name ending in complexType does not end in simpleType. *)
Lemma endswith_complex_not_simple (s : string) :
  endswith s "complexType" = true -> endswith s "simpleType" = false.
Proof.
  induction s as [|c r IH]; [discriminate|].
  cbn [endswith]. intros H. apply orb_true_iff in H. destruct H as [H | H].
  - apply String.eqb_eq in H. injection H as -> ->. reflexivity.
  - rewrite (IH H), orb_false_r.
    destruct (String.eqb_spec (String c r) "simpleType") as [E|]; [|reflexivity].
    injection E as _ ->. discriminate H.
Qed.

Lemma dict_get_set {V : Type} (d : dict V) (k k' : string) (v : V) :
  dict_get (dict_set d k v) k'
  = if (k =? k')%string then Some v else dict_get d k'.
Proof.
  induction d as [|[a b] r IH]; simpl.
  - reflexivity.
  - destruct (String.eqb_spec a k) as [->|Hak]; simpl.
    + destruct (String.eqb_spec k k'); reflexivity.
    + rewrite IH. destruct (String.eqb_spec a k') as [->|]; [|reflexivity].
      destruct (String.eqb_spec k k'); [congruence | reflexivity].
Qed.

(** ** The text of a comment *)

Lemma contains_backslash_cons (a : ascii) (r : string) :
  contains (chr backslash) (String a r)
  = Ascii.eqb a backslash || contains (chr backslash) r.
Proof.
  cbn [contains]. unfold chr at 1. cbn [String.prefix].
  destruct (ascii_dec backslash a) as [<-|Hne].
  - destruct r; reflexivity.
  - destruct (Ascii.eqb_spec a backslash); [congruence | reflexivity].
Qed.

Lemma unescaped_quote_escape (s : string) :
  contains (chr backslash) s = false ->
  unescaped_quote false (escape_quotes s) = false.
Proof.
  unfold escape_quotes.
  induction s as [|c r IH]; intros H; [reflexivity|].
  rewrite contains_backslash_cons in H. apply orb_false_iff in H.
  destruct H as [Hc Hr]. cbn [replace_char].
  destruct (Ascii.eqb_spec c dquote) as [->|Hq].
  - cbn. now apply IH.
  - cbn [chr append unescaped_quote]. rewrite Hc.
    destruct (Ascii.eqb_spec c dquote); [contradiction|].
    cbn [orb]. now apply IH.
Qed.

Lemma format_comment_nonempty (c : string) :
  c <> "" ->
  _format_comment_for_ttl (Some c)
  = if contains NL (strip c)
    then (DQ ++ DQ ++ DQ ++ NL ++ escape_quotes (strip c) ++ NL ++ DQ ++ DQ ++ DQ)%string
    else (DQ ++ escape_quotes (strip c) ++ DQ)%string.
Proof.
  intros H. unfold _format_comment_for_ttl.
  apply truthy_Some in H. rewrite H. reflexivity.
Qed.

(** ** The state monad *)

Lemma frame_refl (s : Transformer) : frame s s.
Proof. repeat split. Qed.

Lemma frame_trans (s1 s2 s3 : Transformer) :
  frame s1 s2 -> frame s2 s3 -> frame s1 s3.
Proof.
  unfold frame. intros (a1 & a2 & a3 & a4 & a5 & a6) (b1 & b2 & b3 & b4 & b5 & b6).
  repeat split; congruence.
Qed.

Lemma frame_tracking (s : Transformer) pairs pending :
  frame s (set_tracking pairs pending s).
Proof. repeat split. Qed.

#[local] Hint Resolve frame_refl frame_tracking : core.

Lemma pattern_007_loop_cons (name : string) (c : Contained)
    (rest : list Contained) (s : Transformer) :
  pattern_007_loop name (c :: rest) s
  = if is_extension_marker (c_name c) (c_type c) then
      let (more, s') := pattern_007_loop name rest s in
      (extension_property 8 name (c_name c) (c_type c) :: more, s')
    else if is_class_type (complex_type_info s) (c_type c) then
      let (more, s') :=
        pattern_007_loop name rest
          (snd (track_collection_element_relationship name (c_name c) s)) in
      (contained_class name (c_name c) :: contains_property name (c_name c) :: more, s')
    else
      let (more, s') := pattern_007_loop name rest s in
      (collection_datatype_property name (c_name c) (c_type c) :: more, s').
Proof.
  cbn [pattern_007_loop].
  destruct (is_extension_marker (c_name c) (c_type c)); [reflexivity|].
  unfold bind, get_self, ret. cbn beta iota.
  destruct (is_class_type (complex_type_info s) (c_type c)); reflexivity.
Qed.

Lemma pattern_007_loop_spec (name : string) (cs : list Contained) :
  forall s,
    fst (pattern_007_loop name cs s)
    = flat_map (entry_statements (complex_type_info s) name) cs
    /\ frame s (snd (pattern_007_loop name cs s))
    /\ pending_hierarchies (snd (pattern_007_loop name cs s))
       = pending_hierarchies s
         ++ flat_map (entry_tracked (complex_type_info s) name) cs.
Proof.
  induction cs as [|c rest IH]; intros s.
  - cbn. rewrite app_nil_r. auto.
  - rewrite pattern_007_loop_cons. cbn [flat_map].
    unfold entry_statements at 1, entry_tracked at 1.
    destruct (is_extension_marker (c_name c) (c_type c)).
    + destruct (IH s) as (H1 & H2 & H3).
      destruct (pattern_007_loop name rest s) as [more s']. cbn in *.
      rewrite H1. auto.
    + destruct (is_class_type (complex_type_info s) (c_type c)).
      * match goal with
        | |- context [pattern_007_loop name rest ?s1] =>
            destruct (IH s1) as (H1 & H2 & H3);
            destruct (pattern_007_loop name rest s1) as [more s']
        end.
        cbn in *. rewrite H1, H3, <- app_assoc.
        split; [reflexivity|].
        split; [eapply frame_trans; [|exact H2]; auto | reflexivity].
      * destruct (IH s) as (H1 & H2 & H3).
        destruct (pattern_007_loop name rest s) as [more s']. cbn in *.
        rewrite H1. auto.
Qed.

Lemma transform_pattern_007_new_eq (e : Element) (s : Transformer) :
  transform_pattern_007_new e s
  = match get_truthy e "name" with
    | None => ([], s)
    | Some name =>
        match dict_get (hierarchy_data s) name with
        | None => ([], s)
        | Some cs =>
            let (more, s') := pattern_007_loop name cs s in
            (class_with_parents 4 name
               (fmt ("A collection containing multiple instances. "
                     ++ str_of (doc_text_or e ("Collection type: " ++ name)))%string)
               (_determine_collection_parents s name)
             ++ more, s')
        end
    end.
Proof.
  unfold transform_pattern_007_new.
  destruct (get_truthy e "name") as [name|]; [|reflexivity].
  unfold bind, get_self, ret. cbn beta iota.
  destruct (dict_get (hierarchy_data s) name); reflexivity.
Qed.

Lemma transform_pattern_007_new_spec (e : Element) (s : Transformer) :
  fst (transform_pattern_007_new e s) = pattern_007_statements s e
  /\ frame s (snd (transform_pattern_007_new e s)).
Proof.
  rewrite transform_pattern_007_new_eq. unfold pattern_007_statements.
  destruct (get_truthy e "name") as [name|]; [|split; [reflexivity | apply frame_refl]].
  destruct (dict_get (hierarchy_data s) name) as [cs|];
    [|split; [reflexivity | apply frame_refl]].
  destruct (pattern_007_loop_spec name cs s) as (H1 & H2 & _).
  destruct (pattern_007_loop name cs s) as [more s']. cbn [fst snd] in *.
  now rewrite H1.
Qed.

Lemma transform_pattern_007_new_pending (e : Element) (s : Transformer)
    (name : string) (cs : list Contained) :
  get_truthy e "name" = Some name ->
  dict_get (hierarchy_data s) name = Some cs ->
  pending_hierarchies (snd (transform_pattern_007_new e s))
  = pending_hierarchies s ++ flat_map (entry_tracked (complex_type_info s) name) cs.
Proof.
  intros Hn Hd. rewrite transform_pattern_007_new_eq, Hn, Hd.
  destruct (pattern_007_loop_spec name cs s) as (_ & _ & H3).
  destruct (pattern_007_loop name cs s) as [more s']. exact H3.
Qed.

Lemma transform_element_new_eq (rt : PyRuntime) (e : Element)
    (s : Transformer) :
  transform_element_new rt e s
  = match classify s e with
    | Pattern_001 => (transform_pattern_001 e, s)
    | Pattern_001_1 => (transform_pattern_001_1 e, s)
    | Pattern_002 => (transform_pattern_002 e, s)
    | Pattern_003 => (transform_pattern_003 e, s)
    | Pattern_004 => (transform_pattern_004 rt e, s)
    | Pattern_005 => (transform_pattern_005 rt e, s)
    | Pattern_006 => (transform_pattern_006 rt s e, s)
    | Pattern_007 =>
        if disable_pattern_007 s then ([], s) else transform_pattern_007_new e s
    | Pattern_008 => ([], s)
    | Pattern_009 => (transform_pattern_009 s e, s)
    | UNKNOWN_PATTERN => ([], s)
    end.
Proof.
  unfold transform_element_new, find_pattern_type.
  unfold bind, get_self, ret. cbn beta iota.
  destruct (classify s e); try reflexivity.
  destruct (disable_pattern_007 s); reflexivity.
Qed.

Lemma transform_element_new_spec (rt : PyRuntime) (e : Element)
    (s : Transformer) :
  fst (transform_element_new rt e s) = element_statements rt s e
  /\ frame s (snd (transform_element_new rt e s)).
Proof.
  rewrite transform_element_new_eq. unfold element_statements.
  destruct (classify s e); try (split; [reflexivity | apply frame_refl]).
  destruct (disable_pattern_007 s); [split; [reflexivity | apply frame_refl]|].
  apply transform_pattern_007_new_spec.
Qed.

Lemma classify_registry (s1 s2 : Transformer) (e : Element) :
  complex_type_info s1 = complex_type_info s2 ->
  classify s1 e = classify s2 e.
Proof.
  intros H. unfold classify, is_collection_type.
  assert (Hm : forall elem, collection_member s1 elem = collection_member s2 elem).
  { intros elem. unfold collection_member. now rewrite H. }
  destruct (find e "sequence") as [sequence|]; [|reflexivity].
  now rewrite (existsb_pointwise _ _ _ Hm).
Qed.

Lemma get_parent_types_hierarchy (s1 s2 : Transformer) (name : string) :
  hierarchy_data s1 = hierarchy_data s2 ->
  get_parent_types s1 name = get_parent_types s2 name.
Proof. intros H. unfold get_parent_types. now rewrite H. Qed.

Lemma determine_parents_hierarchy (s1 s2 : Transformer) (name : string) :
  hierarchy_data s1 = hierarchy_data s2 ->
  _determine_collection_parents s1 name = _determine_collection_parents s2 name.
Proof. intros H. unfold _determine_collection_parents. now rewrite H. Qed.

Lemma element_statements_inputs (rt : PyRuntime) (s1 s2 : Transformer)
    (e : Element) :
  same_inputs s1 s2 ->
  element_statements rt s1 e = element_statements rt s2 e.
Proof.
  intros (Hi & Hh & Hd). unfold element_statements.
  rewrite (classify_registry s1 s2 e Hi).
  destruct (classify s2 e); try reflexivity.
  - unfold transform_pattern_006.
    destruct (get_truthy e "name"); [|reflexivity].
    now rewrite (get_parent_types_hierarchy s1 s2 _ Hh).
  - rewrite Hd. destruct (disable_pattern_007 s2); [reflexivity|].
    unfold pattern_007_statements.
    destruct (get_truthy e "name"); [|reflexivity].
    rewrite Hh, Hi. destruct (dict_get (hierarchy_data s2) s); [|reflexivity].
    now rewrite (determine_parents_hierarchy s1 s2 _ Hh).
  - unfold transform_pattern_009.
    destruct (get_truthy e "name"); [|reflexivity].
    now rewrite (get_parent_types_hierarchy s1 s2 _ Hh).
Qed.

Lemma frame_same_inputs (s s' : Transformer) : frame s s' -> same_inputs s s'.
Proof.
  intros (_ & _ & a & b & c & _). unfold same_inputs. auto.
Qed.

(** ** The inheritance resolver *)

Lemma fold_left_pointwise {A B : Type} (f g : A -> B -> A) (l : list B) :
  (forall a b, f a b = g a b) ->
  forall i, fold_left f l i = fold_left g l i.
Proof.
  intros H. induction l as [|b l IH]; intros i; simpl; [reflexivity|].
  now rewrite H, IH.
Qed.

Lemma fold_left_edges (g : string -> Contained -> list string -> list string)
    (hd : Hierarchy) :
  forall acc,
    fold_left
      (fun parents (kv : string * list Contained) =>
         let (p, cs) := kv in
         fold_left (fun parents c => g p c parents) cs parents)
      hd acc
    = fold_left (fun parents (pc : string * Contained) =>
                   g (fst pc) (snd pc) parents)
                (edges hd) acc.
Proof.
  induction hd as [|[p cs] hd IH]; intros acc; [reflexivity|].
  cbn [fold_left edges flat_map fst snd]. rewrite fold_left_app, IH. f_equal.
  clear IH. revert acc. induction cs as [|c cs IHc]; intros acc; [reflexivity|].
  cbn [fold_left map fst snd]. apply IHc.
Qed.

Lemma get_parent_types_collect (self : Transformer) (name : string) :
  get_parent_types self name
  = collect (names_or_types name) (edges (hierarchy_data self)) [].
Proof.
  unfold get_parent_types, collect.
  apply (fold_left_edges
           (fun p c parents =>
              if names_or_types name c then append_new parents p else parents)).
Qed.

Lemma determine_parents_collect (self : Transformer) (name : string) :
  name <> "" ->
  _determine_collection_parents self name
  = collect (names_or_types name) (edges (hierarchy_data self)) [].
Proof.
  intros Hne. unfold _determine_collection_parents, collect.
  rewrite <- (fold_left_edges
                (fun p c parents =>
                   if names_or_types name c then append_new parents p else parents)).
  apply fold_left_pointwise. intros parents [p cs].
  apply fold_left_pointwise. intros parents' c. unfold names_or_types.
  destruct (String.eqb_spec (c_name c) name); [reflexivity|].
  destruct (String.eqb_spec (c_type c) name) as [E|]; cbn [orb].
  - assert (T : truthy (Some (c_type c)) = true) by (apply truthy_Some; congruence).
    now rewrite T.
  - now rewrite andb_false_r.
Qed.

(** Both resolvers compute the same parents for a type with a name. *)
Lemma determine_parents_get_parent_types (self : Transformer) (name : string) :
  name <> "" ->
  _determine_collection_parents self name = get_parent_types self name.
Proof.
  intros H. now rewrite determine_parents_collect, get_parent_types_collect.
Qed.

Lemma append_new_spec (parents : list string) (p : string) :
  NoDup parents ->
  NoDup (append_new parents p)
  /\ forall x, In x (append_new parents p) <-> In x parents \/ x = p.
Proof.
  intros Hnd. unfold append_new. destruct (mem p parents) eqn:E.
  - apply mem_In in E. split; [assumption|].
    intros x. split; [tauto|]. intros [H | ->]; assumption.
  - apply mem_false_In in E. split.
    + apply NoDup_app; [assumption | repeat constructor; simpl; tauto |].
      intros x Hx [<- | []]. contradiction.
    + intros x. rewrite in_app_iff. simpl. intuition congruence.
Qed.

Lemma collect_spec (matches : Contained -> bool) (es : list (string * Contained)) :
  forall acc,
    NoDup acc ->
    NoDup (collect matches es acc)
    /\ forall p, In p (collect matches es acc)
                 <-> In p acc \/ exists c, In (p, c) es /\ matches c = true.
Proof.
  unfold collect. induction es as [|[q c] es IH]; intros acc Hnd.
  - cbn. split; [assumption|]. intros p. split; [tauto|].
    intros [H | [c [[] _]]]. assumption.
  - cbn [fold_left fst snd]. destruct (matches c) eqn:Hm.
    + destruct (append_new_spec acc q Hnd) as [Hnd' Hin].
      destruct (IH _ Hnd') as [H1 H2]. split; [assumption|].
      intros p. rewrite H2, Hin. split.
      * intros [[H | ->] | [c' [Hc' Hm']]].
        -- now left.
        -- right. exists c. split; [now left | assumption].
        -- right. exists c'. split; [now right | assumption].
      * intros [H | [c' [[E | Hc'] Hm']]].
        -- left. now left.
        -- injection E as -> ->. left. now right.
        -- right. exists c'. tauto.
    + destruct (IH _ Hnd) as [H1 H2]. split; [assumption|].
      intros p. rewrite H2. split.
      * intros [H | [c' [Hc' Hm']]]; [now left|].
        right. exists c'. split; [now right | assumption].
      * intros [H | [c' [[E | Hc'] Hm']]]; [now left | |].
        -- injection E as -> ->. congruence.
        -- right. exists c'. tauto.
Qed.

Lemma in_edges (hd : Hierarchy) (p : string) (c : Contained) :
  In (p, c) (edges hd) <-> exists cs, In (p, cs) hd /\ In c cs.
Proof.
  unfold edges. rewrite in_flat_map. split.
  - intros [[q cs] [Hq Hc]]. cbn [fst snd] in Hc. apply in_map_iff in Hc.
    destruct Hc as [c' [E Hc']]. injection E as -> ->. now exists cs.
  - intros [cs [Hq Hc]]. exists (p, cs). split; [assumption|].
    cbn [fst snd]. now apply in_map.
Qed.

(** The parents of [name] are, without repetition, the types with a
    containment edge to [name] by element name or by type. *)
Lemma get_parent_types_spec (self : Transformer) (name : string) :
  NoDup (get_parent_types self name)
  /\ forall p,
       In p (get_parent_types self name)
       <-> exists cs c,
             In (p, cs) (hierarchy_data self) /\ In c cs
             /\ (c_name c = name \/ c_type c = name).
Proof.
  rewrite get_parent_types_collect.
  destruct (collect_spec (names_or_types name) (edges (hierarchy_data self))
              [] (NoDup_nil _)) as [H1 H2].
  split; [assumption|]. intros p. rewrite H2. split.
  - intros [[] | [c [Hc Hm]]]. apply in_edges in Hc. destruct Hc as [cs [Hq Hc]].
    exists cs, c. repeat split; try assumption.
    unfold names_or_types in Hm. apply orb_true_iff in Hm.
    destruct Hm as [E | E]; apply String.eqb_eq in E; tauto.
  - intros (cs & c & Hq & Hc & Hm). right. exists c. split.
    + apply in_edges. now exists cs.
    + unfold names_or_types. apply orb_true_iff.
      destruct Hm as [E | E]; [left | right]; now apply String.eqb_eq.
Qed.

(** The head of the sorted list has the largest count. *)
Lemma sort_desc_head (l : list (string * nat)) :
  match sort_desc l with
  | [] => l = []
  | r :: _ => In r l /\ forall x, In x l -> snd x <= snd r
  end.
Proof.
  induction l as [|x l IH]; [reflexivity|].
  cbn [sort_desc fold_right]. fold (sort_desc l).
  destruct (sort_desc l) as [|r t].
  - subst l. cbn. split; [now left|]. intros y [<- | []]. lia.
  - destruct IH as [Hr Hmax]. cbn [insert_desc].
    destruct (Nat.leb_spec (snd r) (snd x)).
    + split; [now left|]. intros y [<- | Hy]; [lia|].
      specialize (Hmax y Hy). lia.
    + split; [now right|]. intros y [<- | Hy]; [lia|]. now apply Hmax.
Qed.

(** [_find_root_container] elects a type with more than five contained
    types and at least as many as any other type; it elects none exactly
    when no type has more than five. *)
Lemma find_root_container_spec (self : Transformer) :
  match _find_root_container self with
  | Some root =>
      exists cs,
        In (root, cs) (hierarchy_data self)
        /\ 5 < List.length cs
        /\ forall t cs', In (t, cs') (hierarchy_data self) ->
                         List.length cs' <= List.length cs
  | None =>
      forall t cs, In (t, cs) (hierarchy_data self) -> List.length cs <= 5
  end.
Proof.
  unfold _find_root_container.
  set (f := fun kv : string * list Contained =>
              if (5 <? List.length (snd kv))%nat
              then [(fst kv, List.length (snd kv))] else []).
  assert (Hin : forall r, In r (flat_map f (hierarchy_data self))
                          <-> exists t cs, In (t, cs) (hierarchy_data self)
                                           /\ 5 < List.length cs
                                           /\ r = (t, List.length cs)).
  { intros r. rewrite in_flat_map. split.
    - intros [[t cs] [Hk Hr]]. unfold f in Hr. cbn [fst snd] in Hr.
      destruct (Nat.ltb_spec 5 (List.length cs)); [|contradiction].
      destruct Hr as [<- | []]. now exists t, cs.
    - intros (t & cs & Hk & Hlt & ->). exists (t, cs). split; [assumption|].
      unfold f. cbn [fst snd]. apply Nat.ltb_lt in Hlt. rewrite Hlt. now left. }
  pose proof (sort_desc_head (flat_map f (hierarchy_data self))) as Hs.
  destruct (sort_desc (flat_map f (hierarchy_data self))) as [|r rest].
  - intros t cs Hk. destruct (Nat.le_gt_cases (List.length cs) 5) as [|Hlt]; [assumption|].
    assert (Hr : In (t, List.length cs) (flat_map f (hierarchy_data self)))
      by (apply Hin; now exists t, cs).
    rewrite Hs in Hr. contradiction.
  - destruct Hs as [Hr Hmax]. apply Hin in Hr.
    destruct Hr as (t & cs & Hk & Hlt & ->). cbn [fst].
    exists cs. repeat split; try assumption.
    intros t' cs' Hk'. destruct (Nat.le_gt_cases (List.length cs') 5) as [|Hlt']; [lia|].
    assert (Hr : In (t', List.length cs') (flat_map f (hierarchy_data self)))
      by (apply Hin; now exists t', cs').
    apply Hmax in Hr. exact Hr.
Qed.

(** ** Superclass assertions *)

Lemma superclasses_of_app (name : string) (l1 l2 : list Stmt) :
  superclasses_of name (l1 ++ l2)
  = superclasses_of name l1 ++ superclasses_of name l2.
Proof.
  unfold superclasses_of. now rewrite flat_map_app, filter_app, map_app.
Qed.

Lemma superclasses_of_cons (name : string) (st : Stmt) (l : list Stmt) :
  superclasses_of name (st :: l)
  = superclasses_of name [st] ++ superclasses_of name l.
Proof. apply (superclasses_of_app name [st] l). Qed.

Lemma superclasses_of_parent_triples (name : string) (parents : list string) :
  superclasses_of name
    (map (fun parent_type =>
            STriple (mismo name) "rdfs:subClassOf" (mismo parent_type)) parents)
  = map mismo parents.
Proof.
  induction parents as [|p ps IH]; [reflexivity|].
  cbn [map]. rewrite superclasses_of_cons, IH.
  unfold superclasses_of. cbn [flat_map subclass_edges].
  change (("rdfs:subClassOf" =? "rdfs:subClassOf")%string) with true.
  cbn [app filter fst snd map]. now rewrite String.eqb_refl.
Qed.

Lemma superclasses_of_class_with_parents (indent : nat)
    (name comment_ttl : string) (parents : list string) :
  superclasses_of name (class_with_parents indent name comment_ttl parents)
  = resolved_superclasses parents.
Proof.
  unfold class_with_parents, resolved_superclasses.
  destruct parents as [|p ps].
  - unfold superclasses_of. cbn [flat_map subclass_edges].
    change (filter _ [("rdfs:label", quoted name); ("rdfs:comment", comment_ttl);
                      ("rdfs:subClassOf", "owl:Thing")])
      with [("rdfs:subClassOf", "owl:Thing")].
    cbn [app filter fst snd map]. now rewrite String.eqb_refl.
  - rewrite superclasses_of_cons, superclasses_of_parent_triples.
    unfold superclasses_of. cbn [flat_map subclass_edges].
    change (filter _ [("rdfs:label", quoted name); ("rdfs:comment", comment_ttl)])
      with (@nil (string * string)).
    reflexivity.
Qed.

Lemma resolved_superclasses_nonempty (parents : list string) :
  resolved_superclasses parents <> [].
Proof. destruct parents; discriminate. Qed.

(** ** Finding descendants *)

Lemma is_some_find (e : Element) (local : string) :
  is_some (find e local) = true <-> present local e.
Proof.
  unfold find, findall, present.
  destruct (filter (fun d => (tag d =? xsd local)%string) (descendants e))
    as [|d r] eqn:E; cbn [is_some].
  - split; [discriminate|]. intros [d [Hd Ht]].
    assert (H : In d (filter (fun d => (tag d =? xsd local)%string) (descendants e))).
    { apply filter_In. split; [assumption | now apply String.eqb_eq]. }
    rewrite E in H. contradiction.
  - split; [|reflexivity]. intros _. exists d.
    assert (H : In d (filter (fun d => (tag d =? xsd local)%string) (descendants e)))
      by (rewrite E; now left).
    apply filter_In in H. destruct H as [H1 H2]. now apply String.eqb_eq in H2.
Qed.

Lemma is_some_find_false (e : Element) (local : string) :
  is_some (find e local) = false <-> ~ present local e.
Proof.
  rewrite <- is_some_find. destruct (is_some (find e local)); split; congruence.
Qed.

(** ** The hierarchy data built from the registry *)

Lemma contained_of_class_like (info : Registry) (ty : Element) (c : Contained) :
  In c (contained_of info ty) -> is_class_type info (c_type c) = true.
Proof.
  unfold contained_of. destruct (find ty "sequence") as [sequence|]; [|contradiction].
  rewrite in_flat_map. intros [elem [_ H]].
  destruct (get elem "name") as [elem_name|]; [|contradiction].
  destruct (get elem "type") as [elem_type|]; [|contradiction].
  destruct (truthy (Some elem_name)); [|contradiction].
  destruct (truthy (Some elem_type)) eqn:T; [|contradiction].
  cbn [andb] in H.
  destruct (dict_get info elem_type) as [ti|] eqn:G; [|contradiction].
  destruct (is_owl_class ti) eqn:O; [|contradiction].
  destruct H as [<- | []]. unfold is_class_type. cbn [c_type].
  now rewrite T, G, O.
Qed.

Lemma build_hierarchy_entries (info : Registry) (l : Registry) :
  forall (hd : Hierarchy) (k : string) (cs : list Contained),
    dict_get
      (fold_left
         (fun hd (kv : string * TypeInfo) =>
            let (type_name, type_info) := kv in
            if negb (is_owl_class type_info) then hd
            else
              match contained_of info (element type_info) with
              | [] => hd
              | contained_types => dict_set hd type_name contained_types
              end)
         l hd) k = Some cs ->
    dict_get hd k = Some cs \/ exists ty, cs = contained_of info ty.
Proof.
  induction l as [|[type_name type_info] l IH]; intros hd k cs H.
  - now left.
  - cbn [fold_left] in H. apply IH in H. destruct H as [H | H]; [|now right].
    destruct (negb (is_owl_class type_info)); [now left|].
    destruct (contained_of info (element type_info)) as [|c0 rest] eqn:E; [now left|].
    rewrite dict_get_set in H. destruct (type_name =? k)%string.
    + right. exists (element type_info). rewrite E. congruence.
    + now left.
Qed.

(** Every containment edge of a hierarchy built from the registry leads
    to a class-like type. *)
Lemma hierarchy_built_class_like (self : Transformer) (name : string)
    (cs : list Contained) (c : Contained) :
  hierarchy_built self ->
  dict_get (hierarchy_data self) name = Some cs ->
  In c cs ->
  is_class_type (complex_type_info self) (c_type c) = true.
Proof.
  unfold hierarchy_built, build_hierarchy_data. intros Hb Hg Hc.
  rewrite Hb in Hg. apply build_hierarchy_entries in Hg.
  destruct Hg as [Hg | [ty ->]]; [discriminate|].
  now apply contained_of_class_like in Hc.
Qed.

(** ** Newlines in a comment *)

Lemma contains_NL_cons (a : ascii) (r : string) :
  contains NL (String a r) = Ascii.eqb a newline || contains NL r.
Proof.
  cbn [contains]. unfold NL at 1, chr. cbn [String.prefix].
  destruct (ascii_dec newline a) as [<-|Hne].
  - destruct r; reflexivity.
  - destruct (Ascii.eqb_spec a newline); [congruence | reflexivity].
Qed.

Lemma contains_NL_app (s1 s2 : string) :
  contains NL (s1 ++ s2) = contains NL s1 || contains NL s2.
Proof.
  induction s1 as [|a r IH]; [reflexivity|].
  cbn [append]. now rewrite !contains_NL_cons, IH, orb_assoc.
Qed.

Lemma contains_NL_escape (s : string) :
  contains NL (escape_quotes s) = contains NL s.
Proof.
  unfold escape_quotes. induction s as [|a r IH]; [reflexivity|].
  cbn [replace_char]. rewrite contains_NL_app, IH, contains_NL_cons.
  destruct (Ascii.eqb_spec a dquote) as [->|Hne]; [reflexivity|].
  unfold chr. rewrite contains_NL_cons. cbn [contains String.prefix orb].
  now rewrite orb_false_r.
Qed.

(** ** The statements of the emitters *)

Lemma valued_enumerations_statements (name : string) (restriction : Element) :
  flat_map
    (fun enum =>
       match get_truthy enum "value" with
       | Some enum_value => [enum_property name enum enum_value]
       | None => []
       end)
    (findall restriction "enumeration")
  = map (fun ev : Element * string => enum_property name (fst ev) (snd ev))
        (valued_enumerations restriction).
Proof.
  unfold valued_enumerations.
  induction (findall restriction "enumeration") as [|enum l IH]; [reflexivity|].
  cbn [flat_map]. rewrite IH, map_app.
  destruct (get_truthy enum "value"); reflexivity.
Qed.

Lemma entry_statements_in (info : Registry) (name : string)
    (cs : list Contained) (c : Contained) :
  In c cs ->
  is_extension_marker (c_name c) (c_type c) = false ->
  is_class_type info (c_type c) = true ->
  let stmts := flat_map (entry_statements info name) cs in
  In (contained_class name (c_name c)) stmts
  /\ In (contains_property name (c_name c)) stmts.
Proof.
  intros Hc Hm Hk. cbv zeta.
  assert (He : entry_statements info name c
               = [contained_class name (c_name c); contains_property name (c_name c)]).
  { unfold entry_statements. now rewrite Hm, Hk. }
  split; apply in_flat_map; exists c; (split; [assumption|]); rewrite He.
  - now left.
  - right. now left.
Qed.

Lemma entry_tracked_in (info : Registry) (name : string)
    (cs : list Contained) (c : Contained) :
  In c cs ->
  is_extension_marker (c_name c) (c_type c) = false ->
  is_class_type info (c_type c) = true ->
  In (name, c_name c) (flat_map (entry_tracked info name) cs).
Proof.
  intros Hc Hm Hk. apply in_flat_map. exists c. split; [assumption|].
  unfold entry_tracked. rewrite Hm, Hk. now left.
Qed.

Lemma in_superclasses_of (name sup : string) (stmts : list Stmt) :
  In sup (superclasses_of name stmts)
  <-> exists st, In st stmts /\ In (mismo name, sup) (subclass_edges st).
Proof.
  unfold superclasses_of. rewrite in_map_iff. split.
  - intros [[subj o] [E H]]. cbn [snd] in E. subst o.
    apply filter_In in H. destruct H as [H Hs]. cbn [fst] in Hs.
    apply String.eqb_eq in Hs. subst subj.
    apply in_flat_map in H. exact H.
  - intros [st [Hst He]]. exists (mismo name, sup). split; [reflexivity|].
    apply filter_In. split.
    + apply in_flat_map. now exists st.
    + cbn [fst]. apply String.eqb_refl.
Qed.

Lemma entry_statements_no_datatype (info : Registry) (name : string)
    (c : Contained) (st : Stmt) :
  is_class_type info (c_type c) = true ->
  In st (entry_statements info name c) ->
  declared_type st <> Some "owl:DatatypeProperty".
Proof.
  intros Hk. unfold entry_statements.
  destruct (is_extension_marker (c_name c) (c_type c)).
  - intros [<- | []]. discriminate.
  - rewrite Hk. intros [<- | [<- | []]]; discriminate.
Qed.

Lemma class_with_parents_no_datatype (indent : nat) (name comment_ttl : string)
    (parents : list string) (st : Stmt) :
  In st (class_with_parents indent name comment_ttl parents) ->
  declared_type st <> Some "owl:DatatypeProperty".
Proof.
  unfold class_with_parents. destruct parents as [|p ps].
  - intros [<- | []]. discriminate.
  - intros [<- | H]; [discriminate|].
    apply in_map_iff in H. destruct H as [q [<- _]]. discriminate.
Qed.

(** ** Declared classes and their superclasses *)

Lemma classes_have_superclass_app (l1 l2 : list Stmt) :
  classes_have_superclass l1 -> classes_have_superclass l2 ->
  classes_have_superclass (l1 ++ l2).
Proof.
  intros H1 H2 st Hst Ht. apply in_app_or in Hst.
  destruct Hst as [Hst | Hst];
    [destruct (H1 st Hst Ht) as (subj & sup & Hs & He)
    | destruct (H2 st Hst Ht) as (subj & sup & Hs & He)];
    exists subj, sup; (split; [assumption|]);
    rewrite flat_map_app; apply in_or_app; tauto.
Qed.

Lemma classes_have_superclass_none (l : list Stmt) :
  (forall st, In st l -> declared_type st <> Some "owl:Class") ->
  classes_have_superclass l.
Proof. intros H st Hst Ht. now apply H in Hst. Qed.

Lemma classes_have_superclass_flat_map {A : Type} (f : A -> list Stmt)
    (l : list A) :
  (forall x, In x l -> classes_have_superclass (f x)) ->
  classes_have_superclass (flat_map f l).
Proof.
  induction l as [|x l IH]; intros H.
  - intros st [].
  - cbn [flat_map]. apply classes_have_superclass_app.
    + apply H. now left.
    + apply IH. intros y Hy. apply H. now right.
Qed.

Lemma no_class_flat_map {A : Type} (f : A -> list Stmt) (l : list A) :
  (forall x st, In st (f x) -> declared_type st <> Some "owl:Class") ->
  forall st, In st (flat_map f l) -> declared_type st <> Some "owl:Class".
Proof.
  intros H st Hst. apply in_flat_map in Hst. destruct Hst as [x [_ Hst]].
  now apply (H x).
Qed.

Lemma class_with_parents_has_superclass (indent : nat)
    (name comment_ttl : string) (parents : list string) :
  classes_have_superclass (class_with_parents indent name comment_ttl parents).
Proof.
  unfold class_with_parents. destruct parents as [|q qs].
  - intros st [<- | []] _. exists (mismo name), "owl:Thing".
    split; [reflexivity | now left].
  - intros st [<- | Hst] Ht.
    + exists (mismo name), (mismo q). split; [reflexivity | now left].
    + apply in_map_iff in Hst. destruct Hst as [q' [<- _]]. discriminate Ht.
Qed.

Lemma entry_statements_have_superclass (info : Registry) (name : string)
    (c : Contained) :
  classes_have_superclass (entry_statements info name c).
Proof.
  unfold entry_statements.
  destruct (is_extension_marker (c_name c) (c_type c)).
  - intros st [<- | []] Ht. discriminate Ht.
  - destruct (is_class_type info (c_type c)).
    + intros st [<- | [<- | []]] Ht; [|discriminate Ht].
      exists (mismo (c_name c)), (mismo name). split; [reflexivity | now left].
    + intros st [<- | []] Ht. discriminate Ht.
Qed.

Lemma attribute_properties_no_class (f : Element -> string -> string -> list Stmt)
    (l : list Element) :
  (forall attr attr_name attr_type st,
      In st (f attr attr_name attr_type) ->
      declared_type st <> Some "owl:Class") ->
  forall st,
    In st (flat_map
             (fun attr =>
                match get_truthy attr "name", get_truthy attr "type" with
                | Some attr_name, Some attr_type => f attr attr_name attr_type
                | _, _ => []
                end) l) ->
    declared_type st <> Some "owl:Class".
Proof.
  intros H. apply no_class_flat_map. intros attr st Hst.
  destruct (get_truthy attr "name") as [attr_name|]; [|contradiction].
  destruct (get_truthy attr "type") as [attr_type|]; [|contradiction].
  now apply (H attr attr_name attr_type).
Qed.

(** Every class a type declares comes with a superclass. *)
Lemma element_statements_have_superclass (rt : PyRuntime) (self : Transformer)
    (e : Element) :
  classes_have_superclass (element_statements rt self e).
Proof.
  unfold element_statements. destruct (classify self e).
  - apply classes_have_superclass_none. unfold transform_pattern_001.
    destruct (get_truthy e "name"); [|contradiction].
    destruct (find e "restriction") as [restriction|]; [|contradiction].
    destruct (get_truthy restriction "base") as [base|]; [|contradiction].
    destruct (base =? "xsd:string")%string;
      [destruct (find restriction "maxLength")|];
      intros st [<- | []]; discriminate.
  - apply classes_have_superclass_none. unfold transform_pattern_001_1.
    destruct (get_truthy e "name"); [|contradiction].
    destruct (find e "union") as [union|]; [|contradiction].
    destruct (get_truthy union "memberTypes"); [|contradiction].
    intros st [<- | []]; discriminate.
  - apply classes_have_superclass_none. unfold transform_pattern_002.
    destruct (get_truthy e "name"); [|contradiction].
    destruct (find e "restriction") as [restriction|]; [|contradiction].
    destruct (get_truthy restriction "base"); [|contradiction].
    intros st [<- | Hst]; [discriminate|]. revert st Hst.
    apply no_class_flat_map. intros enum st Hst.
    destruct (get_truthy enum "value"); [|contradiction].
    destruct Hst as [<- | []]. discriminate.
  - apply classes_have_superclass_none. unfold transform_pattern_003.
    destruct (find e "any") as [any_element|]; [|contradiction].
    destruct (get_or any_element "namespace" "##targetNamespace" =? "##other")%string;
      intros st [<- | [<- | []]]; discriminate.
  - apply classes_have_superclass_none. unfold transform_pattern_004.
    destruct (get_truthy e "name"); [|contradiction].
    destruct (find e "simpleContent") as [simple_content|]; [|contradiction].
    destruct (find simple_content "extension") as [extension|]; [|contradiction].
    destruct (get_truthy extension "base"); [|contradiction].
    intros st [<- | Hst]; [discriminate|]. revert st Hst.
    apply attribute_properties_no_class.
    intros attr attr_name attr_type st [<- | []]. discriminate.
  - apply classes_have_superclass_none. unfold transform_pattern_005.
    destruct (find e "sequence") as [sequence|]; [|contradiction].
    apply attribute_properties_no_class.
    intros elem elem_name elem_type st [<- | []]. discriminate.
  - unfold transform_pattern_006.
    destruct (get_truthy e "name") as [name|]; [|intros st []].
    apply classes_have_superclass_app;
      [apply class_with_parents_has_superclass|].
    apply classes_have_superclass_none. intros st Hst.
    apply in_app_or in Hst. destruct Hst as [Hst | Hst].
    + destruct (find e "sequence") as [sequence|]; [|contradiction].
      revert st Hst. apply attribute_properties_no_class.
      intros elem elem_name elem_type st Hst.
      destruct (is_extension_marker elem_name elem_type);
        destruct Hst as [<- | []]; discriminate.
    + revert st Hst. apply attribute_properties_no_class.
      intros attr attr_name attr_type st [<- | []]. discriminate.
  - destruct (disable_pattern_007 self); [intros st []|].
    unfold pattern_007_statements.
    destruct (get_truthy e "name") as [name|]; [|intros st []].
    destruct (dict_get (hierarchy_data self) name) as [cs|]; [|intros st []].
    apply classes_have_superclass_app;
      [apply class_with_parents_has_superclass|].
    apply classes_have_superclass_flat_map. intros c _.
    apply entry_statements_have_superclass.
  - intros st [].
  - unfold transform_pattern_009.
    destruct (get_truthy e "name") as [name|]; [|intros st []].
    apply classes_have_superclass_app;
      [apply class_with_parents_has_superclass|].
    apply classes_have_superclass_none.
    apply attribute_properties_no_class.
    intros attr attr_name attr_type st [<- | []]. discriminate.
  - intros st [].
Qed.

Lemma incl_nonempty {A : Type} (l1 l2 : list A) :
  incl l1 l2 -> l1 <> [] -> l2 <> [].
Proof.
  intros H H1 ->. destruct l1 as [|x l1]; [congruence|].
  apply (H x). now left.
Qed.

Lemma class_with_parents_superclasses (indent : nat)
    (name comment_ttl : string) (parents : list string) (rest : list Stmt) :
  incl (resolved_superclasses parents)
       (superclasses_of name
          (class_with_parents indent name comment_ttl parents ++ rest)).
Proof.
  rewrite superclasses_of_app, superclasses_of_class_with_parents.
  now apply incl_appl, incl_refl.
Qed.

Lemma dict_mem_get {V : Type} (d : dict V) (k : string) :
  dict_mem d k = true -> exists v, dict_get d k = Some v.
Proof.
  unfold dict_mem. destruct (dict_get d k) as [v|]; [|discriminate].
  intros _. now exists v.
Qed.

Lemma dict_mem_get_false {V : Type} (d : dict V) (k : string) :
  dict_mem d k = false -> dict_get d k = None.
Proof.
  unfold dict_mem. destruct (dict_get d k); [discriminate | reflexivity].
Qed.

(** The statements of a type that emits its class, by pattern. *)
Lemma class_emitting_statements (rt : PyRuntime) (self : Transformer)
    (e : Element) (name : string) :
  get_truthy e "name" = Some name ->
  (classify self e = Pattern_006 \/ classify self e = Pattern_009
   \/ (classify self e = Pattern_007 /\ disable_pattern_007 self = false
       /\ dict_mem (hierarchy_data self) name = true)) ->
  exists indent comment_ttl rest,
    fst (transform_element_new rt e self)
    = class_with_parents indent name comment_ttl (get_parent_types self name)
      ++ rest
    /\ forall st, In st rest ->
         forall edge, In edge (subclass_edges st) -> snd edge = mismo name.
Proof.
  intros Hn Hp.
  destruct (transform_element_new_spec rt e self) as [Hs _]. rewrite Hs.
  unfold element_statements.
  destruct Hp as [Hp | [Hp | (Hp & Hf & Hm)]]; rewrite Hp.
  - unfold transform_pattern_006. rewrite Hn. do 3 eexists. split; [reflexivity|].
    intros st Hst edge He. exfalso. apply in_app_or in Hst.
    destruct Hst as [Hst | Hst].
    + destruct (find e "sequence") as [sequence|]; [|contradiction].
      apply in_flat_map in Hst. destruct Hst as [elem [_ Hst]].
      destruct (get_truthy elem "name") as [elem_name|]; [|contradiction].
      destruct (get_truthy elem "type") as [elem_type|]; [|contradiction].
      destruct (is_extension_marker elem_name elem_type);
        destruct Hst as [<- | []]; exact He.
    + apply in_flat_map in Hst. destruct Hst as [attr [_ Hst]].
      destruct (get_truthy attr "name"); [|contradiction].
      destruct (get_truthy attr "type"); [|contradiction].
      destruct Hst as [<- | []]. exact He.
  - unfold transform_pattern_009. rewrite Hn. do 3 eexists. split; [reflexivity|].
    intros st Hst edge He. exfalso.
    apply in_flat_map in Hst. destruct Hst as [attr [_ Hst]].
    destruct (get_truthy attr "name"); [|contradiction].
    destruct (get_truthy attr "type"); [|contradiction].
    destruct Hst as [<- | []]. exact He.
  - rewrite Hf. unfold pattern_007_statements. rewrite Hn.
    apply dict_mem_get in Hm. destruct Hm as [cs Hm]. rewrite Hm.
    rewrite (determine_parents_get_parent_types self name
               (get_truthy_nonempty e "name" name Hn)).
    do 3 eexists. split; [reflexivity|].
    intros st Hst edge He.
    apply in_flat_map in Hst. destruct Hst as [c [_ Hst]].
    unfold entry_statements in Hst.
    destruct (is_extension_marker (c_name c) (c_type c)).
    + destruct Hst as [<- | []]. contradiction.
    + destruct (is_class_type (complex_type_info self) (c_type c)).
      * destruct Hst as [<- | [<- | []]]; [|contradiction].
        destruct He as [<- | []]. reflexivity.
      * destruct Hst as [<- | []]. contradiction.
Qed.

(** ** The main loop *)

Lemma transform_and_record_eq (rt : PyRuntime) (name : string) (e : Element)
    (s : Transformer) :
  transform_and_record rt name e s
  = let (statements, s1) := transform_element_new rt e s in
    match statements with
    | [] => (tt, s1)
    | _ :: _ =>
        (tt,
         set_transformed_types
           (set_add name (transformed_types s1))
           (set_ttl_statements
              (ttl_statements s1 ++ statements ++ [SLine ""]) s1))
    end.
Proof.
  unfold transform_and_record, bind.
  destruct (transform_element_new rt e s) as [statements s1].
  destruct statements; reflexivity.
Qed.

(** What one transformation does to the output and to the set of
    transformed types. *)
Lemma transform_and_record_effect (rt : PyRuntime) (name : string)
    (e : Element) (s : Transformer) :
  let s' := snd (transform_and_record rt name e s) in
  same_inputs s s'
  /\ match element_statements rt s e with
     | [] =>
         ttl_statements s' = ttl_statements s
         /\ transformed_types s' = transformed_types s
     | _ :: _ =>
         ttl_statements s'
         = ttl_statements s ++ element_statements rt s e ++ [SLine ""]
         /\ transformed_types s' = set_add name (transformed_types s)
     end.
Proof.
  cbv zeta. rewrite transform_and_record_eq.
  destruct (transform_element_new_spec rt e s) as [Hs Hf].
  destruct (transform_element_new rt e s) as [statements s1].
  cbn [fst snd] in Hs, Hf. subst statements.
  pose proof (frame_same_inputs _ _ Hf) as Hi.
  destruct Hf as (Ht & Hl & _).
  destruct (element_statements rt s e) as [|st l]; cbn [snd].
  - auto.
  - split; [exact Hi|]. cbn [ttl_statements transformed_types set_transformed_types
                              set_ttl_statements].
    now rewrite Ht, Hl.
Qed.

Lemma transform_step_skip (rt : PyRuntime) (e : Element) (s : Transformer)
    (name : string) :
  get_truthy e "name" = Some name ->
  mem name (transformed_types s) = true ->
  transform_step rt e s = (tt, s).
Proof.
  intros Hn Hm. unfold transform_step. rewrite Hn.
  unfold bind, get_self. cbn beta iota. now rewrite Hm.
Qed.

Lemma transform_step_fresh (rt : PyRuntime) (e : Element) (s : Transformer)
    (name : string) :
  get_truthy e "name" = Some name ->
  mem name (transformed_types s) = false ->
  transform_step rt e s = transform_and_record rt name e s.
Proof.
  intros Hn Hm. unfold transform_step. rewrite Hn.
  unfold bind, get_self. cbn beta iota. now rewrite Hm.
Qed.

Lemma mem_set_add (x y : string) (l : list string) :
  mem x l = true -> mem x (set_add y l) = true.
Proof.
  intros H. unfold set_add. destruct (mem y l); [assumption|].
  apply mem_In. apply in_or_app. left. now apply mem_In.
Qed.

Lemma mem_set_add_same (x : string) (l : list string) :
  mem x (set_add x l) = true.
Proof.
  unfold set_add. destruct (mem x l) eqn:E; [assumption|].
  apply mem_In. apply in_or_app. right. now left.
Qed.

Lemma transform_step_monotone (rt : PyRuntime) (e : Element) (s : Transformer)
    (x : string) :
  mem x (transformed_types s) = true ->
  mem x (transformed_types (snd (transform_step rt e s))) = true.
Proof.
  intros H. destruct (get_truthy e "name") as [name|] eqn:Hn.
  - destruct (mem name (transformed_types s)) eqn:Hm.
    + now rewrite (transform_step_skip rt e s name Hn Hm).
    + rewrite (transform_step_fresh rt e s name Hn Hm).
      destruct (transform_and_record_effect rt name e s) as [_ He].
      destruct (element_statements rt s e); destruct He as [_ ->];
        [assumption | now apply mem_set_add].
  - unfold transform_step. now rewrite Hn.
Qed.

Lemma transform_loop_cons (rt : PyRuntime) (e : Element) (l : list Element)
    (s : Transformer) :
  snd (transform_loop rt (e :: l) s)
  = snd (transform_loop rt l (snd (transform_step rt e s))).
Proof.
  cbn [transform_loop]. unfold bind.
  now destruct (transform_step rt e s).
Qed.

Lemma transform_loop_monotone (rt : PyRuntime) (l : list Element) (x : string) :
  forall s,
    mem x (transformed_types s) = true ->
    mem x (transformed_types (snd (transform_loop rt l s))) = true.
Proof.
  induction l as [|e l IH]; intros s H; [assumption|].
  rewrite transform_loop_cons. apply IH. now apply transform_step_monotone.
Qed.

(** An element that adds to the output has its name recorded. *)
Lemma contributed_recorded (rt : PyRuntime) (name : string) (e : Element)
    (s : Transformer) :
  ttl_statements (snd (transform_and_record rt name e s)) <> ttl_statements s ->
  mem name (transformed_types (snd (transform_and_record rt name e s))) = true.
Proof.
  intros H. destruct (transform_and_record_effect rt name e s) as [_ He].
  destruct (element_statements rt s e); destruct He as [He1 He2].
  - contradiction.
  - rewrite He2. apply mem_set_add_same.
Qed.

(** ** The pipeline reaches the loaded state *)

Lemma loaded_hierarchy_built (disable : bool) (root : Element) :
  hierarchy_built (loaded disable root).
Proof. reflexivity. Qed.

Lemma same_inputs_trans (s1 s2 s3 : Transformer) :
  same_inputs s1 s2 -> same_inputs s2 s3 -> same_inputs s1 s3.
Proof.
  unfold same_inputs. intros (a & b & c) (a' & b' & c'). repeat split; congruence.
Qed.

Lemma transform_step_inputs (rt : PyRuntime) (e : Element) (s : Transformer) :
  same_inputs s (snd (transform_step rt e s)).
Proof.
  destruct (get_truthy e "name") as [name|] eqn:Hn.
  - destruct (mem name (transformed_types s)) eqn:Hm.
    + rewrite (transform_step_skip rt e s name Hn Hm). repeat split.
    + rewrite (transform_step_fresh rt e s name Hn Hm).
      apply transform_and_record_effect.
  - unfold transform_step. rewrite Hn. repeat split.
Qed.

Lemma transform_loop_inputs (rt : PyRuntime) (l : list Element) :
  forall s, same_inputs s (snd (transform_loop rt l s)).
Proof.
  induction l as [|e l IH]; intros s; [repeat split|].
  rewrite transform_loop_cons.
  eapply same_inputs_trans; [apply transform_step_inputs | apply IH].
Qed.

Lemma append_pass_inputs (heading : string) (statements : list Stmt)
    (s : Transformer) :
  same_inputs s (snd (append_pass heading statements s)).
Proof. destruct statements; repeat split. Qed.

(** [transform_xsd] by its stages. *)
Lemma transform_xsd_stages (rt : PyRuntime) (root : Element) (s : Transformer) :
  transform_xsd rt root s
  = (transform_message rt root ;;;
     transform_loop rt (transformable_simple root ++ transformable_complex root) ;;;
     final_passes rt) (prepared root s).
Proof. reflexivity. Qed.

Lemma snd_bind_rule {A B : Type} (Q R : Transformer -> Prop)
    (m : M A) (k : A -> M B) (s : Transformer) :
  Q (snd (m s)) ->
  (forall a s', Q s' -> R (snd (k a s'))) ->
  R (snd (bind m k s)).
Proof.
  unfold bind. destruct (m s) as [a s']. cbn [snd]. intros Hq Hk. now apply Hk.
Qed.

Lemma transform_message_inputs (rt : PyRuntime) (root : Element)
    (s : Transformer) :
  same_inputs s (snd (transform_message rt root s)).
Proof.
  unfold transform_message.
  destruct (find_message_element root) as [m|]; [|repeat split].
  destruct (elem_truthy m); [|repeat split].
  apply transform_and_record_effect.
Qed.

Lemma final_passes_inputs (rt : PyRuntime) (s : Transformer) :
  same_inputs s (snd (final_passes rt s)).
Proof.
  unfold final_passes, bind, get_self, ret.
  pose proof (append_pass_inputs "# Class Hierarchies and Containment Relationships"
                (establish_class_hierarchies rt s) s) as H1.
  destruct (append_pass "# Class Hierarchies and Containment Relationships"
              (establish_class_hierarchies rt s) s) as [u s1].
  cbn [snd] in H1.
  pose proof (append_pass_inputs "# Hierarchy Consistency"
                (ensure_hierarchy_consistency s1) s1) as H2.
  destruct (append_pass "# Hierarchy Consistency"
              (ensure_hierarchy_consistency s1) s1) as [u2 s2].
  cbn [snd] in *. eapply same_inputs_trans; eassumption.
Qed.

(** From the prepared state on, a run reads the registry, the hierarchy
    data and the switch and never changes them. *)
Lemma run_inputs (rt : PyRuntime) (root : Element) (s0 : Transformer) :
  same_inputs s0
    (snd ((transform_message rt root ;;;
           transform_loop rt (transformable_simple root ++ transformable_complex root) ;;;
           final_passes rt) s0)).
Proof.
  apply snd_bind_rule with (Q := same_inputs s0);
    [apply transform_message_inputs|].
  intros _ s1 H1.
  apply snd_bind_rule with (Q := same_inputs s0).
  - eapply same_inputs_trans; [exact H1 | apply transform_loop_inputs].
  - intros _ s2 H2. eapply same_inputs_trans; [exact H2 | apply final_passes_inputs].
Qed.

(** The registry, the hierarchy data and the switch [transform_xsd] ends
    with are those of the loaded state. *)
Lemma transform_xsd_inputs (rt : PyRuntime) (root : Element) (disable : bool) :
  same_inputs (loaded disable root)
              (snd (transform_xsd rt root (init disable))).
Proof.
  rewrite transform_xsd_stages.
  eapply same_inputs_trans; [|apply run_inputs]. repeat split.
Qed.

(** ** Every class of the output has a superclass *)

Lemma transform_and_record_classes (rt : PyRuntime) (name : string)
    (e : Element) (s : Transformer) :
  classes_have_superclass (ttl_statements s) ->
  classes_have_superclass
    (ttl_statements (snd (transform_and_record rt name e s))).
Proof.
  intros H. destruct (transform_and_record_effect rt name e s) as [_ He].
  pose proof (element_statements_have_superclass rt s e) as Hc.
  destruct (element_statements rt s e) as [|st l]; destruct He as [-> _].
  - exact H.
  - apply classes_have_superclass_app; [exact H|].
    apply classes_have_superclass_app; [exact Hc|].
    intros st' [<- | []] Ht. discriminate Ht.
Qed.

Lemma transform_step_classes (rt : PyRuntime) (e : Element) (s : Transformer) :
  classes_have_superclass (ttl_statements s) ->
  classes_have_superclass (ttl_statements (snd (transform_step rt e s))).
Proof.
  intros H. destruct (get_truthy e "name") as [name|] eqn:Hn.
  - destruct (mem name (transformed_types s)) eqn:Hm.
    + now rewrite (transform_step_skip rt e s name Hn Hm).
    + rewrite (transform_step_fresh rt e s name Hn Hm).
      now apply transform_and_record_classes.
  - unfold transform_step. now rewrite Hn.
Qed.

Lemma transform_loop_classes (rt : PyRuntime) (l : list Element) :
  forall s,
    classes_have_superclass (ttl_statements s) ->
    classes_have_superclass (ttl_statements (snd (transform_loop rt l s))).
Proof.
  induction l as [|e l IH]; intros s H; [exact H|].
  rewrite transform_loop_cons. apply IH. now apply transform_step_classes.
Qed.

Lemma append_pass_classes (heading : string) (statements : list Stmt)
    (s : Transformer) :
  (forall st, In st statements -> declared_type st <> Some "owl:Class") ->
  classes_have_superclass (ttl_statements s) ->
  classes_have_superclass
    (ttl_statements (snd (append_pass heading statements s))).
Proof.
  intros Hn H. destruct statements as [|st0 l]; [exact H|].
  cbn [append_pass extend_statements modify snd ttl_statements set_ttl_statements].
  apply classes_have_superclass_app; [exact H|].
  apply classes_have_superclass_none. intros st Hst.
  cbn [app] in Hst.
  destruct Hst as [<- | [<- | [<- | Hst]]]; try discriminate.
  change (In st ((st0 :: l) ++ [SLine ""])) in Hst.
  apply in_app_or in Hst. destruct Hst as [Hst | [<- | []]]; [|discriminate].
  now apply Hn.
Qed.

Lemma establish_no_class (rt : PyRuntime) (s : Transformer) (st : Stmt) :
  In st (establish_class_hierarchies rt s) ->
  declared_type st <> Some "owl:Class".
Proof.
  unfold establish_class_hierarchies. cbv zeta. revert st.
  apply no_class_flat_map. intros [c el] st [<- | [<- | []]]; discriminate.
Qed.

Lemma ensure_no_class (s : Transformer) (st : Stmt) :
  In st (ensure_hierarchy_consistency s) ->
  declared_type st <> Some "owl:Class".
Proof.
  unfold ensure_hierarchy_consistency. revert st.
  apply no_class_flat_map. intros [c el] st [<- | Hst]; [discriminate|].
  destruct (_determine_collection_parents s c).
  - destruct Hst as [<- | []]. discriminate.
  - apply in_map_iff in Hst. destruct Hst as [q [<- _]]. discriminate.
Qed.

Lemma transform_message_classes (rt : PyRuntime) (root : Element)
    (s : Transformer) :
  classes_have_superclass (ttl_statements s) ->
  classes_have_superclass (ttl_statements (snd (transform_message rt root s))).
Proof.
  intros H. unfold transform_message.
  destruct (find_message_element root) as [m|]; [|exact H].
  destruct (elem_truthy m); [|exact H].
  now apply transform_and_record_classes.
Qed.

Lemma final_passes_classes (rt : PyRuntime) (s : Transformer) :
  classes_have_superclass (ttl_statements s) ->
  classes_have_superclass (ttl_statements (snd (final_passes rt s))).
Proof.
  intros H. unfold final_passes, bind, get_self, ret.
  pose proof (append_pass_classes "# Class Hierarchies and Containment Relationships"
                (establish_class_hierarchies rt s) s
                (establish_no_class rt s) H) as H1.
  destruct (append_pass "# Class Hierarchies and Containment Relationships"
              (establish_class_hierarchies rt s) s) as [u s1].
  cbn [snd] in H1.
  pose proof (append_pass_classes "# Hierarchy Consistency"
                (ensure_hierarchy_consistency s1) s1
                (ensure_no_class s1) H1) as H2.
  destruct (append_pass "# Hierarchy Consistency"
              (ensure_hierarchy_consistency s1) s1) as [u2 s2].
  exact H2.
Qed.

(** In the output of a run every declared class has a superclass. *)
Lemma transform_xsd_classes (rt : PyRuntime) (root : Element) (disable : bool) :
  classes_have_superclass
    (ttl_statements (snd (transform_xsd rt root (init disable)))).
Proof.
  rewrite transform_xsd_stages.
  apply snd_bind_rule
    with (Q := fun s => classes_have_superclass (ttl_statements s)).
  - apply transform_message_classes.
    apply classes_have_superclass_none.
    intros st Hst. apply in_map_iff in Hst. destruct Hst as [l [<- _]].
    discriminate.
  - intros _ s1 H1.
    apply snd_bind_rule
      with (Q := fun s => classes_have_superclass (ttl_statements s)).
    + now apply transform_loop_classes.
    + intros _ s2 H2. now apply final_passes_classes.
Qed.

(* ================================================================== *)
(** * The claims *)

(** C1 (as the code has it).  For every named complex type classified
    Pattern 006 (ElementsAndAttributes) or Pattern 009 (AttributesOnly),
    and every one classified Pattern 007 (Collection) that has an entry
    of its own in the hierarchy data while Pattern 007 is enabled, the
    emitted statements assert each distinct containment parent as a
    superclass of the class of the type, or owl:Thing when there is no
    parent, so at least one superclass.  A type classified Pattern 007
    without such an entry, or with Pattern 007 disabled, emits no
    statement at all.  The parents are, without repetition, the types
    with a containment edge to the type by element name or by type.  The
    consistency pass asserts for every tracked collection its parents, or
    owl:Thing, again at least one superclass.  Every class declared by
    the statements of a type, and by the output of a whole run, has a
    superclass asserted there: no emitted class is left without one. *)
Theorem C1_superclass_asserted (rt : PyRuntime) (self : Transformer)
    (e : Element) (name : string) :
  get_truthy e "name" = Some name ->
  let p := fst (find_pattern_type e self) in
  let stmts := fst (transform_element_new rt e self) in
  let parents := get_parent_types self name in
  ((p = Pattern_006 \/ p = Pattern_009
    \/ (p = Pattern_007 /\ disable_pattern_007 self = false
        /\ dict_mem (hierarchy_data self) name = true)) ->
   incl (resolved_superclasses parents) (superclasses_of name stmts)
   /\ superclasses_of name stmts <> [])
  /\ (p = Pattern_007 ->
      disable_pattern_007 self = true
      \/ dict_mem (hierarchy_data self) name = false ->
      stmts = [])
  /\ NoDup parents
  /\ (forall q,
        In q parents
        <-> exists cs c,
              In (q, cs) (hierarchy_data self) /\ In c cs
              /\ (c_name c = name \/ c_type c = name))
  /\ (forall collection_name element_name,
        In (collection_name, element_name) (pending_hierarchies self) ->
        let consistency := ensure_hierarchy_consistency self in
        incl (resolved_superclasses
                (_determine_collection_parents self collection_name))
             (superclasses_of collection_name consistency)
        /\ superclasses_of collection_name consistency <> [])
  /\ classes_have_superclass stmts
  /\ (forall root disable,
        classes_have_superclass
          (ttl_statements (snd (transform_xsd rt root (init disable))))).
Proof.
  intros Hn. cbn [find_pattern_type bind get_self ret fst]. cbv zeta.
  split; [|split; [|split; [|split; [|split; [|split]]]]];
    [ | | | | |
      rewrite (proj1 (transform_element_new_spec rt e self));
      apply element_statements_have_superclass
    | intros root disable; apply transform_xsd_classes ].
  - intros Hp.
    destruct (class_emitting_statements rt self e name Hn Hp)
      as (indent & comment_ttl & rest & -> & _).
    pose proof (class_with_parents_superclasses indent name comment_ttl
                  (get_parent_types self name) rest) as Hi.
    split; [exact Hi|].
    exact (incl_nonempty _ _ Hi (resolved_superclasses_nonempty _)).
  - intros Hp Hd.
    destruct (transform_element_new_spec rt e self) as [Hs _]. rewrite Hs.
    unfold element_statements. rewrite Hp.
    destruct (disable_pattern_007 self); [reflexivity|].
    destruct Hd as [Hd | Hd]; [discriminate|].
    unfold pattern_007_statements.
    now rewrite Hn, (dict_mem_get_false _ _ Hd).
  - apply get_parent_types_spec.
  - apply get_parent_types_spec.
  - intros collection_name element_name Hin.
    assert (Hi : incl (resolved_superclasses
                         (_determine_collection_parents self collection_name))
                      (superclasses_of collection_name
                         (ensure_hierarchy_consistency self))).
    { intros sup Hsup. apply in_superclasses_of.
      unfold ensure_hierarchy_consistency.
      destruct (_determine_collection_parents self collection_name)
        as [|q qs] eqn:Ep.
      - destruct Hsup as [<- | []]. eexists. split.
        + apply in_flat_map. exists (collection_name, element_name).
          split; [exact Hin|]. rewrite Ep. right. now left.
        + now left.
      - apply in_map_iff in Hsup. destruct Hsup as [q' [<- Hq']]. eexists. split.
        + apply in_flat_map. exists (collection_name, element_name).
          split; [exact Hin|]. rewrite Ep. right.
          apply in_map_iff. exists q'. split; [reflexivity | exact Hq'].
        + now left. }
    split; [exact Hi|].
    exact (incl_nonempty _ _ Hi (resolved_superclasses_nonempty _)).
Qed.

(** C2.  The pattern classifier is a total, ordered decision procedure.
    For an element whose tag ends in simpleType it returns Pattern 001.1
    (Union) when a union is present below it, else Pattern 002
    (Enumeration) when an enumeration is present, else Pattern 001
    (Restriction).  For an element whose tag ends in complexType the
    checks are tried in the order Pattern 003 (AnyWildcard, an xsd:any is
    present), Pattern 005 (ExtensionOnly), Pattern 004
    (SimpleContentWithAttributes, a simpleContent is present), Pattern
    007 (Collection), Pattern 009 (AttributesOnly), and Pattern 006
    (ElementsAndAttributes) is the default: the first check that holds
    decides. *)
Theorem C2_classifier_ordered (self : Transformer) (e : Element) :
  let p := fst (find_pattern_type e self) in
  (endswith (tag e) "simpleType" = true ->
     (present "union" e -> p = Pattern_001_1)
     /\ (~ present "union" e -> present "enumeration" e -> p = Pattern_002)
     /\ (~ present "union" e -> ~ present "enumeration" e -> p = Pattern_001))
  /\ (endswith (tag e) "complexType" = true ->
     (present "any" e -> p = Pattern_003)
     /\ (~ present "any" e -> isPattern005 e = true -> p = Pattern_005)
     /\ (~ present "any" e -> isPattern005 e = false ->
         present "simpleContent" e -> p = Pattern_004)
     /\ (~ present "any" e -> isPattern005 e = false ->
         ~ present "simpleContent" e ->
         is_collection_type self e = true -> p = Pattern_007)
     /\ (~ present "any" e -> isPattern005 e = false ->
         ~ present "simpleContent" e ->
         is_collection_type self e = false ->
         has_only_attributes e = true -> p = Pattern_009)
     /\ (~ present "any" e -> isPattern005 e = false ->
         ~ present "simpleContent" e ->
         is_collection_type self e = false ->
         has_only_attributes e = false -> p = Pattern_006)).
Proof.
  cbn [find_pattern_type bind get_self ret fst]. unfold classify. split.
  - intros ->. repeat split.
    + intros H. apply is_some_find in H. now rewrite H.
    + intros H1 H2. apply is_some_find_false in H1. apply is_some_find in H2.
      now rewrite H1, H2.
    + intros H1 H2. apply is_some_find_false in H1, H2. now rewrite H1, H2.
  - intros H. rewrite (endswith_complex_not_simple _ H), H.
    unfold isPattern003, isPattern004.
    repeat split; intros;
      repeat match goal with
        | X : present _ _ |- _ => apply is_some_find in X; rewrite X
        | X : ~ present _ _ |- _ => apply is_some_find_false in X; rewrite X
        | X : _ = true |- _ => rewrite X; clear X
        | X : _ = false |- _ => rewrite X; clear X
        end; reflexivity.
Qed.

(** C3 (as the code has it).  For every named class-producing type that
    emits its class and whose containment-parent set is empty, the
    statements assert owl:Thing as superclass and no other class than,
    possibly, the type itself: the resolver never adopts a root
    container.  The election of a root container exists beside it and
    is not consulted: it returns a type with more than five contained
    types and at least as many as any other type, and none when no type
    has more than five. *)
Theorem C3_root_fallback (rt : PyRuntime) (self : Transformer)
    (e : Element) (name : string) :
  get_truthy e "name" = Some name ->
  get_parent_types self name = [] ->
  let p := fst (find_pattern_type e self) in
  (p = Pattern_006 \/ p = Pattern_009
   \/ (p = Pattern_007 /\ disable_pattern_007 self = false
       /\ dict_mem (hierarchy_data self) name = true)) ->
  let stmts := fst (transform_element_new rt e self) in
  In "owl:Thing" (superclasses_of name stmts)
  /\ (forall sup, In sup (superclasses_of name stmts) ->
                  sup = "owl:Thing" \/ sup = mismo name)
  /\ _determine_collection_parents self name = []
  /\ match _find_root_container self with
     | Some root =>
         exists cs,
           In (root, cs) (hierarchy_data self)
           /\ 5 < List.length cs
           /\ forall t cs', In (t, cs') (hierarchy_data self) ->
                            List.length cs' <= List.length cs
     | None =>
         forall t cs, In (t, cs) (hierarchy_data self) -> List.length cs <= 5
     end.
Proof.
  intros Hn Hpar. cbn [find_pattern_type bind get_self ret fst]. cbv zeta.
  intros Hp.
  destruct (class_emitting_statements rt self e name Hn Hp)
    as (indent & comment_ttl & rest & -> & Hrest).
  rewrite Hpar. split; [|split; [|split]].
  - apply (class_with_parents_superclasses indent name comment_ttl [] rest).
    now left.
  - intros sup Hsup. rewrite superclasses_of_app in Hsup.
    apply in_app_or in Hsup. destruct Hsup as [Hsup | Hsup].
    + rewrite superclasses_of_class_with_parents in Hsup.
      destruct Hsup as [<- | []]. now left.
    + apply in_superclasses_of in Hsup. destruct Hsup as [st [Hst He]].
      right. exact (Hrest st Hst _ He).
  - rewrite (determine_parents_get_parent_types self name
               (get_truthy_nonempty e "name" name Hn)).
    exact Hpar.
  - apply find_root_container_spec.
Qed.

(** C4 (as the code has it).  For a collection type with a name and an
    entry in the hierarchy data built from the registry, every contained
    reference other than the extension marker, whatever its multiplicity,
    is emitted as a contained class with a containment property, and the
    collection emitter declares no datatype property at all. *)
Theorem C4_contained_references_as_classes (self : Transformer) (e : Element)
    (name : string) (contained_types : list Contained) (c : Contained) :
  hierarchy_built self ->
  get_truthy e "name" = Some name ->
  dict_get (hierarchy_data self) name = Some contained_types ->
  In c contained_types ->
  is_extension_marker (c_name c) (c_type c) = false ->
  let stmts := fst (transform_pattern_007_new e self) in
  In (contained_class name (c_name c)) stmts
  /\ In (contains_property name (c_name c)) stmts
  /\ forall st, In st stmts -> declared_type st <> Some "owl:DatatypeProperty".
Proof.
  intros Hb Hn Hd Hc Hm. cbv zeta.
  destruct (transform_pattern_007_new_spec e self) as [Hs _].
  rewrite Hs. unfold pattern_007_statements. rewrite Hn, Hd.
  pose proof (hierarchy_built_class_like self name contained_types c Hb Hd Hc) as Hk.
  destruct (entry_statements_in (complex_type_info self) name contained_types c
              Hc Hm Hk) as [H1 H2].
  split; [apply in_or_app; now right|].
  split; [apply in_or_app; now right|].
  intros st Hst. apply in_app_or in Hst. destruct Hst as [Hst | Hst].
  - now apply class_with_parents_no_datatype in Hst.
  - apply in_flat_map in Hst. destruct Hst as [c' [Hc' Hst]].
    apply (entry_statements_no_datatype (complex_type_info self) name c'); [|assumption].
    now apply (hierarchy_built_class_like self name contained_types c' Hb Hd).
Qed.

(** C5 (as the code has it).  For a collection type C with a name and
    an entry in the hierarchy data, and every unbounded containment edge
    of C to an element E of a class-like type, other than the extension
    marker (an element named EXTENSION whose type name ends in
    _EXTENSION), the statements of the collection emitter contain a
    class declaration for E with rdfs:subClassOf C and an object
    property named contains-E, labelled so, with rdfs:subPropertyOf
    rdf:member; the pair (C, E) is tracked for the consistency pass;
    and a type classified Pattern 007 is handed to this emitter unless
    Pattern 007 is disabled.  The predicates under which the emitter
    writes the domain and the range of the property are no part of this
    statement. *)
Theorem C5_contained_class_and_property (rt : PyRuntime) (self : Transformer)
    (e : Element) (name : string) (contained_types : list Contained)
    (c : Contained) :
  get_truthy e "name" = Some name ->
  dict_get (hierarchy_data self) name = Some contained_types ->
  In c contained_types ->
  c_max_occurs c = "unbounded" ->
  is_class_type (complex_type_info self) (c_type c) = true ->
  is_extension_marker (c_name c) (c_type c) = false ->
  let stmts := fst (transform_pattern_007_new e self) in
  (exists comment_ttl,
     In (SDecl 8 (mismo (c_name c)) "owl:Class"
           [("rdfs:label", quoted (c_name c));
            ("rdfs:comment", comment_ttl);
            ("rdfs:subClassOf", mismo name)]) stmts)
  /\ (exists property,
        In property stmts
        /\ subject_of property = Some (mismo ("contains" ++ c_name c))
        /\ declared_type property = Some "owl:ObjectProperty"
        /\ prop_value "rdfs:label" property
           = Some (quoted ("contains " ++ c_name c))
        /\ prop_value "rdfs:subPropertyOf" property = Some "rdf:member")
  /\ In (mismo name) (superclasses_of (c_name c) stmts)
  /\ In (name, c_name c)
        (pending_hierarchies (snd (transform_pattern_007_new e self)))
  /\ (fst (find_pattern_type e self) = Pattern_007 ->
      disable_pattern_007 self = false ->
      transform_element_new rt e self = transform_pattern_007_new e self).
Proof.
  intros Hn Hd Hc _ Hk Hm. cbv zeta.
  destruct (transform_pattern_007_new_spec e self) as [Hs _].
  rewrite Hs. unfold pattern_007_statements. rewrite Hn, Hd.
  destruct (entry_statements_in (complex_type_info self) name contained_types c
              Hc Hm Hk) as [H1 H2].
  assert (Hcc : In (contained_class name (c_name c))
                   (class_with_parents 4 name
                      (fmt ("A collection containing multiple instances. "
                            ++ str_of (doc_text_or e ("Collection type: " ++ name))))
                      (_determine_collection_parents self name)
                    ++ flat_map (entry_statements (complex_type_info self) name)
                                contained_types))
    by (apply in_or_app; now right).
  split; [eexists; exact Hcc|]. split.
  - exists (contains_property name (c_name c)).
    split; [apply in_or_app; right; exact H2|].
    repeat split.
  - split.
    + apply in_superclasses_of. eexists. split; [exact Hcc|].
      unfold contained_class. cbn. now left.
    + split.
      * rewrite (transform_pattern_007_new_pending e self name contained_types Hn Hd).
        apply in_or_app. right. now apply entry_tracked_in.
      * cbn [find_pattern_type bind get_self ret fst]. intros Hp Hf.
        now rewrite transform_element_new_eq, Hp, Hf.
Qed.

(** C6 (as the code has it).  For a simple type classified Pattern 002
    (Enumeration) with a name and a restriction base, the statements are
    the base datatype, a subclass of the restriction base, followed by
    one property per enumeration facet whose value is not empty, in
    document order: each is an rdf:Property named and labelled by the
    value and a sub-property of the base datatype.  With n such facets
    there are exactly n properties. *)
Theorem C6_enumeration_properties (rt : PyRuntime) (self : Transformer)
    (e : Element) (name base : string) (restriction : Element) :
  fst (find_pattern_type e self) = Pattern_002 ->
  get_truthy e "name" = Some name ->
  find e "restriction" = Some restriction ->
  get_truthy restriction "base" = Some base ->
  let stmts := fst (transform_element_new rt e self) in
  let props :=
    map (fun ev : Element * string => enum_property name (fst ev) (snd ev))
        (valued_enumerations restriction) in
  stmts = enum_base name base :: props
  /\ declared_type (enum_base name base) = Some "rdfs:Datatype"
  /\ subject_of (enum_base name base) = Some (mismo name)
  /\ prop_value "rdfs:subClassOf" (enum_base name base)
     = Some (_format_type_reference base)
  /\ List.length props = List.length (valued_enumerations restriction)
  /\ Forall2
       (fun (ev : Element * string) st =>
          get (fst ev) "value" = Some (snd ev)
          /\ subject_of st = Some (mismo (snd ev))
          /\ declared_type st = Some "rdf:Property"
          /\ prop_value "rdfs:label" st = Some (quoted (snd ev))
          /\ prop_value "rdfs:subPropertyOf" st = Some (mismo name))
       (valued_enumerations restriction) props.
Proof.
  cbn [find_pattern_type bind get_self ret fst]. intros Hp Hn Hr Hb. cbv zeta.
  rewrite transform_element_new_eq, Hp. cbn [fst].
  unfold transform_pattern_002. rewrite Hn, Hr, Hb.
  rewrite valued_enumerations_statements.
  split; [reflexivity|]. split; [reflexivity|]. split; [reflexivity|].
  split; [reflexivity|]. split; [apply length_map|].
  assert (Hv : forall ev, In ev (valued_enumerations restriction) ->
                          get (fst ev) "value" = Some (snd ev)).
  { intros [enum v] H. unfold valued_enumerations in H.
    apply in_flat_map in H. destruct H as [enum' [_ H]].
    unfold get_truthy in H. destruct (get enum' "value") as [w|] eqn:G; [|contradiction].
    destruct (truthy (Some w)); [|contradiction].
    destruct H as [E | []]. injection E as -> ->. exact G. }
  induction (valued_enumerations restriction) as [|ev l IH]; [constructor|].
  cbn [map]. constructor.
  - split; [apply Hv; now left|]. repeat split.
  - apply IH. intros ev' H. apply Hv. now right.
Qed.

(** C7.  A complex type classified Pattern 003 (AnyWildcard) gets no
    class declaration, and exactly two statements: a datatype property
    for literal wildcard content and an object property for structured
    wildcard content.  They are the pair for other namespaces when the
    namespace of the first wildcard is ##other and the pair for the
    target namespace otherwise, and the two pairs differ in the names,
    the labels and the comments of their properties. *)
Theorem C7_wildcard_properties (rt : PyRuntime) (self : Transformer)
    (e : Element) :
  fst (find_pattern_type e self) = Pattern_003 ->
  let stmts := fst (transform_element_new rt e self) in
  (forall st, In st stmts -> declared_type st <> Some "owl:Class")
  /\ map declared_type stmts
     = [Some "owl:DatatypeProperty"; Some "owl:ObjectProperty"]
  /\ (exists any_element,
        find e "any" = Some any_element
        /\ stmts
           = if (get_or any_element "namespace" "##targetNamespace" =? "##other")%string
             then wildcard_other_namespace
             else wildcard_target_namespace)
  /\ map subject_of wildcard_other_namespace
     = [Some (mismo "hasOtherNamespaceElementContent");
        Some (mismo "hasOtherNamespaceElement")]
  /\ map subject_of wildcard_target_namespace
     = [Some (mismo "hasAnyElementContent"); Some (mismo "hasAnyElement")]
  /\ Forall2
       (fun a b =>
          subject_of a <> subject_of b
          /\ prop_value "rdfs:label" a <> prop_value "rdfs:label" b
          /\ prop_value "rdfs:comment" a <> prop_value "rdfs:comment" b
          /\ declared_type a = declared_type b
          /\ prop_value "rdfs:range" a = prop_value "rdfs:range" b)
       wildcard_other_namespace wildcard_target_namespace.
Proof.
  cbn [find_pattern_type bind get_self ret fst]. intros Hp.
  assert (Hany : isPattern003 e = true).
  { unfold classify in Hp.
    destruct (endswith (tag e) "simpleType").
    - destruct (is_some (find e "union")); [discriminate|].
      destruct (is_some (find e "enumeration")); discriminate.
    - destruct (endswith (tag e) "complexType").
      + destruct (isPattern003 e); [reflexivity|].
        destruct (isPattern005 e); [discriminate|].
        destruct (isPattern004 e); [discriminate|].
        destruct (is_collection_type self e); [discriminate|].
        destruct (has_only_attributes e); discriminate.
      + destruct (should_ignore_element e); discriminate. }
  rewrite transform_element_new_eq, Hp. cbn [fst].
  unfold isPattern003 in Hany. unfold transform_pattern_003.
  destruct (find e "any") as [any_element|]; [|discriminate].
  cbv zeta.
  assert (Hv : forall l, l = wildcard_other_namespace \/ l = wildcard_target_namespace ->
                         (forall st, In st l -> declared_type st <> Some "owl:Class")
                         /\ map declared_type l
                            = [Some "owl:DatatypeProperty"; Some "owl:ObjectProperty"]).
  { intros l [-> | ->]; (split; [|reflexivity]);
      intros st [<- | [<- | []]]; discriminate. }
  destruct (Hv (if (get_or any_element "namespace" "##targetNamespace" =? "##other")%string
                then wildcard_other_namespace else wildcard_target_namespace))
    as [Hv1 Hv2].
  { destruct (get_or any_element "namespace" "##targetNamespace" =? "##other")%string; auto. }
  split; [exact Hv1|]. split; [exact Hv2|].
  split; [now exists any_element|].
  split; [reflexivity|]. split; [reflexivity|].
  repeat constructor; discriminate.
Qed.

(** C8 (where the code departs from it).  The claim asks that every
    double quote of a comment is escaped in the rendered literal.
    [_format_comment_for_ttl] puts a backslash before every double
    quote and leaves the backslashes of the comment as they are.  For
    the documentation text of the four characters a, backslash, double
    quote, b the rendering is the one-line literal whose body is a,
    backslash, backslash, double quote, b: read as Turtle the two
    backslashes are one escaped backslash and the double quote after
    them is not escaped, so the claim fails there.  Without its
    backslash the same text is rendered with its double quote
    escaped. *)
Theorem C8_backslash_quote_unescaped :
  strip backslash_quote_comment = backslash_quote_comment
  /\ contains NL (strip backslash_quote_comment) = false
  /\ _format_comment_for_ttl (Some backslash_quote_comment)
     = (DQ ++ String "a" (String backslash (String backslash (String dquote "b")))
        ++ DQ)%string
  /\ unescaped_quote false (escape_quotes (strip backslash_quote_comment)) = true
  /\ ~ comment_rendered_as_literal backslash_quote_comment
  /\ comment_rendered_as_literal (String "a" (String dquote "b")).
Proof.
  split; [reflexivity|]. split; [reflexivity|]. split; [reflexivity|].
  split; [reflexivity|]. split.
  - intros [H _]. discriminate H.
  - split; [reflexivity|]. split; [discriminate|].
    intros _. split; reflexivity.
Qed.

(** C9.  Pattern classification is deterministic and reads the registry
    only: two invocations on the same element in states with the same
    registry return the same pattern, whatever else differs between the
    states; an invocation leaves the transformer, registry and hierarchy
    data included, as it was, so a second invocation returns the pattern
    of the first; and transforming any other element in between, which
    does not touch the registry or the hierarchy data, changes nothing
    to it. *)
Theorem C9_classification_deterministic (e : Element) (s1 s2 : Transformer) :
  complex_type_info s1 = complex_type_info s2 ->
  fst (find_pattern_type e s1) = fst (find_pattern_type e s2)
  /\ snd (find_pattern_type e s1) = s1
  /\ fst (find_pattern_type e (snd (find_pattern_type e s1)))
     = fst (find_pattern_type e s1)
  /\ forall (rt : PyRuntime) (e' : Element),
       let s' := snd (transform_element_new rt e' s1) in
       complex_type_info s' = complex_type_info s1
       /\ hierarchy_data s' = hierarchy_data s1
       /\ fst (find_pattern_type e s') = fst (find_pattern_type e s1).
Proof.
  intros H. cbn [find_pattern_type bind get_self ret fst snd].
  split; [now apply classify_registry|]. split; [reflexivity|].
  split; [reflexivity|]. intros rt e'.
  destruct (transform_element_new_spec rt e' s1) as [_ Hf].
  destruct Hf as (_ & _ & Hi & Hh & _).
  repeat split; try assumption. now apply classify_registry.
Qed.

(** C10 (as the code has it).  A name is recorded in the set of
    transformed types exactly when the element transformed under it
    produced statements.  Once a name is recorded, every later element
    with that name is skipped: it contributes no statement and changes
    nothing.  So of two elements with one name at most one emits a
    block, the first whose transformation is not empty: when the earlier
    one emitted a block the later one is skipped, and an earlier one
    without statements leaves the name free for the later one.  The same
    holds after the MESSAGE element, which is transformed first under the
    name MESSAGE. *)
Theorem C10_one_block_per_name (rt : PyRuntime) (s : Transformer)
    (e1 e2 : Element) (between : list Element) (name : string) :
  get_truthy e1 "name" = Some name ->
  get_truthy e2 "name" = Some name ->
  (mem name (transformed_types s) = true -> transform_step rt e2 s = (tt, s))
  /\ (let s1 := snd (transform_step rt e1 s) in
      let before := snd (transform_loop rt between s1) in
      ttl_statements s1 <> ttl_statements s ->
      transform_step rt e2 before = (tt, before))
  /\ (mem name (transformed_types s) = false ->
      let s1 := snd (transform_step rt e1 s) in
      match element_statements rt s e1 with
      | [] =>
          ttl_statements s1 = ttl_statements s
          /\ transformed_types s1 = transformed_types s
          /\ transform_step rt e2 s1 = transform_and_record rt name e2 s1
      | _ :: _ =>
          ttl_statements s1
          = ttl_statements s ++ element_statements rt s e1 ++ [SLine ""]
          /\ transformed_types s1 = set_add name (transformed_types s)
          /\ transform_step rt e2 s1 = (tt, s1)
      end)
  /\ (forall message_element,
        let s1 := snd (transform_and_record rt "MESSAGE" message_element s) in
        let before := snd (transform_loop rt between s1) in
        name = "MESSAGE" ->
        ttl_statements s1 <> ttl_statements s ->
        transform_step rt e2 before = (tt, before)).
Proof.
  intros H1 H2. split; [|split; [|split]].
  - intros Hm. now apply transform_step_skip with (name := name).
  - cbv zeta. intros Hc.
    apply transform_step_skip with (name := name); [assumption|].
    apply transform_loop_monotone.
    destruct (mem name (transformed_types s)) eqn:Hm.
    + now rewrite (transform_step_skip rt e1 s name H1 Hm).
    + rewrite (transform_step_fresh rt e1 s name H1 Hm) in *.
      now apply contributed_recorded.
  - intros Hm. cbv zeta. rewrite (transform_step_fresh rt e1 s name H1 Hm).
    destruct (transform_and_record_effect rt name e1 s) as [_ He].
    destruct (element_statements rt s e1); destruct He as [He1 He2].
    + repeat split; try assumption.
      apply transform_step_fresh; [assumption | now rewrite He2].
    + repeat split; try assumption.
      apply transform_step_skip with (name := name); [assumption|].
      rewrite He2. apply mem_set_add_same.
  - intros message_element. cbv zeta. intros -> Hc.
    apply transform_step_skip with (name := "MESSAGE"); [assumption|].
    apply transform_loop_monotone. now apply contributed_recorded.
Qed.

(* ================================================================== *)
(** * The claims on the schemas *)

(** Scenario B through C1: BORROWERS has no parent and is declared under
    owl:Thing. *)
Lemma C1_witness :
  get_truthy borrowers_type "name" = Some "BORROWERS"
  /\ incl ["owl:Thing"]
          (superclasses_of "BORROWERS"
             (fst (transform_element_new ascii_runtime borrowers_type
                     (loaded false borrowers_schema)))).
Proof.
  split; [reflexivity|].
  destruct (C1_superclass_asserted ascii_runtime (loaded false borrowers_schema)
              borrowers_type "BORROWERS" eq_refl) as [H _].
  apply H. right. right. repeat split; reflexivity.
Defined.

(** PHONES is a collection by its name only: it has no entry in the
    hierarchy data, nothing is emitted for it, and the output of the
    whole run stops after the prefixes. *)
Lemma C1_counterexample :
  classify (loaded false phones_schema) phones_type = Pattern_007
  /\ dict_get (hierarchy_data (loaded false phones_schema)) "PHONES" = None
  /\ fst (transform_element_new ascii_runtime phones_type
            (loaded false phones_schema)) = []
  /\ ttl_statements (snd (transform_xsd ascii_runtime phones_schema (init false)))
     = prefixes
  /\ ~ superclass_always_asserted ascii_runtime (loaded false phones_schema)
         phones_type.
Proof.
  split; [reflexivity|]. split; [reflexivity|]. split; [reflexivity|].
  split; [reflexivity|].
  intros H. specialize (H "PHONES" eq_refl eq_refl).
  apply (H "owl:Thing"). now left.
Qed.

(** Scenario B through C2: BORROWERS is a collection, and the status
    type of Scenario A is an enumeration. *)
Lemma C2_witness :
  fst (find_pattern_type borrowers_type (loaded false borrowers_schema))
  = Pattern_007
  /\ fst (find_pattern_type loan_status_type (init false)) = Pattern_002.
Proof.
  split.
  - destruct (C2_classifier_ordered (loaded false borrowers_schema) borrowers_type)
      as [_ H].
    destruct (H eq_refl) as (_ & _ & _ & H7 & _).
    apply H7; try reflexivity; apply is_some_find_false; reflexivity.
  - destruct (C2_classifier_ordered (init false) loan_status_type) as [H _].
    destruct (H eq_refl) as (_ & H2 & _).
    apply H2; [apply is_some_find_false | apply is_some_find]; reflexivity.
Defined.

(** ITEMS has no parent: it falls back to owl:Thing. *)
Lemma C3_witness :
  get_truthy items_type "name" = Some "ITEMS"
  /\ get_parent_types (loaded false deal_schema) "ITEMS" = []
  /\ In "owl:Thing"
        (superclasses_of "ITEMS"
           (fst (transform_element_new ascii_runtime items_type
                   (loaded false deal_schema)))).
Proof.
  split; [reflexivity|]. split; [reflexivity|].
  refine (proj1 (C3_root_fallback ascii_runtime (loaded false deal_schema)
                   items_type "ITEMS" eq_refl eq_refl _)).
  right. right. repeat split; reflexivity.
Defined.

(** DEAL holds six parties and is elected root container; ITEMS has no
    parent and is contained nowhere, and still its only superclass is
    owl:Thing. *)
Lemma C3_counterexample :
  classify (loaded false deal_schema) items_type = Pattern_007
  /\ get_parent_types (loaded false deal_schema) "ITEMS" = []
  /\ _is_top_level_collection (loaded false deal_schema) "ITEMS" = true
  /\ _find_root_container (loaded false deal_schema) = Some "DEAL"
  /\ superclasses_of "ITEMS"
       (fst (transform_element_new ascii_runtime items_type
               (loaded false deal_schema)))
     = ["owl:Thing"]
  /\ ~ root_container_adopted ascii_runtime (loaded false deal_schema) items_type.
Proof.
  split; [reflexivity|]. split; [reflexivity|]. split; [reflexivity|].
  split; [reflexivity|]. split; [reflexivity|].
  intros H. specialize (H "ITEMS" eq_refl eq_refl eq_refl eq_refl).
  vm_compute in H. destruct H as [H | []]. discriminate H.
Qed.

(** The bounded reference PARTY of DEAL_SETS is emitted as a contained
    class with a containment property. *)
Lemma C4_witness :
  hierarchy_built (loaded false deal_sets_schema)
  /\ In (contained_class "DEAL_SETS" "PARTY")
        (fst (transform_pattern_007_new deal_sets_type
                (loaded false deal_sets_schema)))
  /\ In (contains_property "DEAL_SETS" "PARTY")
        (fst (transform_pattern_007_new deal_sets_type
                (loaded false deal_sets_schema))).
Proof.
  split; [reflexivity|].
  destruct (C4_contained_references_as_classes
              (loaded false deal_sets_schema) deal_sets_type "DEAL_SETS"
              [ {| c_name := "DEAL_SET"; c_type := "DEAL_SET";
                   c_max_occurs := "unbounded" |};
                {| c_name := "PARTY"; c_type := "PARTY"; c_max_occurs := "1" |} ]
              {| c_name := "PARTY"; c_type := "PARTY"; c_max_occurs := "1" |}
              (loaded_hierarchy_built false deal_sets_schema)
              eq_refl eq_refl (or_intror (or_introl eq_refl)) eq_refl)
    as (H1 & H2 & _).
  split; assumption.
Defined.

(** DEAL_SETS refers to PARTY with the default multiplicity of one, and
    PARTY is emitted as a class under DEAL_SETS, not as a datatype
    property. *)
Lemma C4_counterexample :
  classify (loaded false deal_sets_schema) deal_sets_type = Pattern_007
  /\ dict_get (hierarchy_data (loaded false deal_sets_schema)) "DEAL_SETS"
     = Some [ {| c_name := "DEAL_SET"; c_type := "DEAL_SET";
                 c_max_occurs := "unbounded" |};
              {| c_name := "PARTY"; c_type := "PARTY"; c_max_occurs := "1" |} ]
  /\ map (fun st => (subject_of st, declared_type st))
         (fst (transform_pattern_007_new deal_sets_type
                 (loaded false deal_sets_schema)))
     = [(Some "mismo:DEAL_SETS", Some "owl:Class");
        (Some "mismo:DEAL_SET", Some "owl:Class");
        (Some "mismo:containsDEAL_SET", Some "owl:ObjectProperty");
        (Some "mismo:PARTY", Some "owl:Class");
        (Some "mismo:containsPARTY", Some "owl:ObjectProperty")]
  /\ ~ bounded_as_datatype_property (loaded false deal_sets_schema) deal_sets_type.
Proof.
  split; [reflexivity|]. split; [reflexivity|]. split; [reflexivity|].
  intros H.
  destruct (H "DEAL_SETS" _
              {| c_name := "PARTY"; c_type := "PARTY"; c_max_occurs := "1" |}
              eq_refl eq_refl eq_refl (or_intror (or_introl eq_refl)))
    as (_ & Hn & _).
  - discriminate.
  - apply Hn. vm_compute. right. right. right. now left.
Qed.

(** Scenario B through C5: BORROWER is a class under BORROWERS and
    containsBORROWER relates the two. *)
Lemma C5_witness :
  In {| c_name := "BORROWER"; c_type := "BORROWER"; c_max_occurs := "unbounded" |}
     [ {| c_name := "BORROWER"; c_type := "BORROWER"; c_max_occurs := "unbounded" |} ]
  /\ In "mismo:BORROWERS"
        (superclasses_of "BORROWER"
           (fst (transform_pattern_007_new borrowers_type
                   (loaded false borrowers_schema))))
  /\ In ("BORROWERS", "BORROWER")
        (pending_hierarchies
           (snd (transform_pattern_007_new borrowers_type
                   (loaded false borrowers_schema)))).
Proof.
  split; [now left|].
  destruct (C5_contained_class_and_property ascii_runtime
              (loaded false borrowers_schema) borrowers_type "BORROWERS"
              [ {| c_name := "BORROWER"; c_type := "BORROWER";
                   c_max_occurs := "unbounded" |} ]
              {| c_name := "BORROWER"; c_type := "BORROWER";
                 c_max_occurs := "unbounded" |}
              eq_refl eq_refl (or_introl eq_refl) eq_refl eq_refl eq_refl)
    as (_ & _ & H3 & H4 & _).
  split; assumption.
Defined.

(** FOOS holds any number of FOO and any number of EXTENSION, of the
    complex type FOOS_EXTENSION: no class is emitted for EXTENSION. *)
Lemma C5_counterexample :
  classify (loaded false foos_schema) foos_type = Pattern_007
  /\ dict_get (hierarchy_data (loaded false foos_schema)) "FOOS"
     = Some [ {| c_name := "FOO"; c_type := "FOO"; c_max_occurs := "unbounded" |};
              {| c_name := "EXTENSION"; c_type := "FOOS_EXTENSION";
                 c_max_occurs := "unbounded" |} ]
  /\ map (fun st => (subject_of st, declared_type st))
         (fst (transform_pattern_007_new foos_type (loaded false foos_schema)))
     = [(Some "mismo:FOOS", Some "owl:Class");
        (Some "mismo:FOO", Some "owl:Class");
        (Some "mismo:containsFOO", Some "owl:ObjectProperty");
        (Some "mismo:hasExtension", Some "owl:ObjectProperty")]
  /\ ~ unbounded_as_contained_class (loaded false foos_schema) foos_type.
Proof.
  split; [reflexivity|]. split; [reflexivity|]. split; [reflexivity|].
  intros H.
  destruct (H "FOOS" _
              {| c_name := "EXTENSION"; c_type := "FOOS_EXTENSION";
                 c_max_occurs := "unbounded" |}
              eq_refl eq_refl eq_refl (or_intror (or_introl eq_refl))
              eq_refl eq_refl)
    as [(class & Hin & Hsubj & _) _].
  vm_compute in Hin.
  repeat (destruct Hin as [<- | Hin]; [vm_compute in Hsubj; discriminate Hsubj|]).
  exact Hin.
Qed.

(** Scenario A: a datatype under xsd:string and the two properties
    Active and Closed under it. *)
Lemma C6_witness :
  fst (find_pattern_type loan_status_type (init false)) = Pattern_002
  /\ map (fun st => (subject_of st, declared_type st,
                     prop_value "rdfs:label" st,
                     prop_value "rdfs:subPropertyOf" st))
         (fst (transform_element_new ascii_runtime loan_status_type (init false)))
     = [(Some "mismo:LOAN_STATUS_TYPE", Some "rdfs:Datatype",
         Some (quoted "LOAN_STATUS_TYPE"), None);
        (Some "mismo:Active", Some "rdf:Property",
         Some (quoted "Active"), Some "mismo:LOAN_STATUS_TYPE");
        (Some "mismo:Closed", Some "rdf:Property",
         Some (quoted "Closed"), Some "mismo:LOAN_STATUS_TYPE")].
Proof.
  split; [reflexivity|].
  destruct (C6_enumeration_properties ascii_runtime (init false) loan_status_type
              "LOAN_STATUS_TYPE" "xsd:string"
              (xs "restriction" [("base", "xsd:string")]
                  [xs "enumeration" [("value", "Active")] [];
                   xs "enumeration" [("value", "Closed")] []])
              eq_refl eq_refl eq_refl eq_refl) as [H _].
  rewrite H. reflexivity.
Defined.

(** An enumeration with the values Active and the empty string: two
    facets, one property. *)
Lemma C6_counterexample :
  classify (init false) blank_status_type = Pattern_002
  /\ map (fun enum => get enum "value")
         (findall (xs "restriction" [("base", "xsd:string")]
                      [xs "enumeration" [("value", "Active")] [];
                       xs "enumeration" [("value", "")] []])
                  "enumeration")
     = [Some "Active"; Some ""]
  /\ map subject_of (transform_pattern_002 blank_status_type)
     = [Some "mismo:BLANK_STATUS_TYPE"; Some "mismo:Active"]
  /\ ~ one_property_per_enumeration blank_status_type.
Proof.
  split; [reflexivity|]. split; [reflexivity|]. split; [reflexivity|].
  intros H.
  destruct (H "BLANK_STATUS_TYPE" _ "xsd:string" eq_refl eq_refl eq_refl)
    as (props & Hp & Hl & _).
  vm_compute in Hp. injection Hp as <-. discriminate Hl.
Qed.

(** Scenario C: two properties and no class for MISMO_BASE. *)
Lemma C7_witness :
  fst (find_pattern_type mismo_base_type (init false)) = Pattern_003
  /\ fst (transform_element_new ascii_runtime mismo_base_type (init false))
     = wildcard_other_namespace
  /\ forall st,
       In st (fst (transform_element_new ascii_runtime mismo_base_type (init false))) ->
       declared_type st <> Some "owl:Class".
Proof.
  split; [reflexivity|].
  destruct (C7_wildcard_properties ascii_runtime (init false) mismo_base_type eq_refl)
    as (H1 & _ & (any_element & Ha & Hs) & _).
  split; [|exact H1].
  rewrite Hs. injection Ha as <-. reflexivity.
Defined.

(** The classification of BORROWERS before and after the whole run. *)
Lemma C9_witness :
  complex_type_info (loaded false borrowers_schema)
  = complex_type_info
      (snd (transform_xsd ascii_runtime borrowers_schema (init false)))
  /\ fst (find_pattern_type borrowers_type (loaded false borrowers_schema))
     = fst (find_pattern_type borrowers_type
              (snd (transform_xsd ascii_runtime borrowers_schema (init false)))).
Proof.
  split; [reflexivity|].
  exact (proj1 (C9_classification_deterministic borrowers_type
                  (loaded false borrowers_schema)
                  (snd (transform_xsd ascii_runtime borrowers_schema (init false)))
                  eq_refl)).
Defined.

(** BORROWER twice: the second one is skipped. *)
Lemma C10_witness :
  get_truthy borrower_type "name" = Some "BORROWER"
  /\ transform_step ascii_runtime borrower_type
       (snd (transform_loop ascii_runtime [borrowers_type]
               (snd (transform_step ascii_runtime borrower_type
                       (loaded false borrowers_schema)))))
     = (tt,
        snd (transform_loop ascii_runtime [borrowers_type]
               (snd (transform_step ascii_runtime borrower_type
                       (loaded false borrowers_schema))))).
Proof.
  split; [reflexivity|].
  destruct (C10_one_block_per_name ascii_runtime (loaded false borrowers_schema)
              borrower_type borrower_type [borrowers_type] "BORROWER"
              eq_refl eq_refl) as (_ & H & _).
  apply H. vm_compute. discriminate.
Defined.

(** CODE twice: the list type comes first and yields nothing, so the
    name is not recorded and the restriction after it is emitted. *)
Lemma C10_counterexample :
  get_truthy code_list_type "name" = Some "CODE"
  /\ get_truthy code_string_type "name" = Some "CODE"
  /\ fst (transform_element_new ascii_runtime code_list_type
            (loaded false code_schema)) = []
  /\ transformed_types
       (snd (transform_loop ascii_runtime [code_list_type]
               (loaded false code_schema))) = []
  /\ map subject_of
         (ttl_statements
            (snd (transform_loop ascii_runtime [code_list_type; code_string_type]
                    (loaded false code_schema))))
     = [Some "mismo:CODE"; None]
  /\ ~ later_duplicate_silent ascii_runtime (loaded false code_schema)
         code_list_type [] code_string_type.
Proof.
  split; [reflexivity|]. split; [reflexivity|]. split; [reflexivity|].
  split; [reflexivity|]. split; [reflexivity|].
  intros H. specialize (H "CODE" eq_refl eq_refl).
  vm_compute in H. discriminate H.
Qed.

(** ** The text of some statements *)

Example render_contained_class :
  render (contained_class "BORROWERS" "BORROWER")
  = ("mismo:BORROWER a owl:Class ;" ++ NL
     ++ "        rdfs:label " ++ quoted "BORROWER" ++ " ;" ++ NL
     ++ "        rdfs:comment "
     ++ quoted "Individual BORROWER element contained in BORROWERS collection"
     ++ " ;" ++ NL
     ++ "        rdfs:subClassOf mismo:BORROWERS .")%string.
Proof. vm_compute. reflexivity. Qed.

Example render_contains_property :
  render (contains_property "BORROWERS" "BORROWER")
  = ("mismo:containsBORROWER a owl:ObjectProperty ;" ++ NL
     ++ "        rdfs:label " ++ quoted "contains BORROWER" ++ " ;" ++ NL
     ++ "        rdfs:comment "
     ++ quoted "Relates BORROWERS to individual BORROWER instances" ++ " ;" ++ NL
     ++ "        owl:domain mismo:BORROWERS ;" ++ NL
     ++ "        owl:range mismo:BORROWER ;" ++ NL
     ++ "        rdfs:subPropertyOf rdf:member .")%string.
Proof. vm_compute. reflexivity. Qed.

Example render_enumeration :
  map render (transform_pattern_002 loan_status_type)
  = [("mismo:LOAN_STATUS_TYPE a rdfs:Datatype ;" ++ NL
      ++ "    rdfs:label " ++ quoted "LOAN_STATUS_TYPE" ++ " ;" ++ NL
      ++ "    rdfs:comment "
      ++ quoted "Base datatype for LOAN_STATUS_TYPE enumerations" ++ " ;" ++ NL
      ++ "    rdfs:subClassOf xsd:string .")%string;
     ("mismo:Active a rdf:Property ;" ++ NL
      ++ "    rdfs:label " ++ quoted "Active" ++ " ;" ++ NL
      ++ "    rdfs:comment " ++ quoted "Enumeration value: Active" ++ " ;" ++ NL
      ++ "    rdfs:subPropertyOf mismo:LOAN_STATUS_TYPE .")%string;
     ("mismo:Closed a rdf:Property ;" ++ NL
      ++ "    rdfs:label " ++ quoted "Closed" ++ " ;" ++ NL
      ++ "    rdfs:comment " ++ quoted "Enumeration value: Closed" ++ " ;" ++ NL
      ++ "    rdfs:subPropertyOf mismo:LOAN_STATUS_TYPE .")%string].
Proof. vm_compute. reflexivity. Qed.

(** The statements of the whole run on Scenario B, by subject and
    declared type. *)
Example borrowers_run :
  map (fun st => (subject_of st, declared_type st))
      (filter (fun st => match st with SLine _ => false | _ => true end)
              (ttl_statements
                 (snd (transform_xsd ascii_runtime borrowers_schema (init false)))))
  = [(Some "mismo:BORROWERS", Some "owl:Class");
     (Some "mismo:BORROWER", Some "owl:Class");
     (Some "mismo:containsBORROWER", Some "owl:ObjectProperty");
     (Some "mismo:BORROWER", Some "owl:Class");
     (Some "mismo:BORROWER", None);
     (Some "mismo:SequenceNumber", Some "owl:DatatypeProperty");
     (Some "mismo:containsBORROWER", Some "owl:ObjectProperty");
     (Some "mismo:BORROWERS", None);
     (Some "mismo:BORROWER", None);
     (Some "mismo:BORROWERS", None)].
Proof. vm_compute. reflexivity. Qed.

(* ================================================================== *)
(** * Further properties of the code *)

(** ** The type-reference formatter *)

Lemma contains_colon_mismo (t : string) : contains ":" (mismo t) = true.
Proof. destruct t; reflexivity. Qed.

Lemma mismo_truthy (t : string) : truthy (Some (mismo t)) = true.
Proof. reflexivity. Qed.

(** X1.  [_format_type_reference] is idempotent.  Every name that is not
    empty comes back with a namespace prefix: a name that has a colon is
    returned as it is, a name without one gets the prefix mismo:.  The
    empty name stays empty. *)
Theorem X1_format_type_reference (t : string) :
  _format_type_reference (_format_type_reference t) = _format_type_reference t
  /\ (t <> "" -> contains ":" (_format_type_reference t) = true)
  /\ (contains ":" t = true -> _format_type_reference t = t)
  /\ (t <> "" -> contains ":" t = false -> _format_type_reference t = mismo t)
  /\ _format_type_reference "" = "".
Proof.
  assert (H3 : contains ":" t = true -> _format_type_reference t = t).
  { intros H. unfold _format_type_reference. rewrite H.
    destruct (negb (truthy (Some t))); reflexivity. }
  assert (H4 : t <> "" -> contains ":" t = false -> _format_type_reference t = mismo t).
  { intros Hne H. unfold _format_type_reference. rewrite H.
    apply truthy_Some in Hne. now rewrite Hne. }
  split; [|split; [|split; [exact H3 | split; [exact H4 | reflexivity]]]].
  - destruct (String.eqb_spec t "") as [->|Hne]; [reflexivity|].
    destruct (contains ":" t) eqn:Hc.
    + now rewrite !(H3 eq_refl).
    + rewrite (H4 Hne eq_refl). unfold _format_type_reference.
      now rewrite mismo_truthy, contains_colon_mismo.
  - intros Hne. destruct (contains ":" t) eqn:Hc.
    + now rewrite (H3 eq_refl).
    + rewrite (H4 Hne eq_refl). apply contains_colon_mismo.
Qed.

Lemma X1_witness :
  "LoanIdentifier" <> ""
  /\ _format_type_reference "LoanIdentifier" = "mismo:LoanIdentifier"
  /\ _format_type_reference "xsd:string" = "xsd:string".
Proof.
  split; [discriminate|].
  destruct (X1_format_type_reference "LoanIdentifier") as (_ & _ & _ & H & _).
  destruct (X1_format_type_reference "xsd:string") as (_ & _ & H' & _).
  split; [apply H; [discriminate | reflexivity] | apply H'; reflexivity].
Defined.

(** ** The hierarchy data built from the registry *)

Lemma contained_of_origin (info : Registry) (ty : Element) (c : Contained) :
  In c (contained_of info ty) ->
  exists sequence elem,
    find ty "sequence" = Some sequence
    /\ In elem (findall sequence "element")
    /\ get elem "name" = Some (c_name c)
    /\ get elem "type" = Some (c_type c)
    /\ c_max_occurs c = get_or elem "maxOccurs" "1"
    /\ c_name c <> "" /\ c_type c <> "".
Proof.
  unfold contained_of. destruct (find ty "sequence") as [sequence|]; [|contradiction].
  rewrite in_flat_map. intros [elem [Hin H]]. exists sequence, elem.
  destruct (get elem "name") as [elem_name|]; [|contradiction].
  destruct (get elem "type") as [elem_type|]; [|contradiction].
  destruct (truthy (Some elem_name)) eqn:Tn; [|contradiction].
  destruct (truthy (Some elem_type)) eqn:Tt; [|contradiction].
  cbn [andb] in H.
  destruct (dict_get info elem_type) as [ti|]; [|contradiction].
  destruct (is_owl_class ti); [|contradiction].
  destruct H as [<- | []]. cbn [c_name c_type c_max_occurs].
  repeat split; try reflexivity; try assumption; now apply truthy_Some.
Qed.

Lemma build_hierarchy_origin (info : Registry) (l : Registry) :
  forall (hd : Hierarchy) (k : string) (cs : list Contained),
    dict_get
      (fold_left
         (fun hd (kv : string * TypeInfo) =>
            let (type_name, type_info) := kv in
            if negb (is_owl_class type_info) then hd
            else
              match contained_of info (element type_info) with
              | [] => hd
              | contained_types => dict_set hd type_name contained_types
              end)
         l hd) k = Some cs ->
    dict_get hd k = Some cs
    \/ exists ti, In (k, ti) l /\ is_owl_class ti = true
                  /\ cs = contained_of info (element ti) /\ cs <> [].
Proof.
  induction l as [|[type_name type_info] l IH]; intros hd k cs H.
  - now left.
  - cbn [fold_left] in H. apply IH in H.
    destruct H as [H | (ti & Hin & Ho & Hc & Hne)].
    + destruct (is_owl_class type_info) eqn:Ho; cbn [negb] in H; [|now left].
      destruct (contained_of info (element type_info)) as [|c0 rest] eqn:E; [now left|].
      rewrite dict_get_set in H. destruct (String.eqb_spec type_name k) as [->|].
      * right. exists type_info. injection H as <-.
        repeat split; [now left | assumption | now rewrite E | discriminate].
      * now left.
    + right. exists ti. repeat split; try assumption. now right.
Qed.

(** X2.  In hierarchy data built from the registry every entry is a
    list that is not empty and belongs to a registry entry registered as
    a class, and it is the list read off the first sequence of the
    element of that entry: every contained type has a name and a type
    that are not empty, its type is registered as a class, and it comes
    from an element of that sequence with this name and type, whose
    maxOccurs, 1 when absent, it records. *)
Theorem X2_hierarchy_edges (self : Transformer) (parent : string)
    (contained_types : list Contained) :
  hierarchy_built self ->
  dict_get (hierarchy_data self) parent = Some contained_types ->
  contained_types <> []
  /\ exists ti,
       In (parent, ti) (complex_type_info self)
       /\ is_owl_class ti = true
       /\ contained_types = contained_of (complex_type_info self) (element ti)
       /\ forall c,
            In c contained_types ->
            c_name c <> "" /\ c_type c <> ""
            /\ (exists target,
                  dict_get (complex_type_info self) (c_type c) = Some target
                  /\ is_owl_class target = true)
            /\ exists sequence elem,
                 find (element ti) "sequence" = Some sequence
                 /\ In elem (findall sequence "element")
                 /\ get elem "name" = Some (c_name c)
                 /\ get elem "type" = Some (c_type c)
                 /\ c_max_occurs c = get_or elem "maxOccurs" "1".
Proof.
  unfold hierarchy_built, build_hierarchy_data. intros Hb Hg. rewrite Hb in Hg.
  apply build_hierarchy_origin in Hg.
  destruct Hg as [Hg | (ti & Hin & Ho & Hc & Hne)]; [discriminate|].
  split; [assumption|]. exists ti.
  split; [assumption|]. split; [assumption|]. split; [assumption|].
  intros c H. rewrite Hc in H.
  pose proof (contained_of_class_like _ _ _ H) as Hk.
  destruct (contained_of_origin _ _ _ H)
    as (sq & elem & H1 & H2 & H3 & H4 & H5 & Hn & Ht).
  split; [assumption|]. split; [assumption|]. split.
  - unfold is_class_type in Hk. apply andb_true_iff in Hk. destruct Hk as [_ Hk].
    destruct (dict_get (complex_type_info self) (c_type c)) as [target|]; [|discriminate].
    now exists target.
  - now exists sq, elem.
Qed.

Lemma X2_witness :
  hierarchy_built (loaded false deal_sets_schema)
  /\ dict_get (hierarchy_data (loaded false deal_sets_schema)) "DEAL_SETS"
     = Some [ {| c_name := "DEAL_SET"; c_type := "DEAL_SET";
                 c_max_occurs := "unbounded" |};
              {| c_name := "PARTY"; c_type := "PARTY"; c_max_occurs := "1" |} ]
  /\ [ {| c_name := "DEAL_SET"; c_type := "DEAL_SET"; c_max_occurs := "unbounded" |};
       {| c_name := "PARTY"; c_type := "PARTY"; c_max_occurs := "1" |} ] <> [].
Proof.
  split; [reflexivity|]. split; [reflexivity|].
  exact (proj1 (X2_hierarchy_edges (loaded false deal_sets_schema) "DEAL_SETS" _
                  (loaded_hierarchy_built false deal_sets_schema) eq_refl)).
Defined.

(** ** The two parent resolvers *)

Lemma determine_parents_collect_typed (self : Transformer) (name : string) :
  _determine_collection_parents self name
  = collect (names_or_typed name) (edges (hierarchy_data self)) [].
Proof.
  unfold _determine_collection_parents, collect.
  rewrite <- (fold_left_edges
                (fun p c parents =>
                   if names_or_typed name c then append_new parents p else parents)).
  apply fold_left_pointwise. intros parents [p cs].
  apply fold_left_pointwise. intros parents' c. unfold names_or_typed.
  destruct (c_name c =? name)%string; [reflexivity|]. cbn [orb].
  now destruct (truthy (Some (c_type c)) && (c_type c =? name)%string).
Qed.

Lemma collect_pointwise (m1 m2 : Contained -> bool)
    (es : list (string * Contained)) :
  (forall pc, In pc es -> m1 (snd pc) = m2 (snd pc)) ->
  forall acc, collect m1 es acc = collect m2 es acc.
Proof.
  unfold collect. induction es as [|pc es IH]; intros H acc; [reflexivity|].
  cbn [fold_left]. rewrite (H pc (or_introl eq_refl)).
  apply IH. intros pc' Hin. apply H. now right.
Qed.

Lemma dict_set_in {V : Type} (d : dict V) (k k' : string) (v v' : V) :
  In (k', v') (dict_set d k v) -> In (k', v') d \/ v' = v.
Proof.
  induction d as [|[a b] r IH]; cbn [dict_set].
  - intros [E | []]. injection E as _ <-. now right.
  - destruct (a =? k)%string.
    + intros [E | H]; [injection E as _ <-; now right | left; now right].
    + intros [E | H]; [left; now left|].
      destruct (IH H) as [H' | H']; [left; now right | now right].
Qed.

Lemma build_hierarchy_in (info : Registry) (l : Registry) :
  forall (hd : Hierarchy) (k : string) (cs : list Contained),
    In (k, cs)
       (fold_left
          (fun hd (kv : string * TypeInfo) =>
             let (type_name, type_info) := kv in
             if negb (is_owl_class type_info) then hd
             else
               match contained_of info (element type_info) with
               | [] => hd
               | contained_types => dict_set hd type_name contained_types
               end)
          l hd) ->
    In (k, cs) hd \/ exists ty, cs = contained_of info ty.
Proof.
  induction l as [|[n ti] l IH]; intros hd k cs H; cbn [fold_left] in H;
    [now left|].
  apply IH in H. destruct H as [H | H]; [|now right].
  destruct (negb (is_owl_class ti)); [now left|].
  destruct (contained_of info (element ti)) as [|c0 cs0] eqn:E; [now left|].
  apply dict_set_in in H. destruct H as [H | ->]; [now left|].
  right. now exists (element ti).
Qed.

(** X3.  [_determine_collection_parents] returns, without repetition,
    the types with a containment edge to the name by element name, or
    by type when the name is not empty.  For a name that is not empty,
    and for every name when the hierarchy data is the one built from the
    registry, it returns the list of [get_parent_types]. *)
Theorem X3_resolvers_agree (self : Transformer) (name : string) :
  NoDup (_determine_collection_parents self name)
  /\ (forall p,
        In p (_determine_collection_parents self name)
        <-> exists cs c,
              In (p, cs) (hierarchy_data self) /\ In c cs
              /\ (c_name c = name \/ (c_type c = name /\ name <> "")))
  /\ (name <> "" ->
      _determine_collection_parents self name = get_parent_types self name)
  /\ (hierarchy_built self ->
      _determine_collection_parents self name = get_parent_types self name).
Proof.
  rewrite determine_parents_collect_typed.
  destruct (collect_spec (names_or_typed name) (edges (hierarchy_data self))
              [] (NoDup_nil _)) as [H1 H2].
  split; [exact H1|]. split; [|split].
  - intros p. rewrite H2. split.
    + intros [[] | [c [Hc Hm]]]. apply in_edges in Hc. destruct Hc as [cs [Hq Hc]].
      exists cs, c. split; [exact Hq|]. split; [exact Hc|].
      unfold names_or_typed in Hm. apply orb_true_iff in Hm.
      destruct Hm as [E | E]; [left; now apply String.eqb_eq|].
      apply andb_true_iff in E. destruct E as [T E].
      apply String.eqb_eq in E. apply truthy_Some in T. right. split; congruence.
    + intros (cs & c & Hq & Hc & Hm). right. exists c. split.
      * apply in_edges. now exists cs.
      * unfold names_or_typed. apply orb_true_iff.
        destruct Hm as [E | [E Hne]]; [left; now apply String.eqb_eq|].
        right. apply andb_true_iff. split.
        -- apply truthy_Some. congruence.
        -- now apply String.eqb_eq.
  - intros Hne. rewrite <- determine_parents_collect_typed.
    now apply determine_parents_get_parent_types.
  - intros Hb. rewrite get_parent_types_collect.
    apply collect_pointwise. intros [p c] Hin. cbn [snd].
    apply in_edges in Hin. destruct Hin as [cs [Hq Hc]].
    unfold names_or_typed, names_or_types.
    destruct (c_name c =? name)%string; [reflexivity|]. cbn [orb].
    assert (T : truthy (Some (c_type c)) = true).
    { unfold hierarchy_built, build_hierarchy_data in Hb. rewrite Hb in Hq.
      apply build_hierarchy_in in Hq. destruct Hq as [[] | [ty ->]].
      apply contained_of_class_like in Hc. unfold is_class_type in Hc.
      now apply andb_true_iff in Hc. }
    now rewrite T.
Qed.

Lemma X3_witness :
  "ITEM" <> ""
  /\ _determine_collection_parents (loaded false deal_schema) "ITEM"
     = get_parent_types (loaded false deal_schema) "ITEM".
Proof.
  split; [discriminate|].
  destruct (X3_resolvers_agree (loaded false deal_schema) "ITEM")
    as (_ & _ & H & _).
  apply H. discriminate.
Defined.

Lemma is_top_level_false (self : Transformer) (name : string) :
  _is_top_level_collection self name = false
  <-> exists p cs c,
        In (p, cs) (hierarchy_data self) /\ In c cs /\ c_name c = name.
Proof.
  unfold _is_top_level_collection. rewrite negb_false_iff, existsb_exists. split.
  - intros [[p cs] [Hin H]]. cbn [snd] in H. apply existsb_exists in H.
    destruct H as [c [Hc E]]. apply String.eqb_eq in E. now exists p, cs, c.
  - intros (p & cs & c & Hin & Hc & E). exists (p, cs). split; [assumption|].
    cbn [snd]. apply existsb_exists. exists c. split; [assumption|].
    now apply String.eqb_eq.
Qed.

(** X4.  [_is_top_level_collection] is false exactly when a list of the
    hierarchy data has a contained element of that name.  A name
    without containment parents is top level, and a name that is not top
    level has a containment parent. *)
Theorem X4_top_level (self : Transformer) (name : string) :
  (_is_top_level_collection self name = false
   <-> exists p cs c,
         In (p, cs) (hierarchy_data self) /\ In c cs /\ c_name c = name)
  /\ (get_parent_types self name = [] ->
      _is_top_level_collection self name = true)
  /\ (_is_top_level_collection self name = false ->
      get_parent_types self name <> []).
Proof.
  split; [apply is_top_level_false|].
  assert (H : _is_top_level_collection self name = false ->
              get_parent_types self name <> []).
  { intros Hf Hp. apply is_top_level_false in Hf.
    destruct Hf as (p & cs & c & Hin & Hc & E).
    assert (Hi : In p (get_parent_types self name)).
    { apply get_parent_types_spec. exists cs, c. tauto. }
    rewrite Hp in Hi. contradiction. }
  split; [|exact H].
  intros Hp. destruct (_is_top_level_collection self name) eqn:E; [reflexivity|].
  now apply H in Hp.
Qed.

Lemma X4_witness :
  get_parent_types (loaded false deal_schema) "ITEMS" = []
  /\ _is_top_level_collection (loaded false deal_schema) "ITEMS" = true.
Proof.
  split; [reflexivity|].
  apply (proj1 (proj2 (X4_top_level (loaded false deal_schema) "ITEMS"))).
  reflexivity.
Defined.

(** ** The election of the root container *)

Lemma sort_desc_first_max (l : list (string * nat)) :
  match sort_desc l with
  | [] => l = []
  | r :: _ =>
      exists l1 l2,
        l = l1 ++ r :: l2
        /\ (forall x, In x l1 -> snd x < snd r)
        /\ (forall x, In x l2 -> snd x <= snd r)
  end.
Proof.
  induction l as [|x l IH]; [reflexivity|].
  cbn [sort_desc fold_right]. fold (sort_desc l).
  destruct (sort_desc l) as [|r t].
  - subst l. cbn. exists [], []. repeat split; intros y [].
  - destruct IH as (l1 & l2 & -> & H1 & H2). cbn [insert_desc].
    destruct (Nat.leb_spec (snd r) (snd x)).
    + exists [], (l1 ++ r :: l2). split; [reflexivity|]. split; [intros y []|].
      intros y Hy. apply in_app_or in Hy. destruct Hy as [Hy | [<- | Hy]].
      * specialize (H1 y Hy). lia.
      * assumption.
      * specialize (H2 y Hy). lia.
    + exists (x :: l1), l2. split; [reflexivity|]. split; [|assumption].
      intros y [<- | Hy]; [assumption | now apply H1].
Qed.

Lemma flat_map_split {A B : Type} (f : A -> list B) (l : list A) :
  (forall a, List.length (f a) <= 1) ->
  forall (p1 p2 : list B) (b : B),
    flat_map f l = p1 ++ b :: p2 ->
    exists h1 a h2,
      l = h1 ++ a :: h2 /\ f a = [b]
      /\ flat_map f h1 = p1 /\ flat_map f h2 = p2.
Proof.
  intros Hf. induction l as [|a l IH]; intros p1 p2 b H.
  - destruct p1; discriminate H.
  - cbn [flat_map] in H. specialize (Hf a).
    destruct (f a) as [|b0 [|b1 r]] eqn:E; cbn [List.length] in Hf; [| |lia].
    + cbn [app] in H. destruct (IH _ _ _ H) as (h1 & a' & h2 & -> & Ha & H1 & H2).
      exists (a :: h1), a', h2. cbn [flat_map]. rewrite E.
      repeat split; assumption.
    + cbn [app] in H. destruct p1 as [|b' p1].
      * cbn [app] in H. injection H as <- <-.
        exists [], a, l. repeat split. exact E.
      * cbn [app] in H. injection H as <- H.
        destruct (IH _ _ _ H) as (h1 & a' & h2 & -> & Ha & H1 & H2).
        exists (a :: h1), a', h2. cbn [flat_map]. rewrite E, H1.
        repeat split; assumption.
Qed.

(** X5.  The root container [_find_root_container] elects has more than
    five contained types and, among the entries of the hierarchy data
    with the most contained types, it is the first in insertion order:
    every entry before it is strictly smaller and no entry after it is
    larger. *)
Theorem X5_root_election (self : Transformer) (root : string) :
  _find_root_container self = Some root ->
  exists before contained_types after,
    hierarchy_data self = before ++ (root, contained_types) :: after
    /\ 5 < List.length contained_types
    /\ (forall t cs, In (t, cs) before ->
                     List.length cs < List.length contained_types)
    /\ (forall t cs, In (t, cs) after ->
                     List.length cs <= List.length contained_types).
Proof.
  unfold _find_root_container.
  set (f := fun kv : string * list Contained =>
              if (5 <? List.length (snd kv))%nat
              then [(fst kv, List.length (snd kv))] else []).
  assert (Hf : forall kv, List.length (f kv) <= 1).
  { intros kv. unfold f. destruct (5 <? List.length (snd kv))%nat; cbn; lia. }
  assert (Hin : forall h t cs,
             In (t, cs) h -> 5 < List.length cs ->
             In (t, List.length cs) (flat_map f h)).
  { intros h t cs H Hlt. apply in_flat_map. exists (t, cs). split; [assumption|].
    unfold f. cbn [fst snd]. apply Nat.ltb_lt in Hlt. rewrite Hlt. now left. }
  pose proof (sort_desc_first_max (flat_map f (hierarchy_data self))) as Hs.
  destruct (sort_desc (flat_map f (hierarchy_data self))) as [|r rest]; [discriminate|].
  intros E. injection E as <-.
  destruct Hs as (p1 & p2 & Hp & H1 & H2).
  destruct (flat_map_split f _ Hf _ _ _ Hp) as (h1 & [t cs] & h2 & Hh & Ha & Hp1 & Hp2).
  unfold f in Ha. cbn [fst snd] in Ha.
  destruct (Nat.ltb_spec 5 (List.length cs)); [|discriminate].
  injection Ha as <-. cbn [fst snd] in *.
  exists h1, cs, h2. split; [assumption|]. split; [assumption|]. split.
  - intros t' cs' Hin'.
    destruct (Nat.le_gt_cases (List.length cs') 5) as [|Hlt]; [lia|].
    apply (H1 (t', List.length cs')). rewrite <- Hp1. now apply Hin.
  - intros t' cs' Hin'.
    destruct (Nat.le_gt_cases (List.length cs') 5) as [|Hlt]; [lia|].
    apply (H2 (t', List.length cs')). rewrite <- Hp2. now apply Hin.
Qed.

Lemma X5_witness :
  _find_root_container (loaded false deal_schema) = Some "DEAL"
  /\ exists before contained_types after,
       hierarchy_data (loaded false deal_schema)
       = before ++ ("DEAL", contained_types) :: after
       /\ 5 < List.length contained_types.
Proof.
  split; [reflexivity|].
  destruct (X5_root_election (loaded false deal_schema) "DEAL" eq_refl)
    as (b & cs & a & H1 & H2 & _).
  now exists b, cs, a.
Defined.

(** ** The registry after the analysis *)

Lemma analyze_one_get (owl : bool) (kind : string) (info : Registry)
    (ty : Element) (n : string) :
  dict_get (analyze_one owl kind info ty) n
  = if match get_truthy ty "name" with
       | Some m => (m =? n)%string
       | None => false
       end
    then Some {| is_owl_class := owl;
                 comment := doc_text_or ty (kind ++ n)%string;
                 element := ty |}
    else dict_get info n.
Proof.
  unfold analyze_one, get_truthy. destruct (get ty "name") as [m|]; [|reflexivity].
  destruct (truthy (Some m)); [|reflexivity].
  rewrite dict_get_set. destruct (String.eqb_spec m n) as [->|]; reflexivity.
Qed.

Lemma analyze_fold_named (owl : bool) (kind : string) (l : list Element)
    (n : string) :
  forall info,
    (exists ty, In ty l /\ get_truthy ty "name" = Some n) ->
    exists ti,
      dict_get (fold_left (analyze_one owl kind) l info) n = Some ti
      /\ is_owl_class ti = owl
      /\ In (element ti) l
      /\ get_truthy (element ti) "name" = Some n.
Proof.
  induction l as [|ty l IH]; intros info [ty0 [Hin Hn]]; [contradiction|].
  cbn [fold_left].
  destruct (in_dec (fun a b => String.string_dec a b) n
              (flat_map (fun t => match get_truthy t "name" with
                                  | Some m => [m] | None => [] end) l))
    as [Hl | Hl].
  - apply in_flat_map in Hl. destruct Hl as [t [Ht Hm]].
    destruct (get_truthy t "name") as [m|] eqn:Em; [|contradiction].
    destruct Hm as [-> | []].
    destruct (IH (analyze_one owl kind info ty) (ex_intro _ t (conj Ht Em)))
      as (ti & H1 & H2 & H3 & H4).
    exists ti. repeat split; try assumption. now right.
  - assert (Hkeep : forall info', dict_get (fold_left (analyze_one owl kind) l info') n
                                  = dict_get info' n).
    { clear IH Hin. induction l as [|t l IHl]; intros info'; [reflexivity|].
      cbn [fold_left]. rewrite IHl.
      - rewrite analyze_one_get.
        destruct (get_truthy t "name") as [m|] eqn:Em; [|reflexivity].
        destruct (String.eqb_spec m n) as [->|]; [|reflexivity].
        exfalso. apply Hl. cbn [flat_map]. rewrite Em. now left.
      - intros H. apply Hl. cbn [flat_map]. apply in_or_app. now right. }
    rewrite Hkeep, analyze_one_get.
    destruct Hin as [-> | Hin].
    + rewrite Hn, String.eqb_refl. eexists. repeat split; [now left | exact Hn].
    + exfalso. apply Hl. apply in_flat_map. exists ty0. split; [assumption|].
      rewrite Hn. now left.
Qed.

Lemma analyze_fold_unnamed (owl : bool) (kind : string) (l : list Element)
    (n : string) :
  (forall ty, In ty l -> get_truthy ty "name" <> Some n) ->
  forall info,
    dict_get (fold_left (analyze_one owl kind) l info) n = dict_get info n.
Proof.
  induction l as [|t l IH]; intros H info; [reflexivity|].
  cbn [fold_left]. rewrite IH by (intros ty Hty; apply H; now right).
  rewrite analyze_one_get.
  destruct (get_truthy t "name") as [m|] eqn:Em; [|reflexivity].
  destruct (String.eqb_spec m n) as [->|]; [|reflexivity].
  exfalso. apply (H t); [now left | assumption].
Qed.

(** X6.  The registry after [analyze_xsd_structure] on a root that has
    children.  A name carried by a simple type is registered as a
    datatype, also when a complex type carries it too, since the simple
    types are registered last.  A name carried by a complex type and by
    no simple type is registered as a class.  A name no type carries
    keeps the entry it had, or none. *)
Theorem X6_registry_kinds (root : Element) (info : Registry) (n : string) :
  elem_truthy root = true ->
  let registry := analyze_xsd_structure root info in
  ((exists ty, In ty (findall root "simpleType")
               /\ get_truthy ty "name" = Some n) ->
   exists ti, dict_get registry n = Some ti /\ is_owl_class ti = false
              /\ In (element ti) (findall root "simpleType"))
  /\ ((exists ty, In ty (findall root "complexType")
                  /\ get_truthy ty "name" = Some n) ->
      (forall ty, In ty (findall root "simpleType") ->
                  get_truthy ty "name" <> Some n) ->
      exists ti, dict_get registry n = Some ti /\ is_owl_class ti = true
                 /\ In (element ti) (findall root "complexType"))
  /\ ((forall ty, In ty (findall root "simpleType") ->
                  get_truthy ty "name" <> Some n) ->
      (forall ty, In ty (findall root "complexType") ->
                  get_truthy ty "name" <> Some n) ->
      dict_get registry n = dict_get info n).
Proof.
  intros Hr. cbv zeta. unfold analyze_xsd_structure. rewrite Hr. cbn [negb].
  split; [|split].
  - intros H.
    destruct (analyze_fold_named false "Simple type: " _ n
                (fold_left (analyze_one true "Complex type: ")
                           (findall root "complexType") info) H)
      as (ti & H1 & H2 & H3 & _).
    now exists ti.
  - intros Hc Hs. rewrite (analyze_fold_unnamed false "Simple type: " _ n Hs).
    destruct (analyze_fold_named true "Complex type: " _ n info Hc)
      as (ti & H1 & H2 & H3 & _).
    now exists ti.
  - intros Hs Hc. rewrite (analyze_fold_unnamed false "Simple type: " _ n Hs).
    apply (analyze_fold_unnamed true "Complex type: " _ n Hc).
Qed.

Lemma X6_witness :
  elem_truthy code_schema = true
  /\ exists ti, dict_get (analyze_xsd_structure code_schema []) "CODE" = Some ti
                /\ is_owl_class ti = false.
Proof.
  split; [reflexivity|].
  destruct (X6_registry_kinds code_schema [] "CODE" eq_refl) as [H _].
  destruct H as (ti & H1 & H2 & _).
  - exists code_list_type. split; [now left | reflexivity].
  - now exists ti.
Defined.

Lemma analyze_childless_root (root : Element) (info : Registry) :
  elem_truthy root = false -> analyze_xsd_structure root info = info.
Proof. intros H. unfold analyze_xsd_structure. now rewrite H. Qed.

(** ** The output only grows *)

Lemma extends_refl {A : Type} (l : list A) : extends l l.
Proof. exists []. now rewrite app_nil_r. Qed.

Lemma extends_trans {A : Type} (l1 l2 l3 : list A) :
  extends l1 l2 -> extends l2 l3 -> extends l1 l3.
Proof.
  intros [r1 ->] [r2 ->]. exists (r1 ++ r2). now rewrite app_assoc.
Qed.

Lemma extends_app {A : Type} (l r : list A) : extends l (l ++ r).
Proof. now exists r. Qed.

Lemma transform_and_record_extends (rt : PyRuntime) (name : string)
    (e : Element) (s : Transformer) :
  extends (ttl_statements s)
          (ttl_statements (snd (transform_and_record rt name e s))).
Proof.
  destruct (transform_and_record_effect rt name e s) as [_ He].
  destruct (element_statements rt s e); destruct He as [-> _];
    [apply extends_refl | apply extends_app].
Qed.

Lemma transform_step_extends (rt : PyRuntime) (e : Element) (s : Transformer) :
  extends (ttl_statements s) (ttl_statements (snd (transform_step rt e s))).
Proof.
  destruct (get_truthy e "name") as [name|] eqn:Hn.
  - destruct (mem name (transformed_types s)) eqn:Hm.
    + rewrite (transform_step_skip rt e s name Hn Hm). apply extends_refl.
    + rewrite (transform_step_fresh rt e s name Hn Hm).
      apply transform_and_record_extends.
  - unfold transform_step. rewrite Hn. apply extends_refl.
Qed.

Lemma transform_loop_extends (rt : PyRuntime) (l : list Element) :
  forall s, extends (ttl_statements s)
                    (ttl_statements (snd (transform_loop rt l s))).
Proof.
  induction l as [|e l IH]; intros s; [apply extends_refl|].
  rewrite transform_loop_cons.
  eapply extends_trans; [apply transform_step_extends | apply IH].
Qed.

Lemma append_pass_extends (heading : string) (statements : list Stmt)
    (s : Transformer) :
  extends (ttl_statements s)
          (ttl_statements (snd (append_pass heading statements s))).
Proof.
  destruct statements; [apply extends_refl|]. apply extends_app.
Qed.

Lemma transform_message_extends (rt : PyRuntime) (root : Element)
    (s : Transformer) :
  extends (ttl_statements s)
          (ttl_statements (snd (transform_message rt root s))).
Proof.
  unfold transform_message.
  destruct (find_message_element root) as [m|]; [|apply extends_refl].
  destruct (elem_truthy m); [|apply extends_refl].
  apply transform_and_record_extends.
Qed.

Lemma final_passes_extends (rt : PyRuntime) (s : Transformer) :
  extends (ttl_statements s) (ttl_statements (snd (final_passes rt s))).
Proof.
  unfold final_passes, bind, get_self, ret.
  pose proof (append_pass_extends "# Class Hierarchies and Containment Relationships"
                (establish_class_hierarchies rt s) s) as H1.
  destruct (append_pass "# Class Hierarchies and Containment Relationships"
              (establish_class_hierarchies rt s) s) as [u s1].
  cbn [snd] in H1.
  pose proof (append_pass_extends "# Hierarchy Consistency"
                (ensure_hierarchy_consistency s1) s1) as H2.
  destruct (append_pass "# Hierarchy Consistency"
              (ensure_hierarchy_consistency s1) s1) as [u2 s2].
  cbn [snd] in *. eapply extends_trans; eassumption.
Qed.

Lemma run_extends (rt : PyRuntime) (root : Element) (l : list Element)
    (s0 : Transformer) :
  extends (ttl_statements (snd (transform_message rt root s0)))
          (ttl_statements
             (snd ((transform_message rt root ;;; transform_loop rt l ;;;
                    final_passes rt) s0))).
Proof.
  apply snd_bind_rule
    with (Q := fun s => s = snd (transform_message rt root s0)); [reflexivity|].
  intros _ s1 ->.
  apply snd_bind_rule
    with (Q := fun s => extends (ttl_statements (snd (transform_message rt root s0)))
                                (ttl_statements s)).
  - apply transform_loop_extends.
  - intros _ s2 H2. eapply extends_trans; [exact H2 | apply final_passes_extends].
Qed.

(** X7.  The output only grows.  The statements a run of
    [transform_xsd] starts with, followed by the prefixes, are the
    beginning of the statements it ends with; every step of the main
    loop continues the statements it finds; and [transform_element_new]
    itself never writes to the output. *)
Theorem X7_output_append_only (rt : PyRuntime) (root : Element)
    (s : Transformer) :
  extends (ttl_statements s ++ prefixes)
          (ttl_statements (snd (transform_xsd rt root s)))
  /\ (forall e s', extends (ttl_statements s')
                           (ttl_statements (snd (transform_step rt e s'))))
  /\ (forall e s', ttl_statements (snd (transform_element_new rt e s'))
                   = ttl_statements s').
Proof.
  split; [|split].
  - rewrite transform_xsd_stages.
    eapply extends_trans; [|apply run_extends].
    apply (transform_message_extends rt root (prepared root s)).
  - intros e s'. apply transform_step_extends.
  - intros e s'. destruct (transform_element_new_spec rt e s') as [_ Hf].
    now destruct Hf as (_ & H & _).
Qed.

Lemma last_cons_default {A : Type} (l : list A) :
  forall a d, List.last (a :: l) d = List.last l a.
Proof.
  induction l as [|x l IH]; intros a d; [reflexivity|].
  change (List.last (a :: x :: l) d) with (List.last (x :: l) d).
  now rewrite (IH x d), (IH x a).
Qed.

Lemma find_message_fold (l : list Element) :
  forall acc,
    fold_left
      (fun message_element complex_type =>
         match get complex_type "name" with
         | Some name =>
             if (name =? "MESSAGE")%string then Some complex_type
             else message_element
         | None => message_element
         end) l acc
    = List.last (map Some (filter named_message l)) acc.
Proof.
  induction l as [|ct l IH]; intros acc; [reflexivity|].
  cbn [fold_left filter]. rewrite IH. unfold named_message at 2.
  destruct (get ct "name") as [name|]; [|reflexivity].
  destruct (name =? "MESSAGE")%string; [|reflexivity].
  cbn [map]. now rewrite last_cons_default.
Qed.

Lemma last_some_snoc {A : Type} (l : list A) :
  forall d m,
    List.last (map Some l) d = Some m ->
    (l = [] /\ d = Some m) \/ exists earlier, l = earlier ++ [m].
Proof.
  induction l as [|x l IH]; intros d m H; [now left|].
  right. cbn [map] in H. rewrite last_cons_default in H.
  destruct (IH (Some x) m H) as [[-> E] | [earlier ->]].
  - injection E as ->. now exists [].
  - now exists (x :: earlier).
Qed.

Lemma find_message_element_spec (root m : Element) :
  find_message_element root = Some m ->
  exists earlier,
    filter named_message (findall root "complexType") = earlier ++ [m].
Proof.
  unfold find_message_element. rewrite find_message_fold. intros H.
  destruct (last_some_snoc _ _ _ H) as [[_ E] | H']; [discriminate | exact H'].
Qed.

Lemma find_message_element_in (root m : Element) :
  find_message_element root = Some m ->
  In m (findall root "complexType") /\ get m "name" = Some "MESSAGE".
Proof.
  intros H. destruct (find_message_element_spec root m H) as [earlier He].
  assert (Hin : In m (filter named_message (findall root "complexType")))
    by (rewrite He; apply in_or_app; right; now left).
  apply filter_In in Hin. destruct Hin as [H1 H2]. split; [exact H1|].
  unfold named_message in H2. destruct (get m "name") as [name|]; [|discriminate].
  apply String.eqb_eq in H2. now subst.
Qed.

Lemma named_message_name (ct : Element) :
  named_message ct = true <-> get ct "name" = Some "MESSAGE".
Proof.
  unfold named_message. destruct (get ct "name") as [name|].
  - split.
    + intros H. apply String.eqb_eq in H. now subst.
    + intros E. injection E as ->. reflexivity.
  - split; discriminate.
Qed.

Lemma find_message_element_last (root : Element) :
  find_message_element root
  = List.last (map Some (filter named_message (findall root "complexType"))) None.
Proof. unfold find_message_element. apply find_message_fold. Qed.

Lemma transformable_complex_named (root e : Element) :
  In e (transformable_complex root)
  <-> In e (findall root "complexType") /\ get e "name" <> Some "MESSAGE".
Proof.
  unfold transformable_complex. rewrite filter_In.
  split; intros [H1 H2]; (split; [exact H1|]).
  - intros E. rewrite E in H2. discriminate H2.
  - destruct (get e "name") as [name|]; [|reflexivity].
    destruct (String.eqb_spec name "MESSAGE") as [->|]; [congruence | reflexivity].
Qed.

(** X8.  MESSAGE first.  The message element of [transform_xsd] is the
    last complex type named MESSAGE in document order: there is one
    exactly when some complex type is named MESSAGE, and none otherwise.
    The complex types of the main loop are the complex types that are
    not named MESSAGE, so all of them when there is no message element.
    When the message element has children and its statements are not
    empty, its block comes directly after the prefixes in the output.
    When there is no message element, or it has no children, the run is
    the main loop and the two final passes on the prepared
    transformer. *)
Theorem X8_message_first (rt : PyRuntime) (root : Element) (s : Transformer) :
  (forall message_element,
     find_message_element root = Some message_element
     <-> exists earlier,
           filter named_message (findall root "complexType")
           = earlier ++ [message_element])
  /\ (find_message_element root = None
      <-> forall complex_type,
            In complex_type (findall root "complexType") ->
            get complex_type "name" <> Some "MESSAGE")
  /\ (forall e,
        In e (transformable_complex root)
        <-> In e (findall root "complexType")
            /\ get e "name" <> Some "MESSAGE")
  /\ (forall message_element,
        find_message_element root = Some message_element ->
        elem_truthy message_element = true ->
        element_statements rt (prepared root s) message_element <> [] ->
        extends (ttl_statements s ++ prefixes
                 ++ element_statements rt (prepared root s) message_element
                 ++ [SLine ""])
                (ttl_statements (snd (transform_xsd rt root s))))
  /\ (find_message_element root = None
      \/ (exists message_element,
            find_message_element root = Some message_element
            /\ elem_truthy message_element = false) ->
      transform_xsd rt root s
      = (transform_loop rt (transformable_simple root ++ transformable_complex root) ;;;
         final_passes rt) (prepared root s)).
Proof.
  split; [|split; [|split; [|split]]].
  - intros m. split; [apply find_message_element_spec|].
    intros [earlier He]. rewrite find_message_element_last, He, map_app.
    apply last_last.
  - rewrite find_message_element_last. split.
    + intros H ct Hin Hn.
      assert (Hf : In ct (filter named_message (findall root "complexType")))
        by (apply filter_In; split; [exact Hin | now apply named_message_name]).
      destruct (filter named_message (findall root "complexType")) as [|x l];
        [destruct Hf|].
      destruct (exists_last (l := x :: l)) as (l' & a & E); [discriminate|].
      rewrite E, map_app in H. cbn [map] in H. rewrite last_last in H.
      discriminate H.
    + intros H.
      destruct (filter named_message (findall root "complexType")) as [|x l] eqn:E;
        [reflexivity|].
      assert (Hf : In x (filter named_message (findall root "complexType")))
        by (rewrite E; now left).
      apply filter_In in Hf. destruct Hf as [Hin Hn].
      apply named_message_name in Hn. now apply H in Hin.
  - intros e. apply transformable_complex_named.
  - intros m Hm Ht Hne. rewrite transform_xsd_stages.
    eapply extends_trans; [|apply run_extends].
    unfold transform_message. rewrite Hm, Ht.
    destruct (transform_and_record_effect rt "MESSAGE" m (prepared root s))
      as [_ He].
    destruct (element_statements rt (prepared root s) m) as [|st l];
      [congruence|].
    destruct He as [-> _]. cbn [prepared ttl_statements set_hierarchy_data
                                 set_complex_type_info set_ttl_statements
                                 set_xsd_root].
    rewrite <- !app_assoc. apply extends_refl.
  - intros H. rewrite transform_xsd_stages. unfold transform_message.
    destruct H as [-> | (m & -> & ->)]; reflexivity.
Qed.

Lemma X8_witness :
  find_message_element message_schema = Some message_type
  /\ extends
       (prefixes
        ++ element_statements ascii_runtime
             (prepared message_schema (init false)) message_type
        ++ [SLine ""])
       (ttl_statements
          (snd (transform_xsd ascii_runtime message_schema (init false))))
  /\ find_message_element borrowers_schema = None
  /\ transformable_complex borrowers_schema = [borrowers_type; borrower_type].
Proof.
  split; [reflexivity|].
  destruct (X8_message_first ascii_runtime message_schema (init false))
    as (_ & _ & _ & H & _).
  split; [apply (H message_type); [reflexivity | reflexivity | vm_compute; discriminate]|].
  destruct (X8_message_first ascii_runtime borrowers_schema (init false))
    as (_ & H2 & _).
  split; [|reflexivity].
  apply H2. intros ct Hin. vm_compute in Hin.
  destruct Hin as [<- | [<- | []]]; discriminate.
Defined.

(** ** Which emitters declare classes *)

Lemma class_with_parents_class (indent : nat) (name comment_ttl : string)
    (parent_types : list string) (st : Stmt) :
  In st (class_with_parents indent name comment_ttl parent_types) ->
  declared_type st = Some "owl:Class" ->
  subject_of st = Some (mismo name).
Proof.
  destruct parent_types as [|q qs]; cbn [class_with_parents].
  - now intros [<- | []].
  - intros [<- | H] Ht; [reflexivity|].
    apply in_map_iff in H. destruct H as [q' [<- _]]. discriminate Ht.
Qed.

Ltac no_class_member :=
  match goal with
  | H : In _ [] |- _ => destruct H
  | H : In _ (_ :: _) |- _ => destruct H as [<- | H]; [discriminate|]
  | H : In _ (flat_map _ _) |- _ =>
      apply in_flat_map in H; destruct H as [? [_ H]]
  | H : In _ (match ?x with _ => _ end) |- _ => destruct x
  | H : In _ (if ?x then _ else _) |- _ => destruct x
  end.

Lemma simple_emitters_no_class (rt : PyRuntime) (e : Element) (st : Stmt) :
  In st (transform_pattern_001 e) \/ In st (transform_pattern_001_1 e)
  \/ In st (transform_pattern_002 e) \/ In st (transform_pattern_003 e)
  \/ In st (transform_pattern_004 rt e) \/ In st (transform_pattern_005 rt e) ->
  declared_type st <> Some "owl:Class".
Proof.
  unfold transform_pattern_001, transform_pattern_001_1, transform_pattern_002,
    transform_pattern_003, transform_pattern_004, transform_pattern_005,
    wildcard_other_namespace, wildcard_target_namespace, wildcard_properties.
  cbv zeta.
  intros [H | [H | [H | [H | [H | H]]]]]; repeat no_class_member.
Qed.

Lemma attribute_statements_no_class (l : list Element)
    (f : Element -> string -> string -> Stmt) (st : Stmt) :
  (forall a n t, declared_type (f a n t) <> Some "owl:Class") ->
  In st (flat_map
           (fun attr =>
              match get_truthy attr "name", get_truthy attr "type" with
              | Some attr_name, Some attr_type => [f attr attr_name attr_type]
              | _, _ => []
              end) l) ->
  declared_type st <> Some "owl:Class".
Proof.
  intros Hf H. apply in_flat_map in H. destruct H as [a [_ H]].
  destruct (get_truthy a "name"); [|destruct H].
  destruct (get_truthy a "type"); [|destruct H].
  destruct H as [<- | []]. apply Hf.
Qed.

(** X9.  Only Patterns 006, 007 and 009 declare classes.  A class
    declared by the statements of an element is the class of the named
    type itself or, for a collection with Pattern 007 enabled, the class
    of a contained type of its hierarchy entry that is registered as a
    class and is not the extension marker. *)
Theorem X9_class_declarations (rt : PyRuntime) (self : Transformer)
    (e : Element) (st : Stmt) :
  In st (fst (transform_element_new rt e self)) ->
  declared_type st = Some "owl:Class" ->
  exists name,
    get_truthy e "name" = Some name
    /\ (((classify self e = Pattern_006 \/ classify self e = Pattern_009)
         /\ subject_of st = Some (mismo name))
        \/ (classify self e = Pattern_007
            /\ disable_pattern_007 self = false
            /\ (subject_of st = Some (mismo name)
                \/ exists contained_types c,
                     dict_get (hierarchy_data self) name = Some contained_types
                     /\ In c contained_types
                     /\ is_extension_marker (c_name c) (c_type c) = false
                     /\ is_class_type (complex_type_info self) (c_type c) = true
                     /\ st = contained_class name (c_name c)))).
Proof.
  rewrite (proj1 (transform_element_new_spec rt e self)).
  unfold element_statements. intros Hin Ht.
  destruct (classify self e) eqn:Hp;
    try (exfalso; apply (simple_emitters_no_class rt e st); [tauto | exact Ht]);
    try (destruct Hin; fail).
  - unfold transform_pattern_006 in Hin.
    destruct (get_truthy e "name") as [name|]; [|destruct Hin].
    exists name. split; [reflexivity|]. left. split; [now left|].
    cbv zeta in Hin. apply in_app_or in Hin. destruct Hin as [Hin | Hin].
    + exact (class_with_parents_class _ _ _ _ _ Hin Ht).
    + exfalso. apply in_app_or in Hin. destruct Hin as [Hin | Hin].
      * destruct (find e "sequence") as [sequence|]; [|destruct Hin].
        apply in_flat_map in Hin. destruct Hin as [elem [_ Hin]].
        destruct (get_truthy elem "name"); [|destruct Hin].
        destruct (get_truthy elem "type"); [|destruct Hin].
        destruct (is_extension_marker _ _); destruct Hin as [<- | []];
          discriminate Ht.
      * revert Ht.
        apply (attribute_statements_no_class (findall e "attribute")
                 (fun attr attr_name attr_type =>
                    attribute_property name (lower_first rt attr_name)
                      (fmt (spaced_lower rt attr_name)) attr attr_name attr_type));
          [discriminate | exact Hin].
  - destruct (disable_pattern_007 self); [destruct Hin|].
    unfold pattern_007_statements in Hin.
    destruct (get_truthy e "name") as [name|]; [|destruct Hin].
    exists name. split; [reflexivity|]. right.
    split; [reflexivity|]. split; [reflexivity|].
    destruct (dict_get (hierarchy_data self) name) as [cs|]; [|destruct Hin].
    apply in_app_or in Hin. destruct Hin as [Hin | Hin].
    + left. exact (class_with_parents_class _ _ _ _ _ Hin Ht).
    + right. apply in_flat_map in Hin. destruct Hin as [c [Hc Hin]].
      exists cs, c. split; [reflexivity|]. split; [exact Hc|].
      unfold entry_statements in Hin.
      destruct (is_extension_marker (c_name c) (c_type c)).
      * destruct Hin as [<- | []]. discriminate Ht.
      * destruct (is_class_type (complex_type_info self) (c_type c)).
        -- destruct Hin as [<- | [<- | []]]; [auto | discriminate Ht].
        -- destruct Hin as [<- | []]. discriminate Ht.
  - unfold transform_pattern_009 in Hin.
    destruct (get_truthy e "name") as [name|]; [|destruct Hin].
    exists name. split; [reflexivity|]. left. split; [now right|].
    cbv zeta in Hin. apply in_app_or in Hin. destruct Hin as [Hin | Hin].
    + exact (class_with_parents_class _ _ _ _ _ Hin Ht).
    + exfalso. revert Ht.
      apply (attribute_statements_no_class (findall e "attribute")
               (fun attr attr_name attr_type =>
                  attribute_property name attr_name (quoted attr_name)
                    attr attr_name attr_type));
        [discriminate | exact Hin].
Qed.

Lemma X9_witness :
  exists name, get_truthy borrower_type "name" = Some name.
Proof.
  destruct (X9_class_declarations ascii_runtime (loaded false borrowers_schema)
              borrower_type
              (hd (SLine "")
                  (fst (transform_element_new ascii_runtime borrower_type
                          (loaded false borrowers_schema)))))
    as (name & H & _).
  - vm_compute. now left.
  - vm_compute. reflexivity.
  - now exists name.
Defined.

(** ** The elements a run visits *)

Lemma findall_tag (root : Element) (local : string) (e : Element) :
  In e (findall root local) -> tag e = xsd local.
Proof.
  unfold findall. intros H. apply filter_In in H. destruct H as [_ H].
  now apply String.eqb_eq in H.
Qed.

(** X10.  The elements a run visits.  A simple type of the main loop is
    classified Pattern 001, 001.1 or 002, and its statements declare
    only rdfs:Datatype and rdf:Property.  A complex type of the main
    loop, and the message element, is classified Pattern 003, 004, 005,
    006, 007 or 009: the run never meets Pattern 008 or the unknown
    pattern.  For these complex types the test of Pattern 005 is that of
    [_is_extension_pattern], the tag never ending in EXTENSION. *)
Theorem X10_visited_patterns (rt : PyRuntime) (root : Element)
    (self : Transformer) (e : Element) :
  (In e (transformable_simple root) ->
   (classify self e = Pattern_001 \/ classify self e = Pattern_001_1
    \/ classify self e = Pattern_002)
   /\ forall st, In st (fst (transform_element_new rt e self)) ->
        declared_type st = Some "rdfs:Datatype"
        \/ declared_type st = Some "rdf:Property")
  /\ (In e (transformable_complex root) \/ find_message_element root = Some e ->
      (classify self e = Pattern_003 \/ classify self e = Pattern_004
       \/ classify self e = Pattern_005 \/ classify self e = Pattern_006
       \/ classify self e = Pattern_007 \/ classify self e = Pattern_009)
      /\ isPattern005 e = _is_extension_pattern e).
Proof.
  split.
  - intros H. unfold transformable_simple in H. apply filter_In in H.
    destruct H as [H _]. apply findall_tag in H.
    assert (Hc : classify self e
                 = if is_some (find e "union") then Pattern_001_1
                   else if is_some (find e "enumeration") then Pattern_002
                   else Pattern_001).
    { unfold classify. rewrite H. reflexivity. }
    split.
    + rewrite Hc. destruct (is_some (find e "union")); [tauto|].
      destruct (is_some (find e "enumeration")); tauto.
    + rewrite (proj1 (transform_element_new_spec rt e self)).
      unfold element_statements. rewrite Hc. intros st Hst.
      destruct (is_some (find e "union")).
      * unfold transform_pattern_001_1 in Hst. cbv zeta in Hst.
        destruct (get_truthy e "name"); [|destruct Hst].
        destruct (find e "union") as [u|]; [|destruct Hst].
        destruct (get_truthy u "memberTypes"); [|destruct Hst].
        destruct Hst as [<- | []]. now left.
      * destruct (is_some (find e "enumeration")).
        -- unfold transform_pattern_002 in Hst.
           destruct (get_truthy e "name"); [|destruct Hst].
           destruct (find e "restriction") as [r|]; [|destruct Hst].
           destruct (get_truthy r "base"); [|destruct Hst].
           destruct Hst as [<- | Hst]; [now left|].
           apply in_flat_map in Hst. destruct Hst as [en [_ Hst]].
           destruct (get_truthy en "value"); [|destruct Hst].
           destruct Hst as [<- | []]. now right.
        -- unfold transform_pattern_001 in Hst. cbv zeta in Hst.
           destruct (get_truthy e "name"); [|destruct Hst].
           destruct (find e "restriction") as [r|]; [|destruct Hst].
           destruct (get_truthy r "base") as [b|]; [|destruct Hst].
           destruct (b =? "xsd:string")%string.
           ++ destruct (find r "maxLength"); destruct Hst as [<- | []]; now left.
           ++ destruct Hst as [<- | []]. now left.
  - intros H.
    assert (Ht : tag e = xsd "complexType").
    { destruct H as [H | H].
      - unfold transformable_complex in H. apply filter_In in H.
        destruct H as [H _]. now apply findall_tag in H.
      - apply find_message_element_in in H. destruct H as [H _].
        now apply findall_tag in H. }
    split.
    + unfold classify. rewrite Ht.
      change (endswith (xsd "complexType") "simpleType") with false.
      change (endswith (xsd "complexType") "complexType") with true.
      cbv iota.
      destruct (isPattern003 e); [tauto|].
      destruct (isPattern005 e); [tauto|].
      destruct (isPattern004 e); [tauto|].
      destruct (is_collection_type self e); [tauto|].
      destruct (has_only_attributes e); tauto.
    + unfold isPattern005. rewrite Ht. reflexivity.
Qed.

Lemma X10_witness :
  In borrower_type (transformable_complex borrowers_schema)
  /\ isPattern005 borrower_type = _is_extension_pattern borrower_type.
Proof.
  assert (H : In borrower_type (transformable_complex borrowers_schema))
    by (vm_compute; right; now left).
  split; [exact H|].
  exact (proj2 (proj2 (X10_visited_patterns ascii_runtime borrowers_schema
                         (loaded false borrowers_schema) borrower_type)
                  (or_introl H))).
Defined.

(** ** Invariants of a run *)

Section Invariant.

Variable I : Transformer -> Prop.

Hypothesis I_statements : forall s v, I s -> I (set_ttl_statements v s).
Hypothesis I_transformed : forall s v, I s -> I (set_transformed_types v s).
Hypothesis I_track :
  forall s name contained_types c,
    I s -> disable_pattern_007 s = false ->
    dict_get (hierarchy_data s) name = Some contained_types ->
    In c contained_types ->
    is_extension_marker (c_name c) (c_type c) = false ->
    is_class_type (complex_type_info s) (c_type c) = true ->
    I (snd (track_collection_element_relationship name (c_name c) s)).

Lemma pattern_007_loop_invariant (name : string)
    (contained_types rest : list Contained) :
  forall s,
    incl rest contained_types ->
    disable_pattern_007 s = false ->
    dict_get (hierarchy_data s) name = Some contained_types ->
    I s ->
    I (snd (pattern_007_loop name rest s)).
Proof.
  induction rest as [|c rest IH]; intros s Hi Hd Hh Hs; [exact Hs|].
  assert (Hi' : incl rest contained_types)
    by (intros x Hx; apply Hi; now right).
  rewrite pattern_007_loop_cons.
  destruct (is_extension_marker (c_name c) (c_type c)) eqn:Hm.
  - specialize (IH s Hi' Hd Hh Hs).
    now destruct (pattern_007_loop name rest s).
  - destruct (is_class_type (complex_type_info s) (c_type c)) eqn:Hk.
    + specialize (IH (snd (track_collection_element_relationship name (c_name c) s))
                     Hi' Hd Hh
                     (I_track s name contained_types c Hs Hd Hh
                        (Hi c (or_introl eq_refl)) Hm Hk)).
      now destruct (pattern_007_loop name rest _).
    + specialize (IH s Hi' Hd Hh Hs).
      now destruct (pattern_007_loop name rest s).
Qed.

Lemma transform_element_new_invariant (rt : PyRuntime) (e : Element)
    (s : Transformer) :
  I s -> I (snd (transform_element_new rt e s)).
Proof.
  intros Hs. rewrite transform_element_new_eq.
  destruct (classify s e); try exact Hs.
  destruct (disable_pattern_007 s) eqn:Hd; [exact Hs|].
  rewrite transform_pattern_007_new_eq.
  destruct (get_truthy e "name") as [name|]; [|exact Hs].
  destruct (dict_get (hierarchy_data s) name) as [cs|] eqn:Hh; [|exact Hs].
  pose proof (pattern_007_loop_invariant name cs cs s (incl_refl cs) Hd Hh Hs) as H.
  now destruct (pattern_007_loop name cs s).
Qed.

Lemma transform_and_record_invariant (rt : PyRuntime) (name : string)
    (e : Element) (s : Transformer) :
  I s -> I (snd (transform_and_record rt name e s)).
Proof.
  intros Hs. rewrite transform_and_record_eq.
  pose proof (transform_element_new_invariant rt e s Hs) as H.
  destruct (transform_element_new rt e s) as [[|st l] s1]; [exact H|].
  cbn [snd] in *. apply I_transformed, I_statements, H.
Qed.

Lemma transform_step_invariant (rt : PyRuntime) (e : Element)
    (s : Transformer) :
  I s -> I (snd (transform_step rt e s)).
Proof.
  intros Hs. destruct (get_truthy e "name") as [name|] eqn:Hn.
  - destruct (mem name (transformed_types s)) eqn:Hm.
    + now rewrite (transform_step_skip rt e s name Hn Hm).
    + rewrite (transform_step_fresh rt e s name Hn Hm).
      now apply transform_and_record_invariant.
  - unfold transform_step. now rewrite Hn.
Qed.

Lemma transform_loop_invariant (rt : PyRuntime) (l : list Element) :
  forall s, I s -> I (snd (transform_loop rt l s)).
Proof.
  induction l as [|e l IH]; intros s Hs; [exact Hs|].
  rewrite transform_loop_cons. apply IH. now apply transform_step_invariant.
Qed.

Lemma append_pass_invariant (heading : string) (statements : list Stmt)
    (s : Transformer) :
  I s -> I (snd (append_pass heading statements s)).
Proof.
  intros Hs. destruct statements; [exact Hs|]. now apply I_statements.
Qed.

Lemma run_invariant (rt : PyRuntime) (root : Element) (l : list Element)
    (s : Transformer) :
  I s ->
  I (snd ((transform_message rt root ;;; transform_loop rt l ;;;
           final_passes rt) s)).
Proof.
  intros Hs. apply snd_bind_rule with (Q := I).
  - unfold transform_message.
    destruct (find_message_element root) as [m|]; [|exact Hs].
    destruct (elem_truthy m); [|exact Hs].
    now apply transform_and_record_invariant.
  - intros _ s1 H1. apply snd_bind_rule with (Q := I).
    + now apply transform_loop_invariant.
    + intros _ s2 H2. unfold final_passes, bind, get_self, ret.
      pose proof (append_pass_invariant
                    "# Class Hierarchies and Containment Relationships"
                    (establish_class_hierarchies rt s2) s2 H2) as H3.
      destruct (append_pass "# Class Hierarchies and Containment Relationships"
                  (establish_class_hierarchies rt s2) s2) as [u s3].
      cbn [snd] in H3.
      pose proof (append_pass_invariant "# Hierarchy Consistency"
                    (ensure_hierarchy_consistency s3) s3 H3) as H4.
      now destruct (append_pass "# Hierarchy Consistency"
                      (ensure_hierarchy_consistency s3) s3).
Qed.

End Invariant.

Lemma tracked_elements_app (p q : list (string * string)) (c : string) :
  tracked_elements (p ++ q) c = tracked_elements p c ++ tracked_elements q c.
Proof. unfold tracked_elements. now rewrite filter_app, map_app. Qed.

Lemma track_in_sync (s : Transformer) (collection_name element_name : string) :
  tracking_in_sync s ->
  tracking_in_sync
    (snd (track_collection_element_relationship collection_name element_name s)).
Proof.
  intros H c. cbn [track_collection_element_relationship modify snd
                   set_tracking collection_element_pairs pending_hierarchies].
  rewrite tracked_elements_app. unfold paired_elements at 1.
  rewrite dict_get_set. unfold tracked_elements at 2. cbn [filter fst].
  destruct (String.eqb_spec collection_name c) as [->|Hc].
  - cbn [map snd]. now rewrite <- H.
  - cbn [map]. rewrite app_nil_r. apply H.
Qed.

(** X11.  The two tracking fields stay in step.  When
    [collection_element_pairs] lists for every collection the elements
    paired with it in [pending_hierarchies], in the same order, it still
    does after a whole run of [transform_xsd] and after any call of
    [transform_element_new].  An element that is not classified Pattern
    007, or any element when Pattern 007 is disabled, leaves the
    transformer as it was. *)
Theorem X11_tracking_in_sync (rt : PyRuntime) (root : Element)
    (s : Transformer) :
  tracking_in_sync s ->
  tracking_in_sync (snd (transform_xsd rt root s))
  /\ (forall e, tracking_in_sync (snd (transform_element_new rt e s)))
  /\ (forall e, classify s e <> Pattern_007 \/ disable_pattern_007 s = true ->
                snd (transform_element_new rt e s) = s).
Proof.
  intros Hs.
  assert (H1 : forall s' v, tracking_in_sync s' ->
                            tracking_in_sync (set_ttl_statements v s'))
    by (intros s' v H; exact H).
  assert (H2 : forall s' v, tracking_in_sync s' ->
                            tracking_in_sync (set_transformed_types v s'))
    by (intros s' v H; exact H).
  assert (H3 : forall s' name contained_types c,
                 tracking_in_sync s' ->
                 disable_pattern_007 s' = false ->
                 dict_get (hierarchy_data s') name = Some contained_types ->
                 In c contained_types ->
                 is_extension_marker (c_name c) (c_type c) = false ->
                 is_class_type (complex_type_info s') (c_type c) = true ->
                 tracking_in_sync
                   (snd (track_collection_element_relationship name (c_name c) s')))
    by (intros s' name cs c H _ _ _ _ _; now apply track_in_sync).
  split; [|split].
  - rewrite transform_xsd_stages.
    apply (run_invariant tracking_in_sync H1 H2 H3). exact Hs.
  - intros e.
    apply (transform_element_new_invariant tracking_in_sync H3). exact Hs.
  - intros e He. rewrite transform_element_new_eq.
    destruct (classify s e); try reflexivity.
    destruct He as [He | ->]; [congruence | reflexivity].
Qed.

Lemma X11_witness :
  tracking_in_sync (init false)
  /\ tracking_in_sync
       (snd (transform_xsd ascii_runtime borrowers_schema (init false))).
Proof.
  assert (H : tracking_in_sync (init false)) by (intros c; reflexivity).
  split; [exact H|].
  exact (proj1 (X11_tracking_in_sync ascii_runtime borrowers_schema
                  (init false) H)).
Defined.

(** X12.  With Pattern 007 disabled a run tracks nothing: the two
    tracking fields end as they started, and when nothing was pending
    the consistency pass yields no statement. *)
Theorem X12_disabled_tracks_nothing (rt : PyRuntime) (root : Element)
    (s : Transformer) :
  disable_pattern_007 s = true ->
  let s' := snd (transform_xsd rt root s) in
  pending_hierarchies s' = pending_hierarchies s
  /\ collection_element_pairs s' = collection_element_pairs s
  /\ (pending_hierarchies s = [] -> ensure_hierarchy_consistency s' = []).
Proof.
  intros Hd. cbv zeta.
  set (I := fun s' : Transformer =>
              disable_pattern_007 s' = true
              /\ pending_hierarchies s' = pending_hierarchies s
              /\ collection_element_pairs s' = collection_element_pairs s).
  assert (HI : I (snd (transform_xsd rt root s))).
  { rewrite transform_xsd_stages. apply (run_invariant I).
    - intros s' v H. exact H.
    - intros s' v H. exact H.
    - intros s' name cs c [H _] H'. congruence.
    - repeat split. exact Hd. }
  destruct HI as (H1 & H2 & H3).
  split; [exact H2|]. split; [exact H3|].
  intros Hp. unfold ensure_hierarchy_consistency. now rewrite H2, Hp.
Qed.

Lemma X12_witness :
  disable_pattern_007 (init true) = true
  /\ pending_hierarchies
       (snd (transform_xsd ascii_runtime borrowers_schema (init true))) = []
  /\ ensure_hierarchy_consistency
       (snd (transform_xsd ascii_runtime borrowers_schema (init true))) = [].
Proof.
  split; [reflexivity|].
  destruct (X12_disabled_tracks_nothing ascii_runtime borrowers_schema (init true)
              eq_refl) as (H1 & _ & H3).
  split; [exact H1 | exact (H3 eq_refl)].
Defined.

(** ** What the consistency pass re-asserts *)

(** X13.  Starting with nothing pending, every pair a run tracks is a
    containment edge of the hierarchy data, from the collection to a
    contained type registered as a class that is not the extension
    marker, and the consistency pass asserts the element as a subclass
    of the collection.  The statements of the pass are all
    rdfs:subClassOf assertions, and there are none exactly when nothing
    is tracked. *)
Theorem X13_tracked_pairs_are_edges (rt : PyRuntime) (root : Element)
    (s : Transformer) :
  pending_hierarchies s = [] ->
  let s' := snd (transform_xsd rt root s) in
  (forall collection_name element_name,
     In (collection_name, element_name) (pending_hierarchies s') ->
     (exists contained_types c,
        dict_get (hierarchy_data s') collection_name = Some contained_types
        /\ In c contained_types
        /\ c_name c = element_name
        /\ is_extension_marker (c_name c) (c_type c) = false
        /\ is_class_type (complex_type_info s') (c_type c) = true)
     /\ In (mismo element_name, mismo collection_name)
           (flat_map subclass_edges (ensure_hierarchy_consistency s')))
  /\ (forall st, In st (ensure_hierarchy_consistency s') ->
        exists note subject object,
          st = SNoted note subject "rdfs:subClassOf" object)
  /\ (ensure_hierarchy_consistency s' = [] <-> pending_hierarchies s' = []).
Proof.
  intros Hp. cbv zeta.
  set (I := fun s' : Transformer =>
              forall collection_name element_name,
                In (collection_name, element_name) (pending_hierarchies s') ->
                exists contained_types c,
                  dict_get (hierarchy_data s') collection_name = Some contained_types
                  /\ In c contained_types
                  /\ c_name c = element_name
                  /\ is_extension_marker (c_name c) (c_type c) = false
                  /\ is_class_type (complex_type_info s') (c_type c) = true).
  assert (HI : I (snd (transform_xsd rt root s))).
  { rewrite transform_xsd_stages. apply (run_invariant I).
    - intros s' v H. exact H.
    - intros s' v H. exact H.
    - intros s' name cs c H _ Hh Hc Hm Hk collection_name element_name Hin.
      cbn [track_collection_element_relationship modify snd set_tracking
           pending_hierarchies hierarchy_data complex_type_info] in *.
      apply in_app_or in Hin. destruct Hin as [Hin | [E | []]].
      + now apply H.
      + injection E as <- <-. now exists cs, c.
    - intros collection_name element_name Hin.
      cbn [prepared pending_hierarchies set_hierarchy_data set_complex_type_info
           set_ttl_statements set_xsd_root] in Hin.
      rewrite Hp in Hin. destruct Hin. }
  split; [|split].
  - intros collection_name element_name Hin. split; [now apply HI|].
    unfold ensure_hierarchy_consistency. apply in_flat_map.
    eexists. split.
    + apply in_flat_map. exists (collection_name, element_name).
      split; [exact Hin|]. left. reflexivity.
    + now left.
  - intros st Hst. unfold ensure_hierarchy_consistency in Hst.
    apply in_flat_map in Hst. destruct Hst as [[c el] [_ Hst]].
    destruct Hst as [<- | Hst]; [now eexists _, _, _|].
    destruct (_determine_collection_parents _ c).
    + destruct Hst as [<- | []]. now eexists _, _, _.
    + apply in_map_iff in Hst. destruct Hst as [q [<- _]]. now eexists _, _, _.
  - unfold ensure_hierarchy_consistency.
    destruct (pending_hierarchies (snd (transform_xsd rt root s))) as [|[c el] l].
    + split; reflexivity.
    + split; discriminate.
Qed.

Lemma X13_witness :
  pending_hierarchies (init false) = []
  /\ In ("BORROWERS", "BORROWER")
        (pending_hierarchies
           (snd (transform_xsd ascii_runtime borrowers_schema (init false))))
  /\ In (mismo "BORROWER", mismo "BORROWERS")
        (flat_map subclass_edges
           (ensure_hierarchy_consistency
              (snd (transform_xsd ascii_runtime borrowers_schema (init false))))).
Proof.
  split; [reflexivity|].
  assert (H : In ("BORROWERS", "BORROWER")
                (pending_hierarchies
                   (snd (transform_xsd ascii_runtime borrowers_schema (init false)))))
    by (vm_compute; now left).
  split; [exact H|].
  exact (proj2 (proj1 (X13_tracked_pairs_are_edges ascii_runtime borrowers_schema
                         (init false) eq_refl) "BORROWERS" "BORROWER" H)).
Defined.

(** ** The name-based hierarchy pass *)

Lemma pair_mem_In (p : string * string) (l : list (string * string)) :
  pair_mem p l = true <-> In p l.
Proof.
  unfold pair_mem. rewrite existsb_exists. split.
  - intros [[a b] [Hq E]]. apply andb_true_iff in E. cbn [fst snd] in E.
    destruct E as [E1 E2]. apply String.eqb_eq in E1, E2.
    destruct p as [c d]. cbn [fst snd] in *. now subst.
  - intros H. exists p. split; [exact H|].
    now rewrite !String.eqb_refl.
Qed.

Lemma common_pairs_fold (tt : list string) (l : list (string * string)) :
  forall acc p,
    In p (fold_left
            (fun pairs (p : string * string) =>
               if mem (fst p) tt && mem (snd p) tt then
                 if pair_mem p pairs then pairs else pairs ++ [p]
               else pairs) l acc)
    <-> In p acc
        \/ (In p l /\ mem (fst p) tt = true /\ mem (snd p) tt = true).
Proof.
  induction l as [|q l IH]; intros acc p; cbn [fold_left].
  - split; [now left | intros [H | [[] _]]; exact H].
  - rewrite IH. split.
    + intros [H | (H1 & H2 & H3)].
      * destruct (mem (fst q) tt && mem (snd q) tt) eqn:E; [|now left].
        destruct (pair_mem q acc); [now left|].
        apply in_app_or in H. destruct H as [H | [<- | []]]; [now left|].
        apply andb_true_iff in E. right. split; [now left | exact E].
      * right. split; [now right | split; assumption].
    + intros [H | ([<- | H1] & H2 & H3)].
      * left. destruct (mem (fst q) tt && mem (snd q) tt); [|exact H].
        destruct (pair_mem q acc); [exact H|]. apply in_or_app. now left.
      * left. rewrite H2, H3. cbn [andb].
        destruct (pair_mem q acc) eqn:E; [now apply pair_mem_In|].
        apply in_or_app. right. now left.
      * right. auto.
Qed.

(** X14.  The pass [establish_class_hierarchies] works on names only.
    It emits the cardinality restriction of a collection C on the
    property contains-E exactly when E is recorded as transformed and
    either C is met when iterating over the recorded names, ends in S
    and E is C without its last character, or (C, E) is one of the
    listed common patterns and C is recorded too. *)
Theorem X14_name_based_containment (rt : PyRuntime) (self : Transformer)
    (collection_name element_name : string) :
  In (SRestriction (mismo collection_name) (mismo ("contains" ++ element_name)))
     (establish_class_hierarchies rt self)
  <-> mem element_name (transformed_types self) = true
      /\ ((In collection_name (py_set_iter rt (transformed_types self))
           /\ endswith collection_name "S" = true
           /\ element_name = drop_last collection_name)
          \/ (In (collection_name, element_name) common_patterns
              /\ mem collection_name (transformed_types self) = true)).
Proof.
  unfold establish_class_hierarchies. cbv zeta. rewrite in_flat_map. split.
  - intros [[c el] [Hp Hst]].
    destruct Hst as [E | [E | []]]; [discriminate E|].
    injection E as <- <-.
    apply common_pairs_fold in Hp. cbn [fst snd] in Hp.
    destruct Hp as [Hp | (H1 & H2 & H3)].
    + apply in_flat_map in Hp. destruct Hp as [t [Ht Hp]].
      destruct (endswith t "S") eqn:Es; [|destruct Hp].
      destruct (mem (drop_last t) (transformed_types self)) eqn:Em; [|destruct Hp].
      destruct Hp as [E | []]. injection E as <- <-.
      split; [exact Em|]. left. auto.
    + split; [exact H3|]. right. auto.
  - intros (Hm & H).
    exists (collection_name, element_name). split.
    + apply common_pairs_fold. cbn [fst snd].
      destruct H as [(H1 & H2 & ->) | (H1 & H2)].
      * left. apply in_flat_map. exists collection_name. split; [exact H1|].
        rewrite H2, Hm. now left.
      * right. auto.
    + right. now left.
Qed.

Lemma X14_witness :
  In (SRestriction (mismo "BORROWERS") (mismo "containsBORROWER"))
     (establish_class_hierarchies ascii_runtime
        (snd (transform_xsd ascii_runtime borrowers_schema (init false)))).
Proof.
  apply (proj2 (X14_name_based_containment ascii_runtime
                  (snd (transform_xsd ascii_runtime borrowers_schema (init false)))
                  "BORROWERS" "BORROWER")).
  split; [vm_compute; reflexivity|].
  left. split; [vm_compute; now left|]. split; vm_compute; reflexivity.
Defined.

(** ** A collection by its members has an entry *)

Lemma dict_get_In {V : Type} (d : dict V) (k : string) (v : V) :
  dict_get d k = Some v -> In (k, v) d.
Proof.
  induction d as [|[a b] r IH]; cbn [dict_get]; [discriminate|].
  destruct (String.eqb_spec a k) as [->|_].
  - intros E. injection E as ->. now left.
  - intros E. right. now apply IH.
Qed.

Lemma dict_mem_set {V : Type} (d : dict V) (k k' : string) (v : V) :
  dict_mem (dict_set d k v) k' = (k =? k')%string || dict_mem d k'.
Proof.
  unfold dict_mem. rewrite dict_get_set. now destruct (k =? k')%string.
Qed.

Lemma build_hierarchy_mem (info : Registry) (l : Registry) :
  forall (hd : Hierarchy) (k : string),
    dict_mem hd k = true
    \/ (exists ti, In (k, ti) l /\ is_owl_class ti = true
                   /\ contained_of info (element ti) <> []) ->
    dict_mem
      (fold_left
         (fun hd (kv : string * TypeInfo) =>
            let (type_name, type_info) := kv in
            if negb (is_owl_class type_info) then hd
            else
              match contained_of info (element type_info) with
              | [] => hd
              | contained_types => dict_set hd type_name contained_types
              end)
         l hd) k = true.
Proof.
  induction l as [|[n ti] l IH]; intros hd k H; cbn [fold_left].
  - destruct H as [H | (ti & [] & _)]. exact H.
  - apply IH. destruct H as [H | (ti' & [E | Hin] & Hc & Hne)].
    + left. destruct (negb (is_owl_class ti)); [exact H|].
      destruct (contained_of info (element ti)); [exact H|].
      rewrite dict_mem_set, H. apply orb_true_r.
    + injection E as -> ->. left. rewrite Hc. cbn [negb].
      destruct (contained_of info (element ti')); [congruence|].
      now rewrite dict_mem_set, String.eqb_refl.
    + right. now exists ti'.
Qed.

Lemma collection_member_contained (self : Transformer) (e sequence elem : Element)
    (elem_name : string) :
  find e "sequence" = Some sequence ->
  In elem (findall sequence "element") ->
  collection_member self elem = true ->
  get_truthy elem "name" = Some elem_name ->
  exists elem_type,
    get_truthy elem "type" = Some elem_type
    /\ In {| c_name := elem_name; c_type := elem_type;
             c_max_occurs := get_or elem "maxOccurs" "1" |}
          (contained_of (complex_type_info self) e).
Proof.
  intros Hs Hin Hm Hn. unfold collection_member in Hm.
  destruct (get_truthy elem "type") as [elem_type|] eqn:Ht; [|discriminate].
  exists elem_type. split; [reflexivity|].
  unfold contained_of. rewrite Hs. apply in_flat_map. exists elem.
  split; [exact Hin|]. cbv beta.
  unfold get_truthy in Hn, Ht.
  destruct (get elem "name") as [n|]; [|discriminate].
  destruct (truthy (Some n)) eqn:Tn; [|discriminate]. injection Hn as ->.
  destruct (get elem "type") as [t|]; [|discriminate].
  destruct (truthy (Some t)) eqn:Tt; [|discriminate]. injection Ht as ->.
  cbn [andb].
  destruct (dict_get (complex_type_info self) elem_type) as [ti|]; [|discriminate].
  assert (Hc : is_owl_class ti = true).
  { destruct (elem_truthy (element ti) && isPattern004 (element ti)); [discriminate|].
    destruct (elem_truthy (element ti) && isPattern005 (element ti)); [discriminate|].
    exact Hm. }
  rewrite Hc. now left.
Qed.

(** X15.  A complex type registered as a class whose first sequence
    has a named element that passes the member test of
    [is_collection_type] is a collection, and it has an entry in the
    hierarchy data built from the registry.  Classified Pattern 007,
    with the pattern enabled, its statements begin with its class
    declaration under the parents [_determine_collection_parents]
    resolves. *)
Theorem X15_member_collection_emits (rt : PyRuntime) (self : Transformer)
    (e : Element) (name : string) (ti : TypeInfo)
    (sequence elem : Element) (elem_name : string) :
  hierarchy_built self ->
  get_truthy e "name" = Some name ->
  dict_get (complex_type_info self) name = Some ti ->
  is_owl_class ti = true ->
  element ti = e ->
  find e "sequence" = Some sequence ->
  In elem (findall sequence "element") ->
  collection_member self elem = true ->
  get_truthy elem "name" = Some elem_name ->
  is_collection_type self e = true
  /\ dict_mem (hierarchy_data self) name = true
  /\ (classify self e = Pattern_007 ->
      disable_pattern_007 self = false ->
      exists comment_ttl rest,
        fst (transform_element_new rt e self)
        = class_with_parents 4 name comment_ttl
            (_determine_collection_parents self name) ++ rest).
Proof.
  intros Hb Hn Hd Hc He Hs Hin Hm Hen.
  assert (Hmem : dict_mem (hierarchy_data self) name = true).
  { rewrite Hb. unfold build_hierarchy_data. apply build_hierarchy_mem.
    right. exists ti. split; [now apply dict_get_In|]. split; [exact Hc|].
    rewrite He.
    destruct (collection_member_contained self e sequence elem elem_name
                Hs Hin Hm Hen) as (elem_type & _ & Hi).
    intros E. rewrite E in Hi. destruct Hi. }
  split; [|split; [exact Hmem|]].
  - unfold is_collection_type. rewrite Hs. apply orb_true_iff. left.
    apply existsb_exists. now exists elem.
  - intros Hp Hf. rewrite (proj1 (transform_element_new_spec rt e self)).
    unfold element_statements. rewrite Hp, Hf.
    unfold pattern_007_statements. rewrite Hn.
    destruct (dict_mem_get _ _ Hmem) as [cs ->]. now eexists _, _.
Qed.

Lemma X15_witness :
  hierarchy_built (loaded false borrowers_schema)
  /\ collection_member (loaded false borrowers_schema)
       (xs_element "BORROWER" "BORROWER" unbounded) = true
  /\ dict_mem (hierarchy_data (loaded false borrowers_schema)) "BORROWERS" = true.
Proof.
  split; [reflexivity|]. split; [reflexivity|].
  refine (proj1 (proj2 (X15_member_collection_emits ascii_runtime
                          (loaded false borrowers_schema) borrowers_type
                          "BORROWERS"
                          {| is_owl_class := true;
                             comment := Some "Complex type: BORROWERS";
                             element := borrowers_type |}
                          (xs "sequence" [] [xs_element "BORROWER" "BORROWER" unbounded])
                          (xs_element "BORROWER" "BORROWER" unbounded)
                          "BORROWER" _ _ _ _ _ _ _ _ _)));
    try reflexivity.
  vm_compute. now left.
Defined.

(** ** The literal of a comment *)

(** X16.  The literal [_format_comment_for_ttl] renders.  For a comment
    that is not empty: when the stripped text has a newline the
    rendering is the body, the stripped text with a backslash put before
    each double quote, on lines of its own between triple quotes;
    otherwise it is the body between double quotes, on one line; the
    escaping adds and removes no newline; and when the stripped text has
    no backslash, no double quote of the body is left unescaped.  An
    empty or missing comment is rendered as the empty string. *)
Theorem X16_comment_literal (c : string) :
  (c <> "" ->
   let body := escape_quotes (strip c) in
   (contains NL (strip c) = true ->
    _format_comment_for_ttl (Some c)
    = (DQ ++ DQ ++ DQ ++ NL ++ body ++ NL ++ DQ ++ DQ ++ DQ)%string)
   /\ (contains NL (strip c) = false ->
       _format_comment_for_ttl (Some c) = (DQ ++ body ++ DQ)%string
       /\ contains NL (_format_comment_for_ttl (Some c)) = false)
   /\ contains NL body = contains NL (strip c)
   /\ (contains (chr backslash) (strip c) = false ->
       unescaped_quote false body = false
       /\ comment_rendered_as_literal c))
  /\ _format_comment_for_ttl (Some "") = ""
  /\ _format_comment_for_ttl None = "".
Proof.
  split; [|split; reflexivity].
  intros Hc. cbv zeta.
  assert (H1 : contains NL (strip c) = true ->
               _format_comment_for_ttl (Some c)
               = (DQ ++ DQ ++ DQ ++ NL ++ escape_quotes (strip c)
                  ++ NL ++ DQ ++ DQ ++ DQ)%string).
  { intros H. now rewrite (format_comment_nonempty c Hc), H. }
  assert (H2 : contains NL (strip c) = false ->
               _format_comment_for_ttl (Some c)
               = (DQ ++ escape_quotes (strip c) ++ DQ)%string
               /\ contains NL (_format_comment_for_ttl (Some c)) = false).
  { intros H. rewrite (format_comment_nonempty c Hc), H.
    split; [reflexivity|].
    now rewrite !contains_NL_app, contains_NL_escape, H. }
  split; [exact H1|]. split; [exact H2|].
  split; [apply contains_NL_escape|].
  intros Hb. pose proof (unescaped_quote_escape (strip c) Hb) as Hq.
  split; [exact Hq|].
  unfold comment_rendered_as_literal. cbv zeta. auto.
Qed.

Lemma X16_witness :
  ("say " ++ DQ ++ "hi" ++ DQ ++ NL ++ "twice ")%string <> ""
  /\ _format_comment_for_ttl (Some ("say " ++ DQ ++ "hi" ++ DQ ++ NL ++ "twice ")%string)
     = (DQ ++ DQ ++ DQ ++ NL
        ++ "say " ++ String backslash DQ ++ "hi" ++ String backslash DQ ++ NL ++ "twice"
        ++ NL ++ DQ ++ DQ ++ DQ)%string
  /\ comment_rendered_as_literal ("say " ++ DQ ++ "hi" ++ DQ ++ NL ++ "twice ")%string.
Proof.
  split; [discriminate|].
  destruct (X16_comment_literal ("say " ++ DQ ++ "hi" ++ DQ ++ NL ++ "twice ")%string)
    as [H _].
  destruct H as (H1 & _ & _ & H4); [discriminate|].
  split; [rewrite H1; reflexivity | apply H4; reflexivity].
Defined.
